(** * MiDiMe audio pipeline: a shallow embedding of the Python sources

    The development follows the layout of [backend/audio_processing]:
    - [Py]              the fragment of Python and numpy semantics the code
                        relies on: exceptions and [try]/[except], [int()],
                        [round()], slicing, [max(..., key=...)],
                        [list.sort(key=...)], string formatting and
                        insertion-ordered dictionaries;
    - [DrumClassifier]  drum_classifier.py;
    - [OnsetDetector]   onset_detector.py;
    - [AudioService]    utils.py, stem_separator.py and audio_service.py.

    Python floats are modelled by rationals [Q]: every finite float is a
    rational and comparisons agree; rounding of arithmetic results, NaN
    and infinities are left out.  The libraries the code calls (numpy FFT,
    librosa, pydub, Spleeter, uuid) and the operating system are
    parameters: section variables for the two analysis modules, the class
    [Platform] for the service.  Logging is not modelled.  Each module
    ends with a concrete instance on which the code can be run. *)

From Stdlib Require Import ZArith QArith Qround Qabs Bool String Ascii Lia Lqa.
From Stdlib Require Import DecimalString.
From Stdlib Require Import List Permutation Sorted.
Import ListNotations.
Open Scope Q_scope.

(* ===================================================================== *)
(** * Python primitives *)
(* ===================================================================== *)

Module Py.

(** ** Exceptions *)

(** The exception classes that occur in the sources, with the part of the
    built-in class hierarchy that relates them.  All of them derive from
    [Exception]; [KeyboardInterrupt] and [SystemExit], which do not, are
    outside the model. *)
Inductive exc_class : Type :=
  | Exception
  | ValueError
  | RuntimeError
  | ImportError
  | OSError
  | FileNotFoundError
  | IndexError
  | KeyError
  | ZeroDivisionError.

Definition exc_class_eqb (c d : exc_class) : bool :=
  match c, d with
  | Exception, Exception | ValueError, ValueError
  | RuntimeError, RuntimeError | ImportError, ImportError
  | OSError, OSError | FileNotFoundError, FileNotFoundError
  | IndexError, IndexError | KeyError, KeyError
  | ZeroDivisionError, ZeroDivisionError => true
  | _, _ => false
  end.

(** Direct base class ([None] for the root [Exception]). *)
Definition base (c : exc_class) : option exc_class :=
  match c with
  | Exception => None
  | FileNotFoundError => Some OSError
  | _ => Some Exception
  end.

(** [issubclass c d], following [base] upwards; the hierarchy has depth 2. *)
Definition issubclass (c d : exc_class) : bool :=
  exc_class_eqb c d ||
  match base c with
  | None => false
  | Some b =>
      exc_class_eqb b d ||
      match base b with
      | None => false
      | Some b' => exc_class_eqb b' d
      end
  end.

(** An exception instance: its class and [str(e)]. *)
Record exn : Type := mk_exn { exn_class : exc_class; str : string }.

Definition isinstance (e : exn) (c : exc_class) : bool :=
  issubclass (exn_class e) c.

(** ** Computations that may raise *)

Inductive result (A : Type) : Type :=
  | Ok (a : A)
  | Raise (e : exn).
Arguments Ok {A} a.
Arguments Raise {A} e.

Definition bind {A B} (r : result A) (k : A -> result B) : result B :=
  match r with
  | Ok a => k a
  | Raise e => Raise e
  end.

(** [try: body except c1 as e: h1 e except c2 as e: h2 e ...]: the first
    clause whose class matches handles the exception; with no matching
    clause the exception propagates. *)
Fixpoint dispatch {A} (clauses : list (exc_class * (exn -> result A)))
    (e : exn) : result A :=
  match clauses with
  | [] => Raise e
  | (c, h) :: rest => if isinstance e c then h e else dispatch rest e
  end.

Definition try_except {A} (body : result A)
    (clauses : list (exc_class * (exn -> result A))) : result A :=
  match body with
  | Ok a => Ok a
  | Raise e => dispatch clauses e
  end.

(** ** Numbers *)

Definition Qlt_bool (x y : Q) : bool := negb (Qle_bool y x).

(** [int(x)] on a float: truncation toward zero. *)
Definition int (x : Q) : Z := Z.quot (Qnum x) (Zpos (Qden x)).

(** [round(x)] on a float: nearest integer, ties to the even one. *)
Definition round (x : Q) : Z :=
  let f := Qfloor x in
  let r := x - inject_Z f in
  if Qlt_bool r (1 # 2) then f
  else if Qlt_bool (1 # 2) r then (f + 1)%Z
  else if Z.even f then f else (f + 1)%Z.

(** [len(l)] as an integer. *)
Definition len {A} (l : list A) : Z := Z.of_nat (List.length l).

(** ** Sequences *)

(** Normalisation of one slice bound against a length [n]
    (negative bounds count from the end, then both are clamped). *)
Definition slice_index (n i : Z) : Z :=
  let i' := if (i <? 0)%Z then (i + n)%Z else i in
  if (i' <? 0)%Z then 0%Z else if (n <? i')%Z then n else i'.

(** [l[start:stop]]. *)
Definition slice {A} (l : list A) (start stop : Z) : list A :=
  let n := len l in
  let a := slice_index n start in
  let b := slice_index n stop in
  firstn (Z.to_nat (b - a)) (skipn (Z.to_nat a) l).

(** [sum] of a sequence of floats. *)
Definition sum (l : list Q) : Q := fold_left Qplus l 0.

(** [max(items, key=key)]: the first item whose key is not exceeded by a
    later one; the running maximum is replaced only by a strictly larger
    key.  Raises [ValueError] on an empty sequence. *)
Fixpoint max_from {A} (key : A -> Q) (best : A) (l : list A) : A :=
  match l with
  | [] => best
  | x :: l' =>
      if Qlt_bool (key best) (key x) then max_from key x l'
      else max_from key best l'
  end.

Definition max_key {A} (key : A -> Q) (l : list A) : result A :=
  match l with
  | [] => Raise (mk_exn ValueError "max() arg is an empty sequence")
  | x :: l' => Ok (max_from key x l')
  end.

(** [l.sort(key=key)]: a stable sort.  An element is inserted in front of
    the first element of the sorted tail whose key is not smaller, so that
    elements with equal keys keep their original order. *)
Fixpoint insert_by {A} (key : A -> Q) (x : A) (l : list A) : list A :=
  match l with
  | [] => [x]
  | y :: l' =>
      if Qle_bool (key x) (key y) then x :: y :: l'
      else y :: insert_by key x l'
  end.

Fixpoint sort_key {A} (key : A -> Q) (l : list A) : list A :=
  match l with
  | [] => []
  | x :: l' => insert_by key x (sort_key key l')
  end.

(** ** Strings *)

(** [str(z)] for an integer. *)
Definition str_int (z : Z) : string := NilZero.string_of_int (Z.to_int z).

(** Left-pad with zeros to [width] characters. *)
Fixpoint zero_pad (width : nat) (s : string) : string :=
  match width with
  | O => s
  | S w =>
      if (String.length s <? width)%nat then zero_pad w ("0" ++ s)%string
      else s
  end.

(** [f"{x:.{digits}f}"]: fixed-point notation with [digits] decimals. *)
Definition format_fixed (digits : nat) (x : Q) : string :=
  let scale := (10 ^ Z.of_nat digits)%Z in
  let n := round (Qabs x * inject_Z scale) in
  let sign := if Qlt_bool x 0 then "-"%string else EmptyString in
  let whole := str_int (n / scale) in
  match digits with
  | O => (sign ++ whole)%string
  | _ => (sign ++ whole ++ "."
          ++ zero_pad digits (str_int (n mod scale)))%string
  end.

(** [s.lstrip('.')]. *)
Fixpoint lstrip_dot (s : string) : string :=
  match s with
  | String "." s' => lstrip_dot s'
  | _ => s
  end.

(** [s.lower()] on ASCII letters. *)
Definition lower_ascii (c : ascii) : ascii :=
  let n := nat_of_ascii c in
  if ((65 <=? n) && (n <=? 90))%nat then ascii_of_nat (n + 32) else c.

Fixpoint lower (s : string) : string :=
  match s with
  | EmptyString => EmptyString
  | String c s' => String (lower_ascii c) (lower s')
  end.

(** [sep.join(items)]. *)
Definition join (sep : string) (items : list string) : string :=
  String.concat sep items.

(** [s[:n]]. *)
Definition prefix_of (n : nat) (s : string) : string := substring 0 n s.

(** [item in items] for strings. *)
Definition str_in (item : string) (items : list string) : bool :=
  existsb (String.eqb item) items.

(** [round(x, 2)]. *)
Definition round2 (x : Q) : Q := inject_Z (round (x * 100)) / 100.

(** ** Dictionaries

    A [dict] keeps its keys in insertion order, which [max], [items()] and
    iteration observe; it is an association list without duplicate keys. *)
Section Dict.
Context {K V : Type} (eqb : K -> K -> bool).

Definition dict : Type := list (K * V).

Fixpoint get (d : dict) (k : K) : option V :=
  match d with
  | [] => None
  | (k', v) :: d' => if eqb k k' then Some v else get d' k
  end.

(** [d[k]] *)
Definition getitem (d : dict) (k : K) : result V :=
  match get d k with
  | Some v => Ok v
  | None => Raise (mk_exn KeyError "key")
  end.

(** [d.keys()], in insertion order. *)
Definition keys (d : dict) : list K := map fst d.

(** Replace the value stored under an existing key, in place. *)
Fixpoint update (d : dict) (k : K) (f : V -> V) : dict :=
  match d with
  | [] => []
  | (k', v) :: d' =>
      if eqb k k' then (k', f v) :: d' else (k', v) :: update d' k f
  end.
End Dict.
Arguments dict : clear implicits.

Module Notations.
Declare Scope py_scope.
Delimit Scope py_scope with py.
Notation "x <- c ;; k" := (bind c (fun x => k))
  (at level 61, c at next level, right associativity) : py_scope.
Notation "' pat <- c ;; k" :=
  (bind c (fun x => match x with pat => k end))
  (at level 61, pat pattern, c at next level, right associativity)
  : py_scope.
End Notations.

(** ** Basic facts *)

Lemma Qlt_bool_iff (x y : Q) : Qlt_bool x y = true <-> x < y.
Proof.
  unfold Qlt_bool. rewrite negb_true_iff.
  split; intro H.
  - apply Qnot_le_lt. intro Hle. apply Qle_bool_iff in Hle. congruence.
  - destruct (Qle_bool y x) eqn:E; [|reflexivity].
    apply Qle_bool_iff in E. exfalso. exact (Qlt_not_le _ _ H E).
Qed.

Lemma Qlt_bool_false_iff (x y : Q) : Qlt_bool x y = false <-> y <= x.
Proof.
  unfold Qlt_bool. rewrite negb_false_iff. apply Qle_bool_iff.
Qed.

Lemma Qle_bool_false_iff (x y : Q) : Qle_bool x y = false <-> y < x.
Proof.
  rewrite <- Qlt_bool_iff. unfold Qlt_bool. now rewrite negb_true_iff.
Qed.

(** Every class of the model derives from [Exception]. *)
Lemma isinstance_Exception (e : exn) : isinstance e Exception = true.
Proof. destruct e as [c s]. destruct c; reflexivity. Qed.

(** A trailing [except Exception] clause lets nothing through. *)
Lemma try_except_Exception {A} (body : result A) (h : exn -> result A) :
  try_except body [(Exception, h)] =
  match body with Ok a => Ok a | Raise e => h e end.
Proof.
  destruct body as [a|e]; simpl; [reflexivity|].
  now rewrite isinstance_Exception.
Qed.



(** [sort_key] rearranges and orders by key. *)
Lemma insert_by_perm {A} (key : A -> Q) (x : A) (l : list A) :
  Permutation (insert_by key x l) (x :: l).
Proof.
  induction l as [|y l IH]; simpl; [reflexivity|].
  destruct (Qle_bool (key x) (key y)); [reflexivity|].
  rewrite IH. apply perm_swap.
Qed.

Lemma sort_key_perm {A} (key : A -> Q) (l : list A) :
  Permutation (sort_key key l) l.
Proof.
  induction l as [|x l IH]; simpl; [reflexivity|].
  rewrite insert_by_perm. now constructor.
Qed.

Lemma insert_by_sorted {A} (key : A -> Q) (x : A) (l : list A) :
  Sorted (fun a b => key a <= key b) l ->
  Sorted (fun a b => key a <= key b) (insert_by key x l).
Proof.
  induction 1 as [|y l Hs IH Hhd]; simpl; [repeat constructor|].
  destruct (Qle_bool (key x) (key y)) eqn:E.
  - apply Qle_bool_iff in E. repeat constructor; assumption.
  - apply Qle_bool_false_iff in E. constructor; [exact IH|].
    destruct Hhd as [|z l Hyz]; simpl.
    + constructor. now apply Qlt_le_weak.
    + destruct (Qle_bool (key x) (key z)); constructor;
        [now apply Qlt_le_weak | exact Hyz].
Qed.

Lemma sort_key_sorted {A} (key : A -> Q) (l : list A) :
  Sorted (fun a b => key a <= key b) (sort_key key l).
Proof.
  induction l as [|x l IH]; simpl; [constructor|].
  now apply insert_by_sorted.
Qed.

End Py.

Import Py.Notations.

(* ===================================================================== *)
(** * drum_classifier.py *)
(* ===================================================================== *)

Module DrumClassifier.
Import Py.
Local Open Scope py_scope.

(** The three class names ['kick'], ['snare'], ['hihat']. *)
Inductive drum_type : Type := kick | snare | hihat.

Definition drum_type_eqb (a b : drum_type) : bool :=
  match a, b with
  | kick, kick | snare, snare | hihat, hihat => true
  | _, _ => false
  end.

(** MIDI note numbers for standard drum mapping (General MIDI). *)
Definition DRUM_MIDI_NOTES : dict drum_type Z :=
  [(kick, 36%Z); (snare, 38%Z); (hihat, 42%Z)].

(** A drum pattern: class name to list of onset times. *)
Definition drum_pattern_t : Type := dict drum_type (list Q).

Section Classifier.

(** Whether [import librosa] succeeds. *)
Variable librosa_installed : bool.
(** [os.path.exists]. *)
Variable os_path_exists : string -> bool.
(** [librosa.load(path, sr=None)]: samples and sample rate. *)
Variable librosa_load : string -> result (list Q * Z).
(** Complex spectrum values, [np.fft.rfft] on a non-empty window, and
    [np.abs] on one spectrum value. *)
Variable complex : Type.
Variable rfft : list Q -> list complex.
Variable complex_abs : complex -> Q.

Definition import_librosa : result unit :=
  if librosa_installed then Ok tt
  else Raise (mk_exn ImportError "No module named 'librosa'").

(** [np.fft.rfft(window)]: numpy rejects an empty input. *)
Definition np_fft_rfft (window : list Q) : result (list complex) :=
  match window with
  | [] => Raise (mk_exn ValueError
                   "Invalid number of FFT data points (0) specified.")
  | _ => Ok (rfft window)
  end.

(** [1/sr] on an integer sample rate. *)
Definition inv_sr (sr : Z) : result Q :=
  if (sr =? 0)%Z then Raise (mk_exn ZeroDivisionError "division by zero")
  else Ok (1 / inject_Z sr).

(** [np.fft.rfftfreq(n, d)]: [arange(0, n//2 + 1) * (1.0/(n*d))]. *)
Definition np_fft_rfftfreq (n : Z) (d : Q) : list Q :=
  let val := 1 / (inject_Z n * d) in
  map (fun k => inject_Z (Z.of_nat k) * val) (seq 0 (Z.to_nat (n / 2 + 1))).

(** [(freqs >= lo) & (freqs < hi)] *)
Definition band_mask (freqs : list Q) (band : Z * Z) : list bool :=
  map (fun f => Qle_bool (inject_Z (fst band)) f
                && Qlt_bool f (inject_Z (snd band))) freqs.

(** [a[mask]] for a boolean mask: the shapes must agree. *)
Fixpoint np_select (a : list Q) (mask : list bool) : result (list Q) :=
  match a, mask with
  | [], [] => Ok []
  | x :: a', b :: mask' =>
      rest <- np_select a' mask' ;;
      Ok (if b then x :: rest else rest)
  | _, _ => Raise (mk_exn IndexError
                     "boolean index did not match indexed array")
  end.

Definition band_energy (magnitudes freqs : list Q) (band : Z * Z)
  : result Q :=
  selected <- np_select magnitudes (band_mask freqs band) ;;
  Ok (sum selected).

Definition kick_band : Z * Z := (20, 100)%Z.
Definition snare_band : Z * Z := (150, 250)%Z.
Definition hihat_band : Z * Z := (5000, 10000)%Z.

(** The window around the onset: [y[start_sample:end_sample]]. *)
Definition onset_window (y : list Q) (onset_sample window_size : Z)
  : list Q :=
  let start_sample := Z.max 0 (onset_sample - window_size / 2) in
  let end_sample := Z.min (len y) (onset_sample + window_size / 2) in
  slice y start_sample end_sample.

(** [energies.get] as the key of [max]; every key iterated is present. *)
Definition energies_get (energies : dict drum_type Q) (k : drum_type) : Q :=
  match get drum_type_eqb energies k with
  | Some v => v
  | None => 0
  end.

(** The body of the [try] block of [classify_drum_hit]. *)
Definition classify_drum_hit_body (y : list Q) (sr : Z)
    (onset_sample window_size : Z) : result drum_type :=
  _ <- import_librosa ;;
  let window := onset_window y onset_sample window_size in
  fft <- np_fft_rfft window ;;
  d <- inv_sr sr ;;
  let freqs := np_fft_rfftfreq (len window) d in
  let magnitudes := map complex_abs fft in
  kick_energy <- band_energy magnitudes freqs kick_band ;;
  snare_energy <- band_energy magnitudes freqs snare_band ;;
  hihat_energy <- band_energy magnitudes freqs hihat_band ;;
  let energies :=
    [(kick, kick_energy); (snare, snare_energy); (hihat, hihat_energy)] in
  drum_type <- max_key (energies_get energies) (keys energies) ;;
  Ok drum_type.

(** [classify_drum_hit]: any exception of the body is logged and answered
    with the default ['snare']. *)
Definition classify_drum_hit (y : list Q) (sr : Z)
    (onset_sample window_size : Z) : result drum_type :=
  try_except (classify_drum_hit_body y sr onset_sample window_size)
    [(Exception, fun _ => Ok snare)].

(** Default [window_size] of [classify_drum_hit]. *)
Definition default_window_size : Z := 2048.

(** [int(onset_time * sr)] *)
Definition onset_sample_of (onset_time : Q) (sr : Z) : Z :=
  int (onset_time * inject_Z sr).

(** [drum_pattern[drum_type].append(onset_time)] *)
Definition append_onset (drum_pattern : drum_pattern_t)
    (drum_type : drum_type) (onset_time : Q) : result drum_pattern_t :=
  _ <- getitem drum_type_eqb drum_pattern drum_type ;;
  Ok (update drum_type_eqb drum_pattern drum_type
        (fun times => times ++ [onset_time])).

(** The loop [for onset_time in onset_times]. *)
Fixpoint classify_onsets (y : list Q) (sr : Z) (onset_times : list Q)
    (drum_pattern : drum_pattern_t) : result drum_pattern_t :=
  match onset_times with
  | [] => Ok drum_pattern
  | onset_time :: rest =>
      let onset_sample := onset_sample_of onset_time sr in
      drum_type <- classify_drum_hit y sr onset_sample default_window_size ;;
      drum_pattern' <- append_onset drum_pattern drum_type onset_time ;;
      classify_onsets y sr rest drum_pattern'
  end.

Definition classify_drum_pattern (audio_path : string)
    (onset_times : list Q) : result drum_pattern_t :=
  if negb (os_path_exists audio_path) then
    Raise (mk_exn FileNotFoundError
             ("Audio file not found: " ++ audio_path))
  else
    try_except
      (_ <- import_librosa ;;
       '(y, sr) <- librosa_load audio_path ;;
       let drum_pattern := [(kick, []); (snare, []); (hihat, [])] in
       classify_onsets y sr onset_times drum_pattern)
      [(Exception, fun e =>
          Raise (mk_exn RuntimeError
                   ("Failed to classify drums: " ++ str e)))].

(** The expansion loop of [get_drum_midi_pattern] over
    [drum_pattern.items()]. *)
Fixpoint midi_items (items : list (drum_type * list Q))
    (midi_pattern : list (Q * Z)) : result (list (Q * Z)) :=
  match items with
  | [] => Ok midi_pattern
  | (drum_type, times) :: rest =>
      midi_note <- getitem drum_type_eqb DRUM_MIDI_NOTES drum_type ;;
      midi_items rest
        (midi_pattern ++ map (fun time => (time, midi_note)) times)
  end.

(** The part of [get_drum_midi_pattern] that follows classification:
    expand, then sort by time. *)
Definition to_midi_pattern (drum_pattern : drum_pattern_t)
  : result (list (Q * Z)) :=
  midi_pattern <- midi_items drum_pattern [] ;;
  Ok (sort_key fst midi_pattern).

Definition get_drum_midi_pattern (audio_path : string)
    (onset_times : list Q) : result (list (Q * Z)) :=
  drum_pattern <- classify_drum_pattern audio_path onset_times ;;
  to_midi_pattern drum_pattern.

(** ** Vocabulary of the statements *)

(** The class under which [classify_drum_pattern] files an onset time:
    the answer of [classify_drum_hit] at the onset's sample index. *)
Definition class_of_onset (y : list Q) (sr : Z) (onset_time : Q)
  : drum_type :=
  match classify_drum_hit y sr (onset_sample_of onset_time sr)
          default_window_size with
  | Ok c => c
  | Raise _ => snare
  end.

(** The onset times of one class, in input order. *)
Definition onsets_of_class (y : list Q) (sr : Z) (c : drum_type)
    (onset_times : list Q) : list Q :=
  filter (fun t => drum_type_eqb (class_of_onset y sr t) c) onset_times.




Definition midi_note_of (c : drum_type) : Z :=
  match c with kick => 36 | snare => 38 | hihat => 42 end.

(** The flat (time, note) pairs of a pattern, class by class. *)
Definition expand_pattern (drum_pattern : drum_pattern_t) : list (Q * Z) :=
  flat_map (fun item => map (fun time => (time, midi_note_of (fst item)))
                          (snd item)) drum_pattern.

(** ** Facts: [classify_drum_hit] *)

Lemma classify_drum_hit_total y sr onset_sample window_size :
  exists c, classify_drum_hit y sr onset_sample window_size = Ok c.
Proof.
  unfold classify_drum_hit. rewrite try_except_Exception.
  destruct (classify_drum_hit_body y sr onset_sample window_size); eauto.
Qed.

Lemma class_of_onset_spec y sr t :
  classify_drum_hit y sr (onset_sample_of t sr) default_window_size
  = Ok (class_of_onset y sr t).
Proof.
  unfold class_of_onset.
  destruct (classify_drum_hit_total y sr (onset_sample_of t sr)
              default_window_size) as [c Hc].
  now rewrite Hc.
Qed.










(** C4 (classify_drum_hit, lines 81-84).  [classify_drum_hit] never
    raises: it always returns a class, and whenever the analysis in its
    [try] block raises (for instance because the extracted window is empty
    and the spectrum cannot be computed, or librosa cannot be imported) the
    class returned is snare. *)
Theorem classify_drum_hit_fallback y sr onset_sample window_size :
  (exists c, classify_drum_hit y sr onset_sample window_size = Ok c) /\
  (forall e,
      classify_drum_hit_body y sr onset_sample window_size = Raise e ->
      classify_drum_hit y sr onset_sample window_size = Ok snare) /\
  (onset_window y onset_sample window_size = [] ->
   classify_drum_hit y sr onset_sample window_size = Ok snare) /\
  (librosa_installed = false ->
   classify_drum_hit y sr onset_sample window_size = Ok snare).
Proof.
  split; [apply classify_drum_hit_total|].
  assert (Hraise : forall e,
             classify_drum_hit_body y sr onset_sample window_size = Raise e ->
             classify_drum_hit y sr onset_sample window_size = Ok snare).
  { intros e He. unfold classify_drum_hit.
    rewrite try_except_Exception, He. reflexivity. }
  split; [exact Hraise|split].
  - intro Hw. unfold classify_drum_hit, classify_drum_hit_body.
    rewrite try_except_Exception, Hw.
    unfold import_librosa. destruct librosa_installed; reflexivity.
  - intro Hlib. unfold classify_drum_hit, classify_drum_hit_body.
    rewrite try_except_Exception. unfold import_librosa.
    rewrite Hlib. reflexivity.
Qed.

(** ** Facts: [classify_drum_pattern] *)

Lemma classify_onsets_spec y sr onset_times :
  forall ks ss hs,
    classify_onsets y sr onset_times [(kick, ks); (snare, ss); (hihat, hs)]
    = Ok [(kick, ks ++ onsets_of_class y sr kick onset_times);
          (snare, ss ++ onsets_of_class y sr snare onset_times);
          (hihat, hs ++ onsets_of_class y sr hihat onset_times)].
Proof.
  unfold onsets_of_class.
  induction onset_times as [|t rest IH]; intros ks ss hs.
  - simpl. now rewrite !app_nil_r.
  - cbn [classify_onsets filter]. rewrite class_of_onset_spec.
    cbn [bind].
    destruct (class_of_onset y sr t); cbn; rewrite IH;
      now rewrite <- ?app_assoc.
Qed.

Lemma classify_drum_pattern_spec audio_path onset_times y sr :
  os_path_exists audio_path = true ->
  librosa_installed = true ->
  librosa_load audio_path = Ok (y, sr) ->
  classify_drum_pattern audio_path onset_times
  = Ok [(kick, onsets_of_class y sr kick onset_times);
        (snare, onsets_of_class y sr snare onset_times);
        (hihat, onsets_of_class y sr hihat onset_times)].
Proof.
  intros Hex Hlib Hload. unfold classify_drum_pattern.
  rewrite Hex. cbn [negb]. rewrite try_except_Exception.
  unfold import_librosa. rewrite Hlib. cbn [bind]. rewrite Hload.
  cbn [bind]. now rewrite classify_onsets_spec.
Qed.

Lemma three_way_partition {A} (f : A -> drum_type) (l : list A) :
  Permutation
    (filter (fun x => drum_type_eqb (f x) kick) l
     ++ filter (fun x => drum_type_eqb (f x) snare) l
     ++ filter (fun x => drum_type_eqb (f x) hihat) l) l.
Proof.
  induction l as [|x l IH]; [constructor|].
  cbn [filter]. destruct (f x); cbn [drum_type_eqb].
  - simpl. now constructor.
  - etransitivity; [symmetry; apply Permutation_middle|].
    now constructor.
  - rewrite app_assoc.
    etransitivity; [symmetry; apply Permutation_middle|].
    rewrite <- app_assoc. now constructor.
Qed.

Lemma filter_ascending (p : Q -> bool) (l : list Q) :
  Sorted Qle l -> Sorted Qle (filter p l).
Proof.
  intro Hs. apply StronglySorted_Sorted.
  apply Sorted_StronglySorted in Hs; [|exact Qle_trans].
  induction Hs as [|x l Hs IH Hall]; simpl; [constructor|].
  destruct (p x); [|exact IH].
  constructor; [exact IH|].
  rewrite Forall_forall in *. intros z Hz.
  apply filter_In in Hz. now apply Hall.
Qed.

(** C1 (classify_drum_pattern).  For every loaded audio buffer and every
    list of onset times, [classify_drum_pattern] returns a mapping from
    kick, snare and hihat to time lists whose concatenation is a
    permutation of the input list, so the three lengths add up to
    [len(onset_times)]; when the input is ascending, so is each list. *)
Theorem classify_drum_pattern_partition audio_path onset_times y sr :
  os_path_exists audio_path = true ->
  librosa_installed = true ->
  librosa_load audio_path = Ok (y, sr) ->
  exists kicks snares hihats,
    classify_drum_pattern audio_path onset_times
    = Ok [(kick, kicks); (snare, snares); (hihat, hihats)] /\
    Permutation (kicks ++ snares ++ hihats) onset_times /\
    (length kicks + length snares + length hihats
     = length onset_times)%nat /\
    (Sorted Qle onset_times ->
     Sorted Qle kicks /\ Sorted Qle snares /\ Sorted Qle hihats).
Proof.
  intros Hex Hlib Hload.
  exists (onsets_of_class y sr kick onset_times),
         (onsets_of_class y sr snare onset_times),
         (onsets_of_class y sr hihat onset_times).
  split; [now apply classify_drum_pattern_spec|].
  pose proof (three_way_partition (class_of_onset y sr) onset_times) as Hp.
  fold (onsets_of_class y sr kick onset_times) in Hp.
  fold (onsets_of_class y sr snare onset_times) in Hp.
  fold (onsets_of_class y sr hihat onset_times) in Hp.
  split; [exact Hp|split].
  - apply Permutation_length in Hp. rewrite !length_app in Hp. lia.
  - intro Hs. unfold onsets_of_class.
    repeat split; now apply filter_ascending.
Qed.


(** ** Facts: [get_drum_midi_pattern] *)

Lemma DRUM_MIDI_NOTES_getitem c :
  getitem drum_type_eqb DRUM_MIDI_NOTES c = Ok (midi_note_of c).
Proof. destruct c; reflexivity. Qed.

Lemma midi_items_spec items :
  forall midi_pattern,
    midi_items items midi_pattern = Ok (midi_pattern ++ expand_pattern items).
Proof.
  induction items as [|[c times] rest IH]; intro acc; simpl.
  - now rewrite app_nil_r.
  - rewrite DRUM_MIDI_NOTES_getitem. cbn [bind]. rewrite IH.
    now rewrite <- app_assoc.
Qed.

Lemma to_midi_pattern_spec (drum_pattern : drum_pattern_t) :
  to_midi_pattern drum_pattern
  = Ok (sort_key fst (expand_pattern drum_pattern)).
Proof. unfold to_midi_pattern. now rewrite midi_items_spec. Qed.

Lemma expand_pattern_in drum_pattern time note :
  In (time, note) (expand_pattern drum_pattern) ->
  exists c times,
    In (c, times) drum_pattern /\ In time times /\ note = midi_note_of c.
Proof.
  unfold expand_pattern. intro H. apply in_flat_map in H.
  destruct H as [[c times] [Hitem H]]. simpl in H.
  apply in_map_iff in H. destruct H as [t [Heq Ht]].
  inversion Heq; subst. eauto.
Qed.

(** C7 (get_drum_midi_pattern, lines 183-196).  For every drum pattern
    the expansion returns a flat list of (time, note) pairs, sorted
    ascending by time, that holds exactly the pattern's times, each paired
    with the DRUM_MIDI_NOTES entry of its class (kick 36, snare 38,
    hihat 42); every note is 36, 38 or 42. *)
Theorem to_midi_pattern_sorted (drum_pattern : drum_pattern_t) :
  exists midi_pattern,
    to_midi_pattern drum_pattern = Ok midi_pattern /\
    Sorted (fun a b => fst a <= fst b) midi_pattern /\
    Permutation midi_pattern (expand_pattern drum_pattern) /\
    (forall time note,
        In (time, note) midi_pattern ->
        exists c times,
          In (c, times) drum_pattern /\ In time times /\
          get drum_type_eqb DRUM_MIDI_NOTES c = Some note) /\
    (forall time note,
        In (time, note) midi_pattern ->
        note = 36 \/ note = 38 \/ note = 42)%Z.
Proof.
  exists (sort_key fst (expand_pattern drum_pattern)).
  split; [apply to_midi_pattern_spec|].
  split; [apply sort_key_sorted|].
  split; [apply sort_key_perm|].
  split; intros time note H;
    apply (Permutation_in _ (sort_key_perm fst _)) in H;
    apply expand_pattern_in in H;
    destruct H as [c [times [H1 [H2 ->]]]].
  - exists c, times. repeat split; try assumption. now destruct c.
  - destruct c; simpl; auto.
Qed.

(** [get_drum_midi_pattern] is classification followed by the expansion. *)
Lemma get_drum_midi_pattern_sorted audio_path onset_times y sr :
  os_path_exists audio_path = true ->
  librosa_installed = true ->
  librosa_load audio_path = Ok (y, sr) ->
  exists midi_pattern,
    get_drum_midi_pattern audio_path onset_times = Ok midi_pattern /\
    Sorted (fun a b => fst a <= fst b) midi_pattern /\
    length midi_pattern = length onset_times.
Proof.
  intros Hex Hlib Hload. unfold get_drum_midi_pattern.
  rewrite (classify_drum_pattern_spec _ _ _ _ Hex Hlib Hload). cbn [bind].
  rewrite to_midi_pattern_spec. eexists. split; [reflexivity|].
  split; [apply sort_key_sorted|].
  rewrite (Permutation_length (sort_key_perm fst _)).
  unfold expand_pattern. simpl. rewrite !length_app, !length_map. simpl.
  pose proof (three_way_partition (class_of_onset y sr) onset_times) as H3.
  apply Permutation_length in H3. rewrite !length_app in H3.
  unfold onsets_of_class. lia.
Qed.

End Classifier.

(** ** A concrete instance

    A file system with the single file [drums.wav] and a spectrum that is
    exact over [Q]: the 4-point real DFT, and the zero spectrum of a silent
    window.  (Windows of other shapes do not occur in the examples; they
    are given a zero spectrum of the right length.)  [sample_abs] is the
    modulus of a spectrum value that lies on the real or imaginary axis. *)

Definition sample_rfft (window : list Q) : list (Q * Q) :=
  match window with
  | [x0; x1; x2; x3] =>
      [(x0 + x1 + x2 + x3, 0); (x0 - x2, x3 - x1); (x0 - x1 + x2 - x3, 0)]
  | _ => repeat (0, 0) (Z.to_nat (len window / 2 + 1))
  end.

Definition sample_abs (z : Q * Q) : Q := Qabs (fst z) + Qabs (snd z).

(** 1024 silent samples followed by one period of a wave at [sr/4]. *)
Definition sample_buffer : list Q := repeat 0 1024 ++ [1; 0; -1; 0].

Definition sample_exists (path : string) : bool := String.eqb path "drums.wav".

Definition sample_load (sr : Z) (path : string) : result (list Q * Z) :=
  Ok (sample_buffer, sr).

Example classify_kick :
  classify_drum_hit true _ sample_rfft sample_abs [1; 0; -1; 0] 200 2 4
  = Ok kick.
Proof. vm_compute. reflexivity. Qed.

Example classify_snare :
  classify_drum_hit true _ sample_rfft sample_abs [1; 0; -1; 0] 800 2 4
  = Ok snare.
Proof. vm_compute. reflexivity. Qed.

Example classify_hihat :
  classify_drum_hit true _ sample_rfft sample_abs [1; 0; -1; 0] 24000 2 4
  = Ok hihat.
Proof. vm_compute. reflexivity. Qed.

Example classify_silence :
  classify_drum_hit true _ sample_rfft sample_abs [0; 0; 0; 0] 44100 2 4
  = Ok kick.
Proof. vm_compute. reflexivity. Qed.

Example classify_pattern_sample :
  classify_drum_pattern true sample_exists (sample_load 800)
    _ sample_rfft sample_abs "drums.wav" [0; 64 # 25; 13 # 5]
  = Ok [(kick, [0]); (snare, [64 # 25; 13 # 5]); (hihat, [])].
Proof. vm_compute. reflexivity. Qed.

Example midi_pattern_sample :
  to_midi_pattern [(kick, [0; 2]); (snare, [1; 3]); (hihat, [1 # 2; 1])]
  = Ok [(0, 36%Z); (1 # 2, 42%Z); (1, 38%Z); (1, 42%Z); (2, 36%Z);
        (3, 38%Z)].
Proof. vm_compute. reflexivity. Qed.

(** A pattern in which two classes share the time 1. *)
Lemma to_midi_pattern_sorted_witness :
  exists midi_pattern,
    to_midi_pattern [(kick, [0; 2]); (snare, [1; 3]); (hihat, [1 # 2; 1])]
    = Ok midi_pattern /\
    Sorted (fun a b => fst a <= fst b) midi_pattern /\
    length midi_pattern = 6%nat.
Proof.
  destruct (to_midi_pattern_sorted
              [(kick, [0; 2]); (snare, [1; 3]); (hihat, [1 # 2; 1])])
    as [midi_pattern [Hrun [Hsorted [Hperm _]]]].
  exists midi_pattern. split; [exact Hrun|]. split; [exact Hsorted|].
  exact (Permutation_length Hperm).
Defined.

(** The sample file is classified into a partition of its onsets. *)
Lemma classify_drum_pattern_partition_witness :
  sample_exists "drums.wav" = true /\
  sample_load 800 "drums.wav" = Ok (sample_buffer, 800%Z) /\
  exists kicks snares hihats,
    classify_drum_pattern true sample_exists (sample_load 800)
      _ sample_rfft sample_abs "drums.wav" [0; 64 # 25; 13 # 5]
    = Ok [(kick, kicks); (snare, snares); (hihat, hihats)] /\
    Permutation (kicks ++ snares ++ hihats) [0; 64 # 25; 13 # 5] /\
    (length kicks + length snares + length hihats = 3)%nat /\
    (Sorted Qle [0; 64 # 25; 13 # 5] ->
     Sorted Qle kicks /\ Sorted Qle snares /\ Sorted Qle hihats).
Proof.
  split; [reflexivity|]. split; [reflexivity|].
  apply (classify_drum_pattern_partition true sample_exists (sample_load 800)
           _ sample_rfft sample_abs "drums.wav" [0; 64 # 25; 13 # 5]
           sample_buffer 800); reflexivity.
Defined.


(** An onset past the end of the buffer has an empty window. *)
Lemma classify_drum_hit_fallback_witness :
  onset_window sample_buffer 2080 default_window_size = [] /\
  classify_drum_hit true _ sample_rfft sample_abs sample_buffer 800 2080
    default_window_size = Ok snare.
Proof.
  assert (Hw : onset_window sample_buffer 2080 default_window_size = [])
    by (vm_compute; reflexivity).
  split; [exact Hw|].
  exact (proj1 (proj2 (proj2
           (classify_drum_hit_fallback true _ sample_rfft sample_abs
              sample_buffer 800 2080 default_window_size))) Hw).
Defined.



End DrumClassifier.

(* ===================================================================== *)
(** * onset_detector.py *)
(* ===================================================================== *)

Module OnsetDetector.
Import Py.
Local Open Scope py_scope.

(** ** numpy on one-dimensional float arrays *)

(** [a[i]] for one integer index: negative indices wrap once, anything
    else out of range raises [IndexError]. *)
Definition np_index (a : list Q) (i : Z) : result Q :=
  let n := len a in
  let j := if (i <? 0)%Z then (i + n)%Z else i in
  if ((j <? 0) || (n <=? j))%Z then
    Raise (mk_exn IndexError "index is out of bounds")
  else Ok (nth (Z.to_nat j) a 0).

(** [a[frames]] for an integer index array. *)
Fixpoint np_take (a : list Q) (frames : list Z) : result (list Q) :=
  match frames with
  | [] => Ok []
  | i :: rest =>
      v <- np_index a i ;;
      vs <- np_take a rest ;;
      Ok (v :: vs)
  end.

(** [a.max()]: undefined on an empty array. *)
Definition np_max (a : list Q) : result Q :=
  match a with
  | [] => Raise (mk_exn ValueError
                   "zero-size array to reduction operation maximum")
  | x :: rest =>
      Ok (fold_left (fun m v => if Qlt_bool m v then v else m) rest x)
  end.

(** [librosa.frames_to_time(frames, sr, hop_length)]:
    [frames * hop_length / sr]. *)
Definition frames_to_time (frames : list Z) (sr hop_length : Z) : list Q :=
  map (fun f => inject_Z (f * hop_length) / inject_Z sr) frames.

(** [[time for time, strength in onsets_with_strength
        if strength >= min_strength]] *)
Definition filter_weak_onsets (onsets_with_strength : list (Q * Q))
    (min_strength : Q) : list Q :=
  map fst
    (filter (fun onset => Qle_bool min_strength (snd onset))
       onsets_with_strength).

(** Default [min_strength] of [filter_weak_onsets]. *)
Definition default_min_strength : Q := 3 # 10.

Section Detector.

(** Whether [import librosa] succeeds. *)
Variable librosa_installed : bool.
(** [os.path.exists]. *)
Variable os_path_exists : string -> bool.
(** [librosa.load(path, sr=None)]. *)
Variable librosa_load : string -> result (list Q * Z).
(** [librosa.onset.onset_strength(y=y, sr=sr, hop_length=hop_length)]. *)
Variable onset_strength : list Q -> Z -> Z -> result (list Q).
(** [librosa.onset.onset_detect(y=y, sr, hop_length, backtrack,
    units='frames')]. *)
Variable onset_detect : list Q -> Z -> Z -> bool -> result (list Z).
(** [librosa.onset.onset_detect(onset_envelope=onset_env, sr, hop_length,
    backtrack, units='frames')]. *)
Variable onset_detect_envelope :
  list Q -> Z -> Z -> bool -> result (list Z).

Definition import_librosa : result unit :=
  if librosa_installed then Ok tt
  else Raise (mk_exn ImportError "No module named 'librosa'").

Definition detect_onsets (audio_path : string) (hop_length : Z)
    (backtrack : bool) (onset_threshold : Q) : result (list Q) :=
  if negb (os_path_exists audio_path) then
    Raise (mk_exn FileNotFoundError
             ("Audio file not found: " ++ audio_path))
  else
    try_except
      (_ <- import_librosa ;;
       '(y, sr) <- librosa_load audio_path ;;
       onset_frames <- onset_detect y sr hop_length backtrack ;;
       let onset_times := frames_to_time onset_frames sr hop_length in
       Ok onset_times)
      [(ImportError, fun _ =>
          Raise (mk_exn ImportError
                   "librosa is not installed. Run: pip install librosa"));
       (Exception, fun e =>
          Raise (mk_exn RuntimeError
                   ("Failed to detect onsets: " ++ str e)))].

(** The block "Normalize strengths to 0-1 range". *)
Definition normalize_strengths (onset_strengths : list Q)
  : result (list Q) :=
  if (0 <? len onset_strengths)%Z then
    max_strength <- np_max onset_strengths ;;
    if Qlt_bool 0 max_strength then
      Ok (map (fun s => s / max_strength) onset_strengths)
    else Ok onset_strengths
  else Ok onset_strengths.

Definition detect_onsets_with_strength (audio_path : string)
    (hop_length : Z) : result (list (Q * Q)) :=
  if negb (os_path_exists audio_path) then
    Raise (mk_exn FileNotFoundError
             ("Audio file not found: " ++ audio_path))
  else
    try_except
      (_ <- import_librosa ;;
       '(y, sr) <- librosa_load audio_path ;;
       onset_env <- onset_strength y sr hop_length ;;
       onset_frames <- onset_detect_envelope onset_env sr hop_length true ;;
       let onset_times := frames_to_time onset_frames sr hop_length in
       onset_strengths <- np_take onset_env onset_frames ;;
       onset_strengths <- normalize_strengths onset_strengths ;;
       let onsets_with_strength := combine onset_times onset_strengths in
       Ok onsets_with_strength)
      [(Exception, fun e =>
          Raise (mk_exn RuntimeError
                   ("Failed to detect onsets: " ++ str e)))].

End Detector.

(** ** Facts: [filter_weak_onsets] *)

Lemma filter_weak_onsets_nil min_strength :
  filter_weak_onsets [] min_strength = [].
Proof. reflexivity. Qed.







Example filter_weak_onsets_sample :
  filter_weak_onsets [(0, 1); (1 # 2, 1 # 10); (1, 3 # 10); (3 # 2, 1 # 5)]
    default_min_strength
  = [0; 1].
Proof. reflexivity. Qed.

(** ** Facts: strength normalisation *)

Lemma np_index_In a i v : np_index a i = Ok v -> In v a.
Proof.
  unfold np_index, len.
  set (j := if (i <? 0)%Z then (i + Z.of_nat (length a))%Z else i).
  destruct ((j <? 0) || (Z.of_nat (length a) <=? j))%Z eqn:E;
    [discriminate|].
  intro H. inversion H; subst.
  apply orb_false_iff in E. destruct E as [E1 E2].
  apply Z.ltb_ge in E1. apply Z.leb_gt in E2.
  apply nth_In. lia.
Qed.

Lemma np_take_spec a frames raw :
  np_take a frames = Ok raw ->
  length raw = length frames /\ Forall (fun v => In v a) raw.
Proof.
  revert raw. induction frames as [|i rest IH]; intros raw H; simpl in H.
  - inversion H. split; [reflexivity|constructor].
  - destruct (np_index a i) as [v|] eqn:Ei; [|discriminate].
    destruct (np_take a rest) as [vs|] eqn:Er; [|discriminate].
    simpl in H. inversion H; subst.
    destruct (IH vs eq_refl) as [Hl Hall].
    split; [simpl; congruence|].
    constructor; [now apply np_index_In with i|assumption].
Qed.

Lemma fold_max_spec (l : list Q) :
  forall acc,
    let m := fold_left (fun m v => if Qlt_bool m v then v else m) l acc in
    (m = acc \/ In m l) /\ acc <= m /\ Forall (fun v => v <= m) l.
Proof.
  induction l as [|x l IH]; intro acc; simpl.
  - split; [now left|]. split; [apply Qle_refl|constructor].
  - destruct (Qlt_bool acc x) eqn:E.
    + apply Qlt_bool_iff in E.
      destruct (IH x) as [Hin [Hle Hall]].
      split; [destruct Hin; auto|].
      split; [apply Qle_trans with x; [now apply Qlt_le_weak|assumption]|].
      now constructor.
    + apply Qlt_bool_false_iff in E.
      destruct (IH acc) as [Hin [Hle Hall]].
      split; [destruct Hin; auto|].
      split; [assumption|].
      constructor; [now apply Qle_trans with acc|assumption].
Qed.

Lemma np_max_spec (a : list Q) :
  a <> [] ->
  exists m, np_max a = Ok m /\ In m a /\ Forall (fun v => v <= m) a.
Proof.
  destruct a as [|x l]; [congruence|]. intros _.
  eexists. split; [reflexivity|].
  destruct (fold_max_spec l x) as [Hin [Hle Hall]].
  split; [destruct Hin as [->|Hin]; [now left|now right]|].
  now constructor.
Qed.

Lemma map_snd_combine {A B} (l : list A) (l' : list B) :
  length l = length l' -> map snd (combine l l') = l'.
Proof.
  revert l'. induction l as [|x l IH]; intros [|y l'] H;
    simpl in *; try discriminate; [reflexivity|].
  f_equal. apply IH. congruence.
Qed.

Lemma map_fst_combine {A B} (l : list A) (l' : list B) :
  length l = length l' -> map fst (combine l l') = l.
Proof.
  revert l'. induction l as [|x l IH]; intros [|y l'] H;
    simpl in *; try discriminate; [reflexivity|].
  f_equal. apply IH. congruence.
Qed.

Lemma normalize_strengths_spec (raw : list Q) :
  Forall (fun v => 0 <= v) raw ->
  exists strengths,
    normalize_strengths raw = Ok strengths /\
    length strengths = length raw /\
    forall max_raw,
      In max_raw raw -> Forall (fun r => r <= max_raw) raw ->
      (0 < max_raw ->
       Forall2 (fun s r => s == r / max_raw) strengths raw /\
       Forall (fun s => 0 <= s /\ s <= 1) strengths /\
       Exists (fun s => s == 1) strengths) /\
      (max_raw == 0 ->
       strengths = raw /\ Forall (fun s => s == 0) strengths).
Proof.
  intro Hpos. unfold normalize_strengths.
  destruct raw as [|x l] eqn:Eraw.
  { exists []. repeat split; try constructor; contradiction. }
  rewrite <- Eraw in *.
  assert (Hne : raw <> []) by (rewrite Eraw; discriminate).
  assert (Hlen : (0 <? len raw)%Z = true).
  { apply Z.ltb_lt. unfold len. rewrite Eraw. simpl. lia. }
  rewrite Hlen.
  destruct (np_max_spec raw Hne) as [m [Hm [Hin Hall]]].
  rewrite Hm. cbn [bind].
  assert (Hsame : forall max_raw,
             In max_raw raw -> Forall (fun r => r <= max_raw) raw ->
             max_raw == m).
  { intros max_raw H1 H2. rewrite Forall_forall in *.
    apply Qle_antisym; auto. }
  destruct (Qlt_bool 0 m) eqn:E.
  - apply Qlt_bool_iff in E.
    exists (map (fun s => s / m) raw).
    split; [reflexivity|]. split; [apply length_map|].
    intros max_raw H1 H2. pose proof (Hsame _ H1 H2) as Heq.
    split.
    + intros _. split; [|split].
      * clear -Heq. induction raw as [|r raw IH]; simpl; constructor;
          [now rewrite Heq | exact IH].
      * rewrite Forall_forall in *. intros s Hs.
        apply in_map_iff in Hs. destruct Hs as [r [<- Hr]]. split.
        -- apply Qle_shift_div_l; [exact E|].
           rewrite Qmult_0_l. now apply Hpos.
        -- apply Qle_shift_div_r; [exact E|].
           rewrite Qmult_1_l. now apply Hall.
      * apply Exists_exists. exists (m / m).
        split; [apply in_map_iff; now exists m|].
        apply Qmult_inv_r. intro H0. rewrite H0 in E.
        exact (Qlt_irrefl 0 E).
    + intro H0. exfalso. rewrite Heq in H0. rewrite H0 in E.
      exact (Qlt_irrefl 0 E).
  - apply Qlt_bool_false_iff in E.
    exists raw. split; [reflexivity|]. split; [reflexivity|].
    intros max_raw H1 H2. pose proof (Hsame _ H1 H2) as Heq.
    split.
    + intro Hlt. exfalso. rewrite Heq in Hlt.
      exact (Qlt_irrefl 0 (Qlt_le_trans _ _ _ Hlt E)).
    + intro H0. split; [reflexivity|].
      rewrite Forall_forall in *. intros s Hs.
      apply Qle_antisym; [|now apply Hpos].
      rewrite <- H0. now apply H2.
Qed.

Section DetectorFacts.

Variable librosa_installed : bool.
Variable os_path_exists : string -> bool.
Variable librosa_load : string -> result (list Q * Z).
Variable onset_strength : list Q -> Z -> Z -> result (list Q).
Variable onset_detect_envelope :
  list Q -> Z -> Z -> bool -> result (list Z).

(** C9 (detect_onsets_with_strength, lines 153-166).  In a detection run
    on a readable file, with librosa's non-negative onset envelope and
    onset frames inside it, the function returns one (time, strength) pair
    per onset frame; when the largest raw envelope value among the onsets
    is positive, every returned strength is the onset's raw value divided
    by that maximum, lies in [0,1], and some onset has strength 1; when
    the maximum is 0 the raw strengths are returned as they are, all 0. *)
Theorem detect_onsets_with_strength_normalized
    audio_path hop_length y sr onset_env onset_frames raw :
  os_path_exists audio_path = true ->
  librosa_installed = true ->
  librosa_load audio_path = Ok (y, sr) ->
  onset_strength y sr hop_length = Ok onset_env ->
  Forall (fun v => 0 <= v) onset_env ->
  onset_detect_envelope onset_env sr hop_length true = Ok onset_frames ->
  np_take onset_env onset_frames = Ok raw ->
  exists onsets,
    detect_onsets_with_strength librosa_installed os_path_exists
      librosa_load onset_strength onset_detect_envelope
      audio_path hop_length = Ok onsets /\
    map fst onsets = frames_to_time onset_frames sr hop_length /\
    length onsets = length onset_frames /\
    forall max_raw,
      In max_raw raw -> Forall (fun r => r <= max_raw) raw ->
      (0 < max_raw ->
       Forall2 (fun s r => s == r / max_raw) (map snd onsets) raw /\
       Forall (fun s => 0 <= s /\ s <= 1) (map snd onsets) /\
       Exists (fun s => s == 1) (map snd onsets)) /\
      (max_raw == 0 ->
       map snd onsets = raw /\ Forall (fun s => s == 0) (map snd onsets)).
Proof.
  intros Hex Hlib Hload Henv Hpos Hframes Hraw.
  destruct (np_take_spec _ _ _ Hraw) as [Hlen Hin].
  assert (Hrawpos : Forall (fun v => 0 <= v) raw).
  { rewrite Forall_forall in *. intros v Hv. apply Hpos. now apply Hin. }
  destruct (normalize_strengths_spec raw Hrawpos)
    as [strengths [Hnorm [Hlen' Hspec]]].
  assert (Htimes : length (frames_to_time onset_frames sr hop_length)
                   = length strengths).
  { unfold frames_to_time. rewrite length_map. congruence. }
  exists (combine (frames_to_time onset_frames sr hop_length) strengths).
  split; [|split; [|split]].
  - unfold detect_onsets_with_strength. rewrite Hex. cbn [negb].
    rewrite try_except_Exception. unfold import_librosa. rewrite Hlib.
    cbn [bind]. rewrite Hload. cbn [bind]. rewrite Henv. cbn [bind].
    rewrite Hframes. cbn [bind]. rewrite Hraw. cbn [bind].
    rewrite Hnorm. reflexivity.
  - now apply map_fst_combine.
  - rewrite length_combine, Htimes, Nat.min_id. congruence.
  - rewrite (map_snd_combine _ _ Htimes). exact Hspec.
Qed.

End DetectorFacts.

(** A run with three onsets of raw strengths 1/2, 2 and 1. *)
Lemma detect_onsets_with_strength_normalized_witness :
  let envelope := [0; 1 # 2; 0; 2; 0; 1] in
  Forall (fun v => 0 <= v) envelope /\
  np_take envelope [1; 3; 5]%Z = Ok [1 # 2; 2; 1] /\
  exists onsets,
    detect_onsets_with_strength true (fun _ => true)
      (fun _ => Ok ([0; 0; 0; 0], 1024%Z))
      (fun _ _ _ => Ok envelope) (fun _ _ _ _ => Ok [1; 3; 5]%Z)
      "drums.wav" 512 = Ok onsets /\
    Forall2 (fun s r => s == r / 2) (map snd onsets) [1 # 2; 2; 1] /\
    Exists (fun s => s == 1) (map snd onsets).
Proof.
  intro envelope.
  assert (Hpos : Forall (fun v => 0 <= v) envelope)
    by (repeat constructor; discriminate).
  split; [exact Hpos|]. split; [reflexivity|].
  destruct (detect_onsets_with_strength_normalized true (fun _ => true)
              (fun _ => Ok ([0; 0; 0; 0], 1024%Z))
              (fun _ _ _ => Ok envelope) (fun _ _ _ _ => Ok [1; 3; 5]%Z)
              "drums.wav" 512 [0; 0; 0; 0] 1024%Z envelope [1; 3; 5]%Z
              [1 # 2; 2; 1] eq_refl eq_refl eq_refl eq_refl Hpos
              eq_refl eq_refl)
    as [onsets [Hrun [_ [_ Hmax]]]].
  exists onsets. split; [exact Hrun|].
  assert (Hin : In 2 [1 # 2; 2; 1]) by (right; left; reflexivity).
  assert (Hall : Forall (fun r => r <= 2) [1 # 2; 2; 1])
    by (repeat constructor; discriminate).
  destruct (Hmax 2 Hin Hall) as [Hp _].
  destruct (Hp eq_refl) as [H1 [_ H3]].
  split; assumption.
Defined.

Example detect_onsets_with_strength_sample :
  detect_onsets_with_strength true (fun _ => true)
    (fun _ => Ok ([0; 0; 0; 0], 1024%Z))
    (fun _ _ _ => Ok [0; 1 # 2; 0; 2; 0; 1])
    (fun _ _ _ _ => Ok [1; 3; 5]%Z) "drums.wav" 512
  = Ok [(512 # 1024, 1 # 4); (1536 # 1024, 2 # 2); (2560 # 1024, 1 # 2)].
Proof. vm_compute. reflexivity. Qed.

End OnsetDetector.

(* ===================================================================== *)
(** * utils.py, stem_separator.py and audio_service.py *)
(* ===================================================================== *)

Module AudioService.
Import Py.
Local Open Scope string_scope.

(** ** Computations on the outside world

    A computation takes the current state of the world and returns either
    a value or an exception, together with the state it leaves behind: an
    exception does not undo the effects that preceded it. *)

Definition IO (S A : Type) : Type := S -> result A * S.

Definition ret {S A} (a : A) : IO S A := fun s => (Ok a, s).

Definition raise {S A} (e : exn) : IO S A := fun s => (Raise e, s).

Definition io_bind {S A B} (c : IO S A) (k : A -> IO S B) : IO S B :=
  fun s =>
    match c s with
    | (Ok a, s') => k a s'
    | (Raise e, s') => (Raise e, s')
    end.

(** [except] clauses, tried in order. *)
Fixpoint io_dispatch {S A} (clauses : list (exc_class * (exn -> IO S A)))
    (e : exn) : IO S A :=
  match clauses with
  | [] => raise e
  | (c, h) :: rest => if isinstance e c then h e else io_dispatch rest e
  end.

Definition io_try {S A} (body : IO S A)
    (clauses : list (exc_class * (exn -> IO S A))) : IO S A :=
  fun s =>
    match body s with
    | (Ok a, s') => (Ok a, s')
    | (Raise e, s') => io_dispatch clauses e s'
    end.

(** An operation that only inspects the world. *)
Definition inspect {S A} (f : S -> result A) : IO S A := fun s => (f s, s).

Declare Scope io_scope.
Delimit Scope io_scope with io.
Notation "x <- c ;; k" := (io_bind c (fun x => k))
  (at level 61, c at next level, right associativity) : io_scope.
Notation "' pat <- c ;; k" :=
  (io_bind c (fun x => match x with pat => k end))
  (at level 61, pat pattern, c at next level, right associativity)
  : io_scope.
Local Open Scope io_scope.

(** ** The platform: operating system, pathlib, uuid, pydub, Spleeter *)

Class Platform (World Audio Separator : Type) : Type := {
  (** [os.path.exists], [os.path.getsize], [os.makedirs(p, exist_ok=True)],
      [os.remove] *)
  os_path_exists : string -> World -> bool;
  os_path_getsize : string -> World -> result Z;
  os_makedirs : string -> IO World unit;
  os_remove : string -> IO World unit;
  (** [os.path.join], [os.path.dirname], [Path(p).name], [Path(p).stem],
      [Path(p).suffix] *)
  os_path_join : string -> string -> string;
  os_path_dirname : string -> string;
  path_name : string -> string;
  path_stem : string -> string;
  path_suffix : string -> string;
  (** [str(uuid.uuid4())] *)
  uuid4 : IO World string;
  (** [from pydub import AudioSegment], [AudioSegment.from_file(p)],
      [len(audio)] in milliseconds, [audio.frame_rate], [audio.channels],
      [audio[a:b]], [audio.export(p, format=f)] *)
  import_pydub : World -> result unit;
  AudioSegment_from_file : string -> World -> result Audio;
  audio_len : Audio -> Z;
  audio_frame_rate : Audio -> Z;
  audio_channels : Audio -> Z;
  audio_slice : Audio -> Z -> Z -> Audio;
  audio_export : Audio -> string -> string -> IO World unit;
  (** [from spleeter.separator import Separator], [Separator(model)],
      [separator.separate_to_file(p, out, codec=c, bitrate=b)] *)
  import_spleeter : World -> result unit;
  Separator_new : string -> IO World Separator;
  separate_to_file :
    Separator -> string -> string -> string -> string -> IO World unit;
  (** [os.remove] fails with [OSError] (or a subclass) only. *)
  os_remove_raises_OSError :
    forall path w e w',
      os_remove path w = (Raise e, w') -> isinstance e OSError = true
}.

Section Service.

Context {World Audio Separator : Type}.
Context {platform : Platform World Audio Separator}.

Definition path_exists (path : string) : IO World bool :=
  fun w => (Ok (os_path_exists path w), w).

(** *** utils.py *)

Definition default_allowed_formats : list string :=
  ["mp3"; "wav"; "flac"; "m4a"; "ogg"].

Definition validate_audio_file (audio_path : string) (max_size_mb : Z)
    (allowed_formats : option (list string)) : IO World (bool * string) :=
  let allowed_formats :=
    match allowed_formats with
    | None => default_allowed_formats
    | Some formats => formats
    end in
  file_exists <- path_exists audio_path ;;
  if negb file_exists then
    ret (false, "File not found: " ++ audio_path)
  else
    let file_ext := lower (lstrip_dot (path_suffix audio_path)) in
    if negb (str_in file_ext allowed_formats) then
      ret (false,
           "Unsupported format: ." ++ file_ext ++ ". "
           ++ "Allowed formats: " ++ join ", " allowed_formats)
    else
      file_size_bytes <- inspect (os_path_getsize audio_path) ;;
      let file_size_mb :=
        (inject_Z file_size_bytes / inject_Z (1024 * 1024))%Q in
      if Qlt_bool (inject_Z max_size_mb) file_size_mb then
        ret (false,
             "File too large: " ++ format_fixed 2 file_size_mb ++ " MB. "
             ++ "Maximum size: " ++ str_int max_size_mb ++ " MB")
      else
        io_try
          (_ <- inspect import_pydub ;;
           audio <- inspect (AudioSegment_from_file audio_path) ;;
           if (audio_len audio =? 0)%Z then
             ret (false, "Audio file is empty")
           else ret (true, EmptyString))
          [(Exception, fun e =>
              ret (false, "Invalid audio file: " ++ str e))].

(** The dictionary returned by [get_audio_info]; its keys are fixed. *)
Record audio_info : Type := {
  duration_seconds : Q;
  sample_rate : Z;
  channels : Z;
  format : string;
  file_size_mb : Q
}.

Definition get_audio_info (audio_path : string) : IO World audio_info :=
  file_exists <- path_exists audio_path ;;
  if negb file_exists then
    raise (mk_exn FileNotFoundError
             ("Audio file not found: " ++ audio_path))
  else
    io_try
      (_ <- inspect import_pydub ;;
       audio <- inspect (AudioSegment_from_file audio_path) ;;
       file_size_bytes <- inspect (os_path_getsize audio_path) ;;
       let file_size_mb :=
         (inject_Z file_size_bytes / inject_Z (1024 * 1024))%Q in
       let file_format := lstrip_dot (path_suffix audio_path) in
       ret {| duration_seconds := (inject_Z (audio_len audio) / 1000)%Q;
              sample_rate := audio_frame_rate audio;
              channels := audio_channels audio;
              format := file_format;
              file_size_mb := round2 file_size_mb |})
      [(Exception, fun e =>
          raise (mk_exn RuntimeError
                   ("Failed to get audio info: " ++ str e)))].

Definition trim_audio (audio_path output_path : string)
    (start_time_seconds end_time_seconds : Q) (format : string)
  : IO World string :=
  file_exists <- path_exists audio_path ;;
  if negb file_exists then
    raise (mk_exn FileNotFoundError
             ("Audio file not found: " ++ audio_path))
  else if Qlt_bool start_time_seconds 0 then
    raise (mk_exn ValueError "Start time cannot be negative")
  else if Qle_bool end_time_seconds start_time_seconds then
    raise (mk_exn ValueError "End time must be greater than start time")
  else
    let duration_seconds := (end_time_seconds - start_time_seconds)%Q in
    if Qlt_bool duration_seconds 15 then
      raise (mk_exn ValueError
               ("Duration too short: " ++ format_fixed 1 duration_seconds
                ++ "s. Minimum is 15 seconds."))
    else if Qlt_bool 90 duration_seconds then
      raise (mk_exn ValueError
               ("Duration too long: " ++ format_fixed 1 duration_seconds
                ++ "s. Maximum is 90 seconds."))
    else
      io_try
        (_ <- inspect import_pydub ;;
         audio <- inspect (AudioSegment_from_file audio_path) ;;
         let audio_duration_ms := audio_len audio in
         let audio_duration_seconds :=
           (inject_Z audio_duration_ms / 1000)%Q in
         if Qlt_bool audio_duration_seconds end_time_seconds then
           raise (mk_exn ValueError
                    ("End time " ++ format_fixed 1 end_time_seconds
                     ++ "s exceeds audio duration "
                     ++ format_fixed 1 audio_duration_seconds ++ "s"))
         else
           let start_time_ms := int (start_time_seconds * 1000) in
           let end_time_ms := int (end_time_seconds * 1000) in
           let trimmed_audio := audio_slice audio start_time_ms end_time_ms in
           _ <- os_makedirs (os_path_dirname output_path) ;;
           _ <- audio_export trimmed_audio output_path format ;;
           ret output_path)
        [(ImportError, fun _ =>
            raise (mk_exn ImportError
                     "pydub is not installed. Run: pip install pydub"));
         (Exception, fun e =>
            raise (mk_exn RuntimeError
                     ("Failed to trim audio: " ++ str e)))].

(** *** stem_separator.py *)

(** The loop "Verify all stems were created". *)
Fixpoint verify_stems (items : list (string * string)) : IO World unit :=
  match items with
  | [] => ret tt
  | (stem_name, stem_path) :: rest =>
      stem_exists <- path_exists stem_path ;;
      if negb stem_exists then
        raise (mk_exn RuntimeError
                 ("Failed to generate " ++ stem_name ++ " stem"))
      else verify_stems rest
  end.

Definition separate_stems (audio_path output_dir model codec bitrate : string)
  : IO World (dict string string) :=
  file_exists <- path_exists audio_path ;;
  if negb file_exists then
    raise (mk_exn FileNotFoundError
             ("Audio file not found: " ++ audio_path))
  else
    _ <- os_makedirs output_dir ;;
    io_try
      (_ <- inspect import_spleeter ;;
       separator <- Separator_new model ;;
       _ <- separate_to_file separator audio_path output_dir codec bitrate ;;
       let audio_filename := path_stem audio_path in
       let stem_dir := os_path_join output_dir audio_filename in
       let stem_paths :=
         [("drums", os_path_join stem_dir ("drums." ++ codec));
          ("bass", os_path_join stem_dir ("bass." ++ codec));
          ("vocals", os_path_join stem_dir ("vocals." ++ codec));
          ("other", os_path_join stem_dir ("other." ++ codec))] in
       _ <- verify_stems stem_paths ;;
       ret stem_paths)
      [(ImportError, fun _ =>
          raise (mk_exn ImportError
                   "Spleeter is not installed. Run: pip install spleeter"));
       (Exception, fun e =>
          raise (mk_exn RuntimeError
                   ("Failed to separate stems: " ++ str e)))].

(** *** audio_service.py *)

(** Values stored in the metadata dictionary. *)
Inductive value : Type :=
  | VStr (s : string)
  | VFloat (q : Q)
  | VInt (z : Z)
  | VBool (b : bool).

(** [class AudioProcessingResult] *)
Record AudioProcessingResult : Type := {
  success : bool;
  stem_paths : dict string string;
  metadata : dict string value;
  error : option string
}.

(** [d or {}] for an optional dictionary. *)
Definition or_empty {V} (d : option (dict string V)) : dict string V :=
  match d with
  | Some d' => d'
  | None => []
  end.

(** [AudioProcessingResult.__init__] *)
Definition AudioProcessingResult_init (success : bool)
    (stem_paths : option (dict string string))
    (metadata : option (dict string value)) (error : option string)
  : AudioProcessingResult :=
  {| success := success;
     stem_paths := or_empty stem_paths;
     metadata := or_empty metadata;
     error := error |}.

(** The local state of one call of [process_audio_snippet]: the world and
    the list [temp_files]. *)
Record frame : Type := { world : World; temp_files : list string }.

(** Run a world operation inside the call. *)
Definition lift {A} (c : IO World A) : IO frame A :=
  fun st =>
    let (r, w) := c (world st) in
    (r, {| world := w; temp_files := temp_files st |}).

(** [temp_files.append(path)] *)
Definition temp_files_append (path : string) : IO frame unit :=
  fun st =>
    (Ok tt, {| world := world st;
               temp_files := (temp_files st ++ [path])%list |}).

Definition get_temp_files : IO frame (list string) :=
  fun st => (Ok (temp_files st), st).

(** [if os.path.exists(p): try: os.remove(p) except OSError: ...] *)
Definition remove_if_exists (path : string) : IO World unit :=
  file_exists <- path_exists path ;;
  if file_exists then
    io_try (os_remove path) [(OSError, fun _ => ret tt)]
  else ret tt.

(** The loop [for temp_file in temp_files] of the error handler. *)
Fixpoint cleanup_temp_files (files : list string) : IO World unit :=
  match files with
  | [] => ret tt
  | temp_file :: rest =>
      _ <- remove_if_exists temp_file ;;
      cleanup_temp_files rest
  end.

(** The body of the outer [try] block of [process_audio_snippet]. *)
Definition process_audio_snippet_body (audio_path : string)
    (start_time_seconds end_time_seconds : Q) (output_base_dir : string)
    (extract_stems cleanup_after : bool) : IO frame AudioProcessingResult :=
  (* Step 1: Validate audio file *)
  '(is_valid, error_msg) <- lift (validate_audio_file audio_path 50 None) ;;
  if negb is_valid then
    ret (AudioProcessingResult_init false None None
           (Some ("Validation failed: " ++ error_msg)))
  else
    original_info <- lift (get_audio_info audio_path) ;;
    (* Step 2: Trim audio to selected snippet *)
    uuid <- lift uuid4 ;;
    let snippet_id := prefix_of 8 uuid in
    let trimmed_dir := os_path_join output_base_dir "trimmed" in
    _ <- lift (os_makedirs trimmed_dir) ;;
    let trimmed_path :=
      os_path_join trimmed_dir ("snippet_" ++ snippet_id ++ ".wav") in
    trimmed <-
      io_try
        (trimmed_path <-
           lift (trim_audio audio_path trimmed_path start_time_seconds
                   end_time_seconds "wav") ;;
         _ <- temp_files_append trimmed_path ;;
         ret (inr trimmed_path))
        [(ValueError, fun e =>
            ret (inl (AudioProcessingResult_init false None None
                        (Some ("Trimming failed: " ++ str e)))))] ;;
    match trimmed with
    | inl returned => ret returned
    | inr trimmed_path =>
        trimmed_info <- lift (get_audio_info trimmed_path) ;;
        let snippet_duration := duration_seconds trimmed_info in
        (* Step 3: Extract stems (if requested) *)
        separated <-
          (if extract_stems then
             let stems_dir := os_path_join output_base_dir "stems" in
             _ <- lift (os_makedirs stems_dir) ;;
             io_try
               (stem_paths <-
                  lift (separate_stems trimmed_path stems_dir
                          "spleeter:4stems" "wav" "128k") ;;
                ret (inr stem_paths))
               [(Exception, fun e =>
                   ret (inl (AudioProcessingResult_init false None None
                               (Some ("Stem separation failed: "
                                      ++ str e)))))]
           else ret (inr [])) ;;
        match separated with
        | inl returned => ret returned
        | inr stem_paths =>
            (* Step 4: Prepare metadata *)
            let metadata :=
              [("snippet_id", VStr snippet_id);
               ("original_file", VStr (path_name audio_path));
               ("original_duration_seconds",
                VFloat (duration_seconds original_info));
               ("snippet_duration_seconds", VFloat snippet_duration);
               ("start_time", VFloat start_time_seconds);
               ("end_time", VFloat end_time_seconds);
               ("sample_rate", VInt (sample_rate trimmed_info));
               ("channels", VInt (channels trimmed_info));
               ("stems_extracted", VBool extract_stems);
               ("num_stems", VInt (len stem_paths))] in
            (* Step 5: Cleanup temporary files (if requested) *)
            _ <- (if cleanup_after then lift (remove_if_exists trimmed_path)
                  else ret tt) ;;
            ret (AudioProcessingResult_init true (Some stem_paths)
                   (Some metadata) None)
        end
    end.

(** The outer clause [except Exception as e]. *)
Definition process_audio_snippet_handler (cleanup_after : bool) (e : exn)
  : IO frame AudioProcessingResult :=
  _ <- (if cleanup_after then
          files <- get_temp_files ;;
          lift (cleanup_temp_files files)
        else ret tt) ;;
  ret (AudioProcessingResult_init false None None
         (Some ("Processing error: " ++ str e))).

Definition process_audio_snippet (audio_path : string)
    (start_time_seconds end_time_seconds : Q) (output_base_dir : string)
    (extract_stems cleanup_after : bool) : IO World AudioProcessingResult :=
  fun w =>
    let (r, st) :=
      io_try
        (process_audio_snippet_body audio_path start_time_seconds
           end_time_seconds output_base_dir extract_stems cleanup_after)
        [(Exception, process_audio_snippet_handler cleanup_after)]
        {| world := w; temp_files := [] |} in
    (r, world st).

(** ** Facts: the monad *)

Lemma io_try_Exception {S A} (body : IO S A) (h : exn -> IO S A) (s : S) :
  io_try body [(Exception, h)] s
  = match body s with
    | (Ok a, s') => (Ok a, s')
    | (Raise e, s') => h e s'
    end.
Proof.
  unfold io_try. destruct (body s) as [[a|e] s']; [reflexivity|].
  simpl. now rewrite isinstance_Exception.
Qed.

(** ** Facts: cleanup never raises *)

Lemma remove_if_exists_total path w :
  exists w', remove_if_exists path w = (Ok tt, w').
Proof.
  unfold remove_if_exists, io_bind, path_exists.
  destruct (os_path_exists path w); [|eexists; reflexivity].
  unfold io_try.
  destruct (os_remove path w) as [[[]|e] w'] eqn:E; [eexists; reflexivity|].
  simpl. rewrite (os_remove_raises_OSError _ _ _ _ E).
  eexists; reflexivity.
Qed.

Lemma cleanup_temp_files_total files :
  forall w, exists w', cleanup_temp_files files w = (Ok tt, w').
Proof.
  induction files as [|f rest IH]; intro w; simpl.
  - eexists; reflexivity.
  - unfold io_bind.
    destruct (remove_if_exists_total f w) as [w1 ->]. apply IH.
Qed.

Lemma lift_total {A} (c : IO World A) (a : A) st :
  (exists w', c (world st) = (Ok a, w')) ->
  exists st', lift c st = (Ok a, st').
Proof.
  intros [w' H]. unfold lift. rewrite H. eexists; reflexivity.
Qed.

Lemma process_audio_snippet_handler_total cleanup_after e st :
  exists st',
    process_audio_snippet_handler cleanup_after e st
    = (Ok (AudioProcessingResult_init false None None
             (Some ("Processing error: " ++ str e))), st').
Proof.
  unfold process_audio_snippet_handler, io_bind.
  destruct cleanup_after.
  - unfold get_temp_files.
    destruct (lift_total (cleanup_temp_files (temp_files st)) tt st
                (cleanup_temp_files_total _ _)) as [st' ->].
    eexists; reflexivity.
  - eexists; reflexivity.
Qed.

(** ** Facts: the results [process_audio_snippet] can build *)

Definition metadata_keys : list string :=
  ["snippet_id"; "original_file"; "original_duration_seconds";
   "snippet_duration_seconds"; "start_time"; "end_time"; "sample_rate";
   "channels"; "stems_extracted"; "num_stems"].

Definition failure_prefixes : list string :=
  ["Validation failed: "; "Trimming failed: "; "Stem separation failed: ";
   "Processing error: "].

Inductive built : AudioProcessingResult -> Prop :=
  | built_success stem_paths metadata :
      keys metadata = metadata_keys ->
      built (AudioProcessingResult_init true (Some stem_paths)
               (Some metadata) None)
  | built_failure prefix detail :
      In prefix failure_prefixes ->
      built (AudioProcessingResult_init false None None
               (Some (prefix ++ detail))).

Lemma process_audio_snippet_body_built audio_path start_time_seconds
    end_time_seconds output_base_dir extract_stems cleanup_after st res st' :
  process_audio_snippet_body audio_path start_time_seconds end_time_seconds
    output_base_dir extract_stems cleanup_after st = (Ok res, st') ->
  built res.
Proof.
  unfold process_audio_snippet_body, io_bind, io_try, ret, raise.
  intro H.
  destruct (lift (validate_audio_file audio_path 50 None) st)
    as [[[is_valid error_msg]|e] st1]; [|discriminate].
  destruct is_valid; cbn [negb] in H.
  2:{ injection H as <- _.
      apply (built_failure "Validation failed: " error_msg).
      simpl. auto. }
  destruct (lift (get_audio_info audio_path) st1)
    as [[original_info|e] st2]; [|discriminate].
  destruct (lift uuid4 st2) as [[uuid|e] st3]; [|discriminate].
  destruct (lift (os_makedirs _) st3) as [[[]|e] st4]; [|discriminate].
  destruct (lift (trim_audio _ _ _ _ _) st4) as [[trimmed_path|e] st5].
  2:{ cbn [io_dispatch] in H.
      destruct (isinstance e ValueError); [|discriminate].
      injection H as <- Hst.
      apply (built_failure "Trimming failed: " (str e)). simpl. auto. }
  unfold temp_files_append in H. cbv beta iota in H.
  destruct (lift (get_audio_info trimmed_path) _)
    as [[trimmed_info|e] st7]; [|discriminate].
  destruct extract_stems.
  - destruct (lift (os_makedirs _) st7) as [[[]|e] st8]; [|discriminate].
    destruct (lift (separate_stems _ _ _ _ _) st8) as [[stems|e] st9].
    + destruct cleanup_after.
      * destruct (lift (remove_if_exists trimmed_path) st9)
          as [[[]|e] st10]; [|discriminate].
        injection H as <- _. now apply built_success.
      * injection H as <- _. now apply built_success.
    + cbn [io_dispatch] in H. rewrite isinstance_Exception in H.
      injection H as <- _.
      apply (built_failure "Stem separation failed: " (str e)).
      simpl. auto.
  - destruct cleanup_after.
    + destruct (lift (remove_if_exists trimmed_path) st7)
        as [[[]|e] st10]; [|discriminate].
      injection H as <- _. now apply built_success.
    + injection H as <- _. now apply built_success.
Qed.

Lemma built_invariant res :
  built res ->
  (success res = true ->
   error res = None /\ keys (metadata res) = metadata_keys) /\
  (success res = false ->
   exists reason,
     error res = Some reason /\ reason <> EmptyString /\
     stem_paths res = [] /\ metadata res = []).
Proof.
  intros [stems md Hkeys|prefix detail Hin]; simpl; split;
    try discriminate; intros _.
  - now split.
  - exists (prefix ++ detail). repeat split.
    simpl in Hin.
    destruct Hin as [<-|[<-|[<-|[<-|[]]]]]; discriminate.
Qed.

(** Every call returns a result: the one the body returned, or the generic
    failure built from the exception the body raised. *)
Lemma process_audio_snippet_run audio_path start_time_seconds
    end_time_seconds output_base_dir extract_stems cleanup_after w :
  exists res w',
    process_audio_snippet audio_path start_time_seconds end_time_seconds
      output_base_dir extract_stems cleanup_after w = (Ok res, w') /\
    built res /\
    (forall e st,
        process_audio_snippet_body audio_path start_time_seconds
          end_time_seconds output_base_dir extract_stems cleanup_after
          {| world := w; temp_files := [] |} = (Raise e, st) ->
        res = AudioProcessingResult_init false None None
                (Some ("Processing error: " ++ str e))) /\
    (forall res0 st,
        process_audio_snippet_body audio_path start_time_seconds
          end_time_seconds output_base_dir extract_stems cleanup_after
          {| world := w; temp_files := [] |} = (Ok res0, st) ->
        res = res0).
Proof.
  unfold process_audio_snippet. rewrite io_try_Exception.
  destruct (process_audio_snippet_body audio_path start_time_seconds
              end_time_seconds output_base_dir extract_stems cleanup_after
              {| world := w; temp_files := [] |}) as [[res|e] st] eqn:Hbody.
  - exists res, (world st). split; [reflexivity|].
    split; [now apply process_audio_snippet_body_built in Hbody|].
    split; intros ? ? H; [discriminate|congruence].
  - destruct (process_audio_snippet_handler_total cleanup_after e st)
      as [st' Hh].
    rewrite Hh. eexists _, (world st'). split; [reflexivity|].
    split; [apply (built_failure "Processing error: " (str e));
            simpl; auto|].
    split; intros ? ? H; [congruence|discriminate].
Qed.

(** C6 (process_audio_snippet, lines 85-206).  For every input and every
    state of the world, [process_audio_snippet] returns a result and
    raises nothing: when any stage inside its [try] block raises, the
    result has [success = False] and the reason "Processing error: ..."
    built from the exception; every failure result carries a non-empty
    reason; a success result is the completed one the body returned, with
    all ten metadata entries. *)
Theorem process_audio_snippet_never_raises audio_path start_time_seconds
    end_time_seconds output_base_dir extract_stems cleanup_after w :
  exists res w',
    process_audio_snippet audio_path start_time_seconds end_time_seconds
      output_base_dir extract_stems cleanup_after w = (Ok res, w') /\
    (forall e st,
        process_audio_snippet_body audio_path start_time_seconds
          end_time_seconds output_base_dir extract_stems cleanup_after
          {| world := w; temp_files := [] |} = (Raise e, st) ->
        success res = false /\
        error res = Some ("Processing error: " ++ str e)) /\
    (success res = false ->
     exists reason, error res = Some reason /\ reason <> EmptyString) /\
    (success res = true ->
     keys (metadata res) = metadata_keys /\
     exists st,
       process_audio_snippet_body audio_path start_time_seconds
         end_time_seconds output_base_dir extract_stems cleanup_after
         {| world := w; temp_files := [] |} = (Ok res, st)).
Proof.
  destruct (process_audio_snippet_run audio_path start_time_seconds
              end_time_seconds output_base_dir extract_stems cleanup_after w)
    as [res [w' [Hrun [Hbuilt [Hraise Hok]]]]].
  exists res, w'. split; [exact Hrun|].
  destruct (built_invariant res Hbuilt) as [Hs Hf].
  split; [|split].
  - intros e st H. rewrite (Hraise e st H). split; reflexivity.
  - intro H. destruct (Hf H) as [reason [H1 [H2 _]]]. eauto.
  - intro H. split; [now apply Hs|].
    destruct (process_audio_snippet_body audio_path start_time_seconds
                end_time_seconds output_base_dir extract_stems cleanup_after
                {| world := w; temp_files := [] |}) as [[res0|e] st] eqn:Hb.
    + rewrite (Hok res0 st eq_refl). now exists st.
    + rewrite (Hraise e st eq_refl) in H. discriminate.
Qed.

(** C10 (AudioProcessingResult, process_audio_snippet).  Every result
    returned by [process_audio_snippet] satisfies: if [success] is true
    then [error] is [None]; if [success] is false then [error] is a
    non-empty string and both [stem_paths] and [metadata] are empty. *)
Theorem process_audio_snippet_result_invariant audio_path
    start_time_seconds end_time_seconds output_base_dir extract_stems
    cleanup_after w :
  exists res w',
    process_audio_snippet audio_path start_time_seconds end_time_seconds
      output_base_dir extract_stems cleanup_after w = (Ok res, w') /\
    (success res = true -> error res = None) /\
    (success res = false ->
     exists reason,
       error res = Some reason /\ reason <> EmptyString /\
       stem_paths res = [] /\ metadata res = []).
Proof.
  destruct (process_audio_snippet_run audio_path start_time_seconds
              end_time_seconds output_base_dir extract_stems cleanup_after w)
    as [res [w' [Hrun [Hbuilt _]]]].
  exists res, w'. split; [exact Hrun|].
  destruct (built_invariant res Hbuilt) as [Hs Hf].
  split; [|exact Hf].
  intro H. now apply Hs.
Qed.

(** ** Facts: trimming past the end of the source *)

Section TimeRange.

Variables start_time_seconds end_time_seconds : Q.
Hypothesis start_nonneg : (0 <= start_time_seconds)%Q.
Hypothesis start_before_end : (start_time_seconds < end_time_seconds)%Q.
Hypothesis duration_min : (15 <= end_time_seconds - start_time_seconds)%Q.
Hypothesis duration_max : (end_time_seconds - start_time_seconds <= 90)%Q.

(** With a valid time range the checks before the [try] block pass. *)
Lemma trim_audio_in_range audio_path output_path format w :
  os_path_exists audio_path w = true ->
  trim_audio audio_path output_path start_time_seconds end_time_seconds
    format w
  = io_try
      (_ <- inspect import_pydub ;;
       audio <- inspect (AudioSegment_from_file audio_path) ;;
       let audio_duration_ms := audio_len audio in
       let audio_duration_seconds :=
         (inject_Z audio_duration_ms / 1000)%Q in
       if Qlt_bool audio_duration_seconds end_time_seconds then
         raise (mk_exn ValueError
                  ("End time " ++ format_fixed 1 end_time_seconds
                   ++ "s exceeds audio duration "
                   ++ format_fixed 1 audio_duration_seconds ++ "s"))
       else
         let start_time_ms := int (start_time_seconds * 1000) in
         let end_time_ms := int (end_time_seconds * 1000) in
         let trimmed_audio := audio_slice audio start_time_ms end_time_ms in
         _ <- os_makedirs (os_path_dirname output_path) ;;
         _ <- audio_export trimmed_audio output_path format ;;
         ret output_path)
      [(ImportError, fun _ =>
          raise (mk_exn ImportError
                   "pydub is not installed. Run: pip install pydub"));
       (Exception, fun e =>
          raise (mk_exn RuntimeError
                   ("Failed to trim audio: " ++ str e)))] w.
Proof.
  intro Hex. unfold trim_audio at 1.
  unfold io_bind at 1. unfold path_exists. rewrite Hex. cbn [negb].
  apply Qlt_bool_false_iff in start_nonneg as ->.
  apply Qle_bool_false_iff in start_before_end as ->.
  apply Qlt_bool_false_iff in duration_min as ->.
  apply Qlt_bool_false_iff in duration_max as ->.
  reflexivity.
Qed.

(** A valid time range never makes [trim_audio] raise [ValueError]. *)
Lemma trim_audio_in_range_no_ValueError audio_path output_path format
    w e w' :
  trim_audio audio_path output_path start_time_seconds end_time_seconds
    format w = (Raise e, w') ->
  isinstance e ValueError = false.
Proof.
  destruct (os_path_exists audio_path w) eqn:Hex.
  - rewrite (trim_audio_in_range _ _ _ _ Hex). unfold io_try.
    match goal with
    | |- context [match ?body w with _ => _ end] =>
        destruct (body w) as [[a|e0] w0]
    end; [discriminate|].
    cbn [io_dispatch]. unfold raise.
    destruct (isinstance e0 ImportError).
    + intro H. injection H as <- _. reflexivity.
    + rewrite isinstance_Exception. intro H. injection H as <- _.
      reflexivity.
  - unfold trim_audio, io_bind, path_exists, raise. rewrite Hex.
    cbn [negb]. intro H. injection H as <- _. reflexivity.
Qed.

(** C5, what the code does.  For a time range with [0 <= start < end] and
    [15 <= end - start <= 90] whose end lies past the duration of a
    readable source, the [ValueError] raised inside the [try] block of
    [trim_audio] is caught by that block's own [except Exception] clause:
    [trim_audio] raises [RuntimeError], which is not a [ValueError]. *)
Theorem trim_audio_end_beyond_duration audio_path output_path format
    w audio :
  os_path_exists audio_path w = true ->
  import_pydub w = Ok tt ->
  AudioSegment_from_file audio_path w = Ok audio ->
  (inject_Z (audio_len audio) / 1000 < end_time_seconds)%Q ->
  trim_audio audio_path output_path start_time_seconds end_time_seconds
    format w
  = (Raise (mk_exn RuntimeError
              ("Failed to trim audio: End time "
               ++ format_fixed 1 end_time_seconds
               ++ "s exceeds audio duration "
               ++ format_fixed 1 (inject_Z (audio_len audio) / 1000)
               ++ "s")), w) /\
  isinstance (mk_exn RuntimeError
                ("Failed to trim audio: End time "
                 ++ format_fixed 1 end_time_seconds
                 ++ "s exceeds audio duration "
                 ++ format_fixed 1 (inject_Z (audio_len audio) / 1000)
                 ++ "s")) ValueError = false.
Proof.
  intros Hex Himp Hfile Hlong. split; [|reflexivity].
  rewrite (trim_audio_in_range _ _ _ _ Hex).
  unfold io_try, io_bind, inspect. rewrite Himp, Hfile.
  apply Qlt_bool_iff in Hlong. rewrite Hlong.
  reflexivity.
Qed.

(** With a valid time range the orchestrator never answers
    "Trimming failed": an end time past the source duration surfaces as
    the generic "Processing error". *)
Lemma process_audio_snippet_in_range_not_trimming_failed audio_path
    output_base_dir extract_stems cleanup_after w res w' :
  process_audio_snippet audio_path start_time_seconds end_time_seconds
    output_base_dir extract_stems cleanup_after w = (Ok res, w') ->
  forall detail, error res <> Some ("Trimming failed: " ++ detail).
Proof.
  unfold process_audio_snippet. rewrite io_try_Exception.
  destruct (process_audio_snippet_body audio_path start_time_seconds
              end_time_seconds output_base_dir extract_stems cleanup_after
              {| world := w; temp_files := [] |}) as [[res0|e] st] eqn:Hbody.
  2:{ destruct (process_audio_snippet_handler_total cleanup_after e st)
        as [st' ->].
      intro H. injection H as <- _. intros detail. simpl. discriminate. }
  intro H. injection H as <- _. clear w'.
  revert Hbody.
  unfold process_audio_snippet_body, io_bind, io_try, ret, raise.
  intro H.
  destruct (lift (validate_audio_file audio_path 50 None) _)
    as [[[is_valid error_msg]|e] st1]; [|discriminate].
  destruct is_valid; cbn [negb] in H.
  2:{ injection H as <- _. intros detail. simpl. discriminate. }
  destruct (lift (get_audio_info audio_path) st1)
    as [[original_info|e] st2]; [|discriminate].
  destruct (lift uuid4 st2) as [[uuid|e] st3]; [|discriminate].
  destruct (lift (os_makedirs _) st3) as [[[]|e] st4]; [|discriminate].
  destruct (lift (trim_audio _ _ _ _ _) st4)
    as [[trimmed_path|e] st5] eqn:Htrim.
  2:{ exfalso. cbn [io_dispatch] in H.
      unfold lift in Htrim.
      destruct (trim_audio _ _ _ _ _ (world st4)) as [r w1] eqn:Hraw.
      injection Htrim as -> _.
      rewrite (trim_audio_in_range_no_ValueError _ _ _ _ _ _ Hraw) in H.
      discriminate. }
  unfold temp_files_append in H. cbv beta iota in H.
  destruct (lift (get_audio_info trimmed_path) _)
    as [[trimmed_info|e] st7]; [|discriminate].
  destruct extract_stems.
  - destruct (lift (os_makedirs _) st7) as [[[]|e] st8]; [|discriminate].
    destruct (lift (separate_stems _ _ _ _ _) st8) as [[stems|e] st9].
    + destruct cleanup_after.
      * destruct (lift (remove_if_exists trimmed_path) st9)
          as [[[]|e] st10]; [|discriminate].
        injection H as <- _. intros detail. simpl. discriminate.
      * injection H as <- _. intros detail. simpl. discriminate.
    + cbn [io_dispatch] in H. rewrite isinstance_Exception in H.
      injection H as <- _. intros detail. simpl. discriminate.
  - destruct cleanup_after.
    + destruct (lift (remove_if_exists trimmed_path) st7)
        as [[[]|e] st10]; [|discriminate].
      injection H as <- _. intros detail. simpl. discriminate.
    + injection H as <- _. intros detail. simpl. discriminate.
Qed.

End TimeRange.

End Service.

(** ** A concrete platform

    A flat file system of decodable audio files, each described by its
    length in milliseconds, frame rate and channel count; pydub and
    Spleeter are installed; directories always exist. *)

Record sample_audio : Type := { ms : Z; rate : Z; chans : Z }.

Definition sample_world : Type := list (string * sample_audio).

Definition sample_lookup (path : string) (w : sample_world)
  : option sample_audio :=
  get String.eqb w path.

Definition sample_exists (path : string) (w : sample_world) : bool :=
  match sample_lookup path w with
  | Some _ => true
  | None => false
  end.

Definition sample_delete (path : string) (w : sample_world) : sample_world :=
  filter (fun file => negb (String.eqb path (fst file))) w.

Definition no_such_file (path : string) : exn :=
  mk_exn FileNotFoundError ("No such file or directory: " ++ path).

Definition sample_getsize (path : string) (w : sample_world) : result Z :=
  match sample_lookup path w with
  | Some audio => Ok (44 + 176 * ms audio)%Z
  | None => Raise (no_such_file path)
  end.

Definition sample_remove (path : string) : IO sample_world unit :=
  fun w =>
    match sample_lookup path w with
    | Some _ => (Ok tt, sample_delete path w)
    | None => (Raise (no_such_file path), w)
    end.

Definition sample_from_file (path : string) (w : sample_world)
  : result sample_audio :=
  match sample_lookup path w with
  | Some audio => Ok audio
  | None => Raise (no_such_file path)
  end.

Definition sample_slice (audio : sample_audio) (start stop : Z)
  : sample_audio :=
  {| ms := Z.max 0 (Z.min stop (ms audio) - Z.min start (ms audio));
     rate := rate audio;
     chans := chans audio |}.

Definition sample_export (audio : sample_audio) (path format : string)
  : IO sample_world unit :=
  fun w => (Ok tt, (path, audio) :: sample_delete path w).

(** Split at the last occurrence of a character. *)
Fixpoint rsplit (c : ascii) (s : string) : option (string * string) :=
  match s with
  | EmptyString => None
  | String a s' =>
      match rsplit c s' with
      | Some (l, r) => Some (String a l, r)
      | None => if Ascii.eqb a c then Some (EmptyString, s') else None
      end
  end.

Definition sample_join (a b : string) : string := a ++ "/" ++ b.

Definition sample_dirname (path : string) : string :=
  match rsplit "/" path with
  | Some (dir, _) => dir
  | None => EmptyString
  end.

Definition sample_name (path : string) : string :=
  match rsplit "/" path with
  | Some (_, name) => name
  | None => path
  end.

Definition sample_stem (path : string) : string :=
  match rsplit "." (sample_name path) with
  | Some (stem, _) => stem
  | None => sample_name path
  end.

Definition sample_suffix (path : string) : string :=
  match rsplit "." (sample_name path) with
  | Some (_, ext) => "." ++ ext
  | None => EmptyString
  end.

Definition sample_separate (separator audio_path output_dir codec
    bitrate : string) : IO sample_world unit :=
  fun w =>
    match sample_lookup audio_path w with
    | Some audio =>
        let stem_dir := sample_join output_dir (sample_stem audio_path) in
        (Ok tt,
         (sample_join stem_dir ("drums." ++ codec), audio)
         :: (sample_join stem_dir ("bass." ++ codec), audio)
         :: (sample_join stem_dir ("vocals." ++ codec), audio)
         :: (sample_join stem_dir ("other." ++ codec), audio) :: w)
    | None => (Raise (no_such_file audio_path), w)
    end.

Lemma sample_remove_raises_OSError path w e w' :
  sample_remove path w = (Raise e, w') -> isinstance e OSError = true.
Proof.
  unfold sample_remove. destruct (sample_lookup path w); [discriminate|].
  intro H. injection H as <- _. reflexivity.
Qed.

Definition sample_platform : Platform sample_world sample_audio string :=
  {| os_path_exists := sample_exists;
     os_path_getsize := sample_getsize;
     os_makedirs := fun _ => ret tt;
     os_remove := sample_remove;
     os_path_join := sample_join;
     os_path_dirname := sample_dirname;
     path_name := sample_name;
     path_stem := sample_stem;
     path_suffix := sample_suffix;
     uuid4 := ret "3f2b8c1e-0d4a-4b6f-9c2e-7a1d5e8f0b3c";
     import_pydub := fun _ => Ok tt;
     AudioSegment_from_file := sample_from_file;
     audio_len := ms;
     audio_frame_rate := rate;
     audio_channels := chans;
     audio_slice := sample_slice;
     audio_export := sample_export;
     import_spleeter := fun _ => Ok tt;
     Separator_new := fun model => ret model;
     separate_to_file := sample_separate;
     os_remove_raises_OSError := sample_remove_raises_OSError |}.

(** One uploaded file of 20 seconds. *)
Definition song : sample_audio :=
  {| ms := 20000; rate := 44100; chans := 2 |}.

Definition uploads : sample_world := [("uploads/song.wav", song)].

(** A snippet inside the source succeeds. *)
Example process_audio_snippet_sample :
  fst (process_audio_snippet (platform := sample_platform)
         "uploads/song.wav" 2 18 "storage" true true uploads)
  = Ok {| success := true;
          stem_paths :=
            [("drums", "storage/stems/snippet_3f2b8c1e/drums.wav");
             ("bass", "storage/stems/snippet_3f2b8c1e/bass.wav");
             ("vocals", "storage/stems/snippet_3f2b8c1e/vocals.wav");
             ("other", "storage/stems/snippet_3f2b8c1e/other.wav")];
          metadata :=
            [("snippet_id", VStr "3f2b8c1e");
             ("original_file", VStr "song.wav");
             ("original_duration_seconds", VFloat (20000 / 1000));
             ("snippet_duration_seconds", VFloat (16000 / 1000));
             ("start_time", VFloat 2);
             ("end_time", VFloat 18);
             ("sample_rate", VInt 44100);
             ("channels", VInt 2);
             ("stems_extracted", VBool true);
             ("num_stems", VInt 4)];
          error := None |}.
Proof. vm_compute. reflexivity. Qed.

(** An inverted range is a trimming failure (test 3a of
    test_audio_service.py). *)
Example process_audio_snippet_inverted_range :
  fst (process_audio_snippet (platform := sample_platform)
         "uploads/song.wav" 18 3 "storage" true true uploads)
  = Ok (AudioProcessingResult_init false None None
          (Some "Trimming failed: End time must be greater than start time")).
Proof. vm_compute. reflexivity. Qed.

(** A missing file is a validation failure (test 3c). *)
Example process_audio_snippet_missing_file :
  fst (process_audio_snippet (platform := sample_platform)
         "nonexistent.wav" 0 15 "storage" true true uploads)
  = Ok (AudioProcessingResult_init false None None
          (Some "Validation failed: File not found: nonexistent.wav")).
Proof. vm_compute. reflexivity. Qed.

(** C5 at a concrete input: the range 10 s - 30 s of the 20 s file is
    valid in itself but ends past the source.  [trim_audio] raises
    [RuntimeError], and the orchestrator returns the generic
    "Processing error", not "Trimming failed". *)
Lemma trim_audio_end_beyond_duration_witness :
  (0 <= 10 /\ 10 < 30 /\ 15 <= 30 - 10 /\ 30 - 10 <= 90)%Q /\
  (inject_Z (ms song) / 1000 < 30)%Q /\
  trim_audio (platform := sample_platform) "uploads/song.wav"
    "storage/trimmed/snippet_3f2b8c1e.wav" 10 30 "wav" uploads
  = (Raise (mk_exn RuntimeError
              "Failed to trim audio: End time 30.0s exceeds audio duration 20.0s"),
     uploads) /\
  fst (process_audio_snippet (platform := sample_platform)
         "uploads/song.wav" 10 30 "storage" true true uploads)
  = Ok (AudioProcessingResult_init false None None
          (Some "Processing error: Failed to trim audio: End time 30.0s exceeds audio duration 20.0s")).
Proof.
  assert (H0 : (0 <= 10)%Q) by discriminate.
  assert (H1 : (10 < 30)%Q) by reflexivity.
  assert (H2 : (15 <= 30 - 10)%Q) by discriminate.
  assert (H3 : (30 - 10 <= 90)%Q) by discriminate.
  assert (H4 : (inject_Z (ms song) / 1000 < 30)%Q) by reflexivity.
  split; [repeat split; assumption|]. split; [exact H4|].
  split.
  - exact (proj1 (trim_audio_end_beyond_duration (platform := sample_platform)
                    10 30 H0 H1 H2 H3 "uploads/song.wav"
                    "storage/trimmed/snippet_3f2b8c1e.wav" "wav" uploads song
                    eq_refl eq_refl eq_refl H4)).
  - vm_compute. reflexivity.
Defined.

(** The same request, seen from the caller: a result comes back, it is a
    failure, and its reason is not empty. *)
Lemma process_audio_snippet_never_raises_witness :
  exists res w',
    process_audio_snippet (platform := sample_platform)
      "uploads/song.wav" 10 30 "storage" true true uploads = (Ok res, w') /\
    success res = false /\
    exists reason, error res = Some reason /\ reason <> EmptyString.
Proof.
  destruct (process_audio_snippet_never_raises (platform := sample_platform)
              "uploads/song.wav" 10 30 "storage" true true uploads)
    as [res [w' [Hrun [_ [Hfail _]]]]].
  assert (Hs : success res = false).
  { pose proof Hrun as H. vm_compute in H. injection H as <- _.
    reflexivity. }
  exists res, w'. split; [exact Hrun|]. split; [exact Hs|].
  exact (Hfail Hs).
Defined.

(** A request for a missing file: the failure carries no stems and no
    metadata. *)
Lemma process_audio_snippet_result_invariant_witness :
  exists res w',
    process_audio_snippet (platform := sample_platform)
      "nonexistent.wav" 0 15 "storage" true true uploads = (Ok res, w') /\
    success res = false /\
    exists reason,
      error res = Some reason /\ reason <> EmptyString /\
      stem_paths res = [] /\ metadata res = [].
Proof.
  destruct (process_audio_snippet_result_invariant
              (platform := sample_platform)
              "nonexistent.wav" 0 15 "storage" true true uploads)
    as [res [w' [Hrun [_ Hfail]]]].
  assert (Hs : success res = false).
  { pose proof Hrun as H. vm_compute in H. injection H as <- _.
    reflexivity. }
  exists res, w'. split; [exact Hrun|]. split; [exact Hs|].
  exact (Hfail Hs).
Defined.

End AudioService.

(* ===================================================================== *)
(** * Further facts: drum_classifier.py *)
(* ===================================================================== *)

Module DrumClassifierFacts.
Import Py DrumClassifier.
Local Open Scope py_scope.

(** ** [list.sort(key=...)] is stable *)

Lemma insert_by_filter {A} (key : A -> Q) (q : Q) (x : A) (l : list A) :
  filter (fun z => Qeq_bool (key z) q) (insert_by key x l)
  = if Qeq_bool (key x) q
    then x :: filter (fun z => Qeq_bool (key z) q) l
    else filter (fun z => Qeq_bool (key z) q) l.
Proof.
  induction l as [|y l IH]; simpl.
  - destruct (Qeq_bool (key x) q); reflexivity.
  - destruct (Qle_bool (key x) (key y)) eqn:Hle; simpl.
    + destruct (Qeq_bool (key x) q); reflexivity.
    + rewrite IH.
      destruct (Qeq_bool (key x) q) eqn:Hx;
        destruct (Qeq_bool (key y) q) eqn:Hy; try reflexivity.
      exfalso. apply Qeq_bool_iff in Hx, Hy.
      apply Qle_bool_false_iff in Hle. rewrite Hx, Hy in Hle.
      exact (Qlt_irrefl q Hle).
Qed.

Lemma sort_key_stable {A} (key : A -> Q) (q : Q) (l : list A) :
  filter (fun z => Qeq_bool (key z) q) (sort_key key l)
  = filter (fun z => Qeq_bool (key z) q) l.
Proof.
  induction l as [|x l IH]; simpl; [reflexivity|].
  rewrite insert_by_filter, IH. reflexivity.
Qed.

(** ** [get_drum_pattern_summary] *)

(** The dictionary returned by [get_drum_pattern_summary]; its keys are
    fixed. *)
Record pattern_summary : Type := {
  total_hits : Z;
  kick_count : Z;
  snare_count : Z;
  hihat_count : Z;
  kick_percentage : Q;
  snare_percentage : Q;
  hihat_percentage : Q
}.

(** [sum(len(times) for times in drum_pattern.values())] *)
Definition sum_lengths (drum_pattern : dict string (list Q)) : Z :=
  fold_left Z.add (map (fun item => len (snd item)) drum_pattern) 0%Z.

(** [drum_pattern.get(key, [])] *)
Definition get_or_empty (drum_pattern : dict string (list Q))
    (key : string) : list Q :=
  match get String.eqb drum_pattern key with
  | Some times => times
  | None => []
  end.

(** [count / total_hits * 100 if total_hits > 0 else 0] *)
Definition percentage_of (count total_hits : Z) : Q :=
  if (0 <? total_hits)%Z then inject_Z count / inject_Z total_hits * 100
  else 0.

Definition get_drum_pattern_summary (drum_pattern : dict string (list Q))
  : pattern_summary :=
  let total_hits := sum_lengths drum_pattern in
  {| total_hits := total_hits;
     kick_count := len (get_or_empty drum_pattern "kick");
     snare_count := len (get_or_empty drum_pattern "snare");
     hihat_count := len (get_or_empty drum_pattern "hihat");
     kick_percentage :=
       percentage_of (len (get_or_empty drum_pattern "kick")) total_hits;
     snare_percentage :=
       percentage_of (len (get_or_empty drum_pattern "snare")) total_hits;
     hihat_percentage :=
       percentage_of (len (get_or_empty drum_pattern "hihat")) total_hits |}.



Lemma fold_add_shift (l : list Z) (a : Z) :
  fold_left Z.add l a = (a + fold_left Z.add l 0)%Z.
Proof.
  revert a. induction l as [|x l IH]; intro a; simpl; [lia|].
  rewrite (IH (a + x)%Z), (IH x). lia.
Qed.

Lemma sum_lengths_cons key times (drum_pattern : dict string (list Q)) :
  sum_lengths ((key, times) :: drum_pattern)
  = (len times + sum_lengths drum_pattern)%Z.
Proof. unfold sum_lengths. simpl. now rewrite fold_add_shift. Qed.

Lemma get_or_empty_absent (drum_pattern : dict string (list Q)) key :
  ~ In key (keys drum_pattern) -> get_or_empty drum_pattern key = [].
Proof.
  unfold get_or_empty.
  induction drum_pattern as [|[k v] d IH]; simpl; intro H; [reflexivity|].
  destruct (String.eqb_spec key k) as [->|Hne]; [tauto|].
  apply IH. tauto.
Qed.





(** Summary edge cases.  A class that is missing from the dictionary
    counts 0 hits, and when the pattern holds no hit at all every
    percentage is 0 (no division takes place); an empty dictionary gives
    the all-zero summary. *)
Theorem get_drum_pattern_summary_no_hits
    (drum_pattern : dict string (list Q)) :
  let s := get_drum_pattern_summary drum_pattern in
  (~ In "kick"%string (keys drum_pattern) -> kick_count s = 0%Z) /\
  (~ In "snare"%string (keys drum_pattern) -> snare_count s = 0%Z) /\
  (~ In "hihat"%string (keys drum_pattern) -> hihat_count s = 0%Z) /\
  ((total_hits s <= 0)%Z ->
   kick_percentage s = 0 /\ snare_percentage s = 0 /\
   hihat_percentage s = 0) /\
  (0 <= total_hits s)%Z.
Proof.
  intro s. subst s. unfold get_drum_pattern_summary.
  cbn [total_hits kick_count snare_count hihat_count kick_percentage
       snare_percentage hihat_percentage].
  split; [intro H; now rewrite get_or_empty_absent|].
  split; [intro H; now rewrite get_or_empty_absent|].
  split; [intro H; now rewrite get_or_empty_absent|].
  split.
  - intro H. apply Z.ltb_ge in H. unfold percentage_of. now rewrite H.
  - induction drum_pattern as [|[k v] d IH]; [discriminate|].
    rewrite sum_lengths_cons. unfold len in *. lia.
Qed.

Lemma get_drum_pattern_summary_no_hits_witness :
  get_drum_pattern_summary [("snare", [])]%string
  = {| total_hits := 0; kick_count := 0; snare_count := 0;
       hihat_count := 0; kick_percentage := 0; snare_percentage := 0;
       hihat_percentage := 0 |}.
Proof.
  destruct (get_drum_pattern_summary_no_hits [("snare", [])]%string)
    as [_ [_ [_ [H _]]]].
  reflexivity.
Defined.

(** ** The analysis window *)

Lemma slice_index_nonneg (n i : Z) :
  (0 <= i)%Z -> (0 <= n)%Z -> slice_index n i = Z.min i n.
Proof.
  intros Hi Hn. unfold slice_index.
  destruct (Z.ltb_spec i 0); [lia|]. cbv zeta.
  destruct (Z.ltb_spec i 0); [lia|].
  destruct (Z.ltb_spec n i); lia.
Qed.

Lemma onset_window_stretch (y : list Q) (onset_sample window_size : Z) :
  (0 <= onset_sample)%Z -> (0 <= window_size)%Z ->
  onset_window y onset_sample window_size
  = firstn (Z.to_nat (Z.min (len y) (onset_sample + window_size / 2)
                      - Z.max 0 (onset_sample - window_size / 2)))
      (skipn (Z.to_nat (Z.max 0 (onset_sample - window_size / 2))) y).
Proof.
  intros Ho Hw.
  assert (Hh : (0 <= window_size / 2)%Z) by (apply Z.div_pos; lia).
  assert (Hn : (0 <= len y)%Z) by (unfold len; lia).
  unfold onset_window, slice.
  set (start_sample := Z.max 0 (onset_sample - window_size / 2)).
  set (end_sample := Z.min (len y) (onset_sample + window_size / 2)).
  rewrite !slice_index_nonneg by lia.
  destruct (Z.le_gt_cases start_sample (len y)) as [Hle|Hgt].
  - now rewrite (Z.min_l start_sample), (Z.min_l end_sample) by lia.
  - rewrite !skipn_all2 by (unfold len in *; lia).
    now rewrite !firstn_nil.
Qed.

(** Window bounds.  For a non-negative onset index and window size the
    window is the stretch of the buffer from [max(0, onset - size//2)] up
    to [min(len(y), onset + size//2)]: it never holds more than
    [window_size] samples, and it is empty exactly when that stretch is. *)
Theorem onset_window_bounds (y : list Q) (onset_sample window_size : Z) :
  (0 <= onset_sample)%Z -> (0 <= window_size)%Z ->
  let start_sample := Z.max 0 (onset_sample - window_size / 2) in
  let end_sample := Z.min (len y) (onset_sample + window_size / 2) in
  onset_window y onset_sample window_size
  = firstn (Z.to_nat (end_sample - start_sample))
      (skipn (Z.to_nat start_sample) y) /\
  len (onset_window y onset_sample window_size)
  = Z.max 0 (end_sample - start_sample) /\
  (len (onset_window y onset_sample window_size) <= window_size)%Z /\
  (onset_window y onset_sample window_size = [] <->
   (end_sample <= start_sample)%Z).
Proof.
  intros Ho Hw start_sample end_sample.
  assert (Hh : (0 <= window_size / 2)%Z) by (apply Z.div_pos; lia).
  assert (Hh2 : (2 * (window_size / 2) <= window_size)%Z)
    by (apply Z.mul_div_le; lia).
  assert (Hn : (0 <= len y)%Z) by (unfold len; lia).
  pose proof (onset_window_stretch y onset_sample window_size Ho Hw) as Heq.
  fold start_sample in Heq. fold end_sample in Heq.
  assert (Hlen : len (onset_window y onset_sample window_size)
                 = Z.max 0 (end_sample - start_sample)).
  { rewrite Heq. unfold len in *.
    rewrite length_firstn, length_skipn. lia. }
  split; [exact Heq|]. split; [exact Hlen|]. split; [lia|].
  split; intro H.
  - rewrite H in Hlen. unfold len in Hlen. simpl in Hlen. lia.
  - assert (H0 : len (onset_window y onset_sample window_size) = 0%Z)
      by lia.
    unfold len in H0.
    destruct (onset_window y onset_sample window_size);
      [reflexivity|simpl in H0; lia].
Qed.

Lemma onset_window_bounds_witness :
  let y := [1; 2; 3; 4; 5; 6; 7; 8] in
  onset_window y 6 4 = [5; 6; 7; 8] /\
  (len (onset_window y 6 4) <= 4)%Z.
Proof.
  intro y.
  destruct (onset_window_bounds y 6 4)
    as [_ [_ [H _]]]; [discriminate|discriminate|].
  split; [reflexivity|exact H].
Defined.

(** ** The classifier on a platform *)

Section ClassifierFacts.

Variable librosa_installed : bool.
Variable os_path_exists : string -> bool.
Variable librosa_load : string -> result (list Q * Z).
Variable complex : Type.
Variable rfft : list Q -> list complex.
Variable complex_abs : complex -> Q.

Local Abbreviation classify_drum_hit :=
  (classify_drum_hit librosa_installed complex rfft complex_abs).
Local Abbreviation classify_drum_pattern :=
  (classify_drum_pattern librosa_installed os_path_exists librosa_load
     complex rfft complex_abs).
Local Abbreviation get_drum_midi_pattern :=
  (get_drum_midi_pattern librosa_installed os_path_exists librosa_load
     complex rfft complex_abs).
Local Abbreviation onsets_of_class :=
  (onsets_of_class librosa_installed complex rfft complex_abs).
Local Abbreviation class_of_onset :=
  (class_of_onset librosa_installed complex rfft complex_abs).

Lemma classify_drum_hit_empty_window y sr onset_sample window_size :
  onset_window y onset_sample window_size = [] ->
  classify_drum_hit y sr onset_sample window_size = Ok snare.
Proof.
  intro Hw. unfold DrumClassifier.classify_drum_hit, classify_drum_hit_body.
  rewrite try_except_Exception, Hw. unfold import_librosa.
  destruct librosa_installed; reflexivity.
Qed.

(** Onsets outside the buffer.  An onset whose window starts at or past
    the end of the buffer, and any onset at all when [window_size] is 0
    or 1, has an empty window and is classified as snare, whatever the
    audio is. *)
Theorem classify_drum_hit_outside_buffer y sr onset_sample window_size :
  (0 <= onset_sample)%Z -> (0 <= window_size)%Z ->
  (len y <= onset_sample - window_size / 2)%Z \/ (window_size < 2)%Z ->
  onset_window y onset_sample window_size = [] /\
  classify_drum_hit y sr onset_sample window_size = Ok snare.
Proof.
  intros Ho Hw Hout.
  assert (Hh : (0 <= window_size / 2)%Z) by (apply Z.div_pos; lia).
  assert (Hempty : onset_window y onset_sample window_size = []).
  { rewrite (onset_window_stretch y onset_sample window_size Ho Hw).
    destruct Hout as [Hpast|Hsmall].
    - rewrite skipn_all2 by (unfold len in *; lia). apply firstn_nil.
    - assert (Hz : (window_size / 2 = 0)%Z) by (apply Z.div_small; lia).
      rewrite Hz, !Z.add_0_r, !Z.sub_0_r.
      replace (Z.to_nat (Z.min (len y) onset_sample - Z.max 0 onset_sample))
        with O by lia.
      reflexivity. }
  split; [exact Hempty|]. now apply classify_drum_hit_empty_window.
Qed.

(** Errors of [classify_drum_pattern].  A missing file raises
    [FileNotFoundError] before anything else; with the file present, a
    missing librosa or a failing load raises [RuntimeError] carrying the
    original message; no other exception class ever leaves the function,
    and with the file present and loadable it does not raise at all. *)
Theorem classify_drum_pattern_errors audio_path onset_times :
  (os_path_exists audio_path = false ->
   classify_drum_pattern audio_path onset_times
   = Raise (mk_exn FileNotFoundError
              ("Audio file not found: " ++ audio_path))) /\
  (os_path_exists audio_path = true -> librosa_installed = false ->
   classify_drum_pattern audio_path onset_times
   = Raise (mk_exn RuntimeError
              "Failed to classify drums: No module named 'librosa'")) /\
  (forall e0,
      os_path_exists audio_path = true -> librosa_installed = true ->
      librosa_load audio_path = Raise e0 ->
      classify_drum_pattern audio_path onset_times
      = Raise (mk_exn RuntimeError
                 ("Failed to classify drums: " ++ str e0))) /\
  (forall e,
      classify_drum_pattern audio_path onset_times = Raise e ->
      (exn_class e = FileNotFoundError /\ os_path_exists audio_path = false)
      \/ (exn_class e = RuntimeError /\
          (librosa_installed = false \/
           exists e0, librosa_load audio_path = Raise e0))).
Proof.
  unfold DrumClassifier.classify_drum_pattern.
  split; [intros ->; reflexivity|].
  split; [intros -> Hlib; cbn [negb]; rewrite try_except_Exception;
          unfold import_librosa; rewrite Hlib; reflexivity|].
  split.
  - intros e0 -> Hlib Hload. cbn [negb]. rewrite try_except_Exception.
    unfold import_librosa. rewrite Hlib. cbn [bind]. rewrite Hload.
    reflexivity.
  - intros e. destruct (os_path_exists audio_path); cbn [negb].
    + rewrite try_except_Exception. unfold import_librosa.
      destruct librosa_installed; cbn [bind].
      * destruct (librosa_load audio_path) as [[y sr]|e0] eqn:Hload;
          cbn [bind].
        -- rewrite classify_onsets_spec. discriminate.
        -- intro H. injection H as <-. right. split; [reflexivity|].
           right. now exists e0.
      * intro H. injection H as <-. right. split; [reflexivity|]. now left.
    + intro H. injection H as <-. left. split; reflexivity.
Qed.

(** [get_drum_midi_pattern] end to end.  For a loadable file the function
    returns one (time, note) pair per onset, sorted ascending by time; the
    times are the input onset times rearranged, and each note is 36, 38
    or 42. *)
Theorem get_drum_midi_pattern_times audio_path onset_times y sr :
  os_path_exists audio_path = true ->
  librosa_installed = true ->
  librosa_load audio_path = Ok (y, sr) ->
  exists midi_pattern,
    get_drum_midi_pattern audio_path onset_times = Ok midi_pattern /\
    Sorted (fun a b => fst a <= fst b) midi_pattern /\
    Permutation (map fst midi_pattern) onset_times /\
    length midi_pattern = length onset_times /\
    Forall (fun pair => In (snd pair) [36; 38; 42]%Z) midi_pattern.
Proof.
  intros Hex Hlib Hload. unfold DrumClassifier.get_drum_midi_pattern.
  rewrite (classify_drum_pattern_spec _ _ _ _ _ _ _ _ _ _ Hex Hlib Hload).
  cbn [bind]. rewrite to_midi_pattern_spec.
  eexists. split; [reflexivity|]. split; [apply sort_key_sorted|].
  set (pattern := [(kick, onsets_of_class y sr kick onset_times);
                   (snare, onsets_of_class y sr snare onset_times);
                   (hihat, onsets_of_class y sr hihat onset_times)]).
  assert (Hperm : Permutation (map fst (sort_key fst (expand_pattern pattern)))
                    onset_times).
  { rewrite (sort_key_perm fst (expand_pattern pattern)).
    unfold expand_pattern, pattern. cbn [flat_map fst snd].
    rewrite app_nil_r, !map_app, !map_map. cbn [fst]. rewrite !map_id.
    apply (three_way_partition (class_of_onset y sr)). }
  split; [exact Hperm|]. split.
  - apply Permutation_length in Hperm. now rewrite length_map in Hperm.
  - rewrite Forall_forall. intros [time note] Hin.
    apply (Permutation_in _ (sort_key_perm fst _)) in Hin.
    apply expand_pattern_in in Hin.
    destruct Hin as [c [times [_ [_ ->]]]].
    destruct c; simpl; auto.
Qed.

(** Equal times in the MIDI pattern.  The sort is stable: the pairs that
    share a time come out in the order in which the expansion lists them,
    that is in the dictionary order of their classes (kick, snare, hihat
    for a classified pattern) and, within a class, in list order. *)
Theorem to_midi_pattern_equal_times (drum_pattern : drum_pattern_t)
    (time : Q) :
  exists midi_pattern,
    to_midi_pattern drum_pattern = Ok midi_pattern /\
    filter (fun pair => Qeq_bool (fst pair) time) midi_pattern
    = filter (fun pair => Qeq_bool (fst pair) time)
        (expand_pattern drum_pattern).
Proof.
  rewrite to_midi_pattern_spec. eexists. split; [reflexivity|].
  apply sort_key_stable.
Qed.


End ClassifierFacts.

(** ** The facts on the sample instance *)

Lemma classify_drum_hit_outside_buffer_witness :
  (len sample_buffer <= 2080 - default_window_size / 2)%Z /\
  classify_drum_hit true _ sample_rfft sample_abs sample_buffer 800 2080
    default_window_size = Ok snare.
Proof.
  assert (H : (len sample_buffer <= 2080 - default_window_size / 2)%Z)
    by (vm_compute; discriminate).
  split; [exact H|].
  apply (classify_drum_hit_outside_buffer true _ sample_rfft sample_abs
           sample_buffer 800 2080 default_window_size);
    [discriminate | discriminate | left; exact H].
Defined.

Lemma classify_drum_pattern_errors_witness :
  classify_drum_pattern true sample_exists (sample_load 800)
    _ sample_rfft sample_abs "missing.wav" [0]
  = Raise (mk_exn FileNotFoundError "Audio file not found: missing.wav").
Proof.
  exact (proj1 (classify_drum_pattern_errors true sample_exists
                  (sample_load 800) _ sample_rfft sample_abs
                  "missing.wav" [0]) eq_refl).
Defined.

Lemma get_drum_midi_pattern_times_witness :
  exists midi_pattern,
    get_drum_midi_pattern true sample_exists (sample_load 800)
      _ sample_rfft sample_abs "drums.wav" [0; 64 # 25; 13 # 5]
    = Ok midi_pattern /\
    Sorted (fun a b => fst a <= fst b) midi_pattern /\
    Permutation (map fst midi_pattern) [0; 64 # 25; 13 # 5] /\
    length midi_pattern = 3%nat /\
    Forall (fun pair => In (snd pair) [36; 38; 42]%Z) midi_pattern.
Proof.
  apply (get_drum_midi_pattern_times true sample_exists (sample_load 800)
           _ sample_rfft sample_abs "drums.wav" [0; 64 # 25; 13 # 5]
           sample_buffer 800); reflexivity.
Defined.

Example get_drum_midi_pattern_sample :
  get_drum_midi_pattern true sample_exists (sample_load 800)
    _ sample_rfft sample_abs "drums.wav" [0; 64 # 25; 13 # 5]
  = Ok [(0, 36%Z); (64 # 25, 38%Z); (13 # 5, 38%Z)].
Proof. vm_compute. reflexivity. Qed.

(** Kick, snare and hi-hat all at time 1. *)
Lemma to_midi_pattern_equal_times_witness :
  exists midi_pattern,
    to_midi_pattern [(kick, [0; 1]); (snare, [1]); (hihat, [1 # 2; 1])]
    = Ok midi_pattern /\
    filter (fun pair => Qeq_bool (fst pair) 1) midi_pattern
    = [(1, 36%Z); (1, 38%Z); (1, 42%Z)].
Proof.
  destruct (to_midi_pattern_equal_times
              [(kick, [0; 1]); (snare, [1]); (hihat, [1 # 2; 1])] 1)
    as [midi_pattern [Hrun Heq]].
  exists midi_pattern. split; [exact Hrun|]. rewrite Heq. reflexivity.
Defined.


Example summary_sample :
  get_drum_pattern_summary
    [("kick", [0; 2]); ("snare", [1]); ("hihat", [1 # 2])]%string
  = {| total_hits := 4; kick_count := 2; snare_count := 1;
       hihat_count := 1; kick_percentage := 2 / 4 * 100;
       snare_percentage := 1 / 4 * 100; hihat_percentage := 1 / 4 * 100 |}.
Proof. reflexivity. Qed.

End DrumClassifierFacts.

(* ===================================================================== *)
(** * Further facts: onset_detector.py *)
(* ===================================================================== *)

Module OnsetDetectorFacts.
Import Py OnsetDetector.
Local Open Scope py_scope.

(** The dictionary returned by [analyze_drum_pattern]; its keys are
    fixed. *)
Record drum_analysis : Type := {
  onset_times : list Q;
  num_hits : Z;
  tempo_bpm : Q;
  duration_seconds : Q;
  hit_density : Q
}.

(** [len(y) / sr] on integers. *)
Definition true_div (a b : Z) : result Q :=
  if (b =? 0)%Z then Raise (mk_exn ZeroDivisionError "division by zero")
  else Ok (inject_Z a / inject_Z b).

(** Defaults of [detect_onsets]. *)
Definition default_hop_length : Z := 512.
Definition default_backtrack : bool := false.
Definition default_onset_threshold : Q := 3 # 10.

Section Analysis.

Variable librosa_installed : bool.
Variable os_path_exists : string -> bool.
Variable librosa_load : string -> result (list Q * Z).
Variable onset_strength : list Q -> Z -> Z -> result (list Q).
Variable onset_detect : list Q -> Z -> Z -> bool -> result (list Z).
Variable onset_detect_envelope :
  list Q -> Z -> Z -> bool -> result (list Z).
(** [librosa.beat.beat_track(y=y, sr=sr)], its tempo as a float. *)
Variable beat_track : list Q -> Z -> result Q.

Local Abbreviation detect_onsets :=
  (detect_onsets librosa_installed os_path_exists librosa_load onset_detect).
Local Abbreviation detect_onsets_with_strength :=
  (detect_onsets_with_strength librosa_installed os_path_exists
     librosa_load onset_strength onset_detect_envelope).
Local Abbreviation import_librosa := (import_librosa librosa_installed).

Definition get_tempo (audio_path : string) : result Q :=
  if negb (os_path_exists audio_path) then
    Raise (mk_exn FileNotFoundError
             ("Audio file not found: " ++ audio_path))
  else
    try_except
      (_ <- import_librosa ;;
       '(y, sr) <- librosa_load audio_path ;;
       tempo <- beat_track y sr ;;
       Ok tempo)
      [(Exception, fun e =>
          Raise (mk_exn RuntimeError
                   ("Failed to estimate tempo: " ++ str e)))].

Definition analyze_drum_pattern (audio_path : string) (filter_weak : bool)
    (min_strength : Q) : result drum_analysis :=
  try_except
    (_ <- import_librosa ;;
     '(y, sr) <- librosa_load audio_path ;;
     duration <- true_div (len y) sr ;;
     onset_times <- detect_onsets audio_path default_hop_length
                      default_backtrack default_onset_threshold ;;
     tempo <- get_tempo audio_path ;;
     let hit_density :=
       if Qlt_bool 0 duration then inject_Z (len onset_times) / duration
       else 0 in
     Ok {| onset_times := onset_times;
           num_hits := len onset_times;
           tempo_bpm := tempo;
           duration_seconds := duration;
           hit_density := hit_density |})
    [(Exception, fun e =>
        Raise (mk_exn RuntimeError
                 ("Failed to analyze drum pattern: " ++ str e)))].

(** ** Facts: the two detectors *)

Lemma try_except_ImportError_Exception {A} (body : result A)
    (h1 h2 : exn -> result A) :
  try_except body [(ImportError, h1); (Exception, h2)]
  = match body with
    | Ok a => Ok a
    | Raise e => if isinstance e ImportError then h1 e else h2 e
    end.
Proof.
  destruct body as [a|e]; simpl; [reflexivity|].
  destruct (isinstance e ImportError); [reflexivity|].
  now rewrite isinstance_Exception.
Qed.

(** Errors of [detect_onsets].  A missing file raises
    [FileNotFoundError]; with the file present, a missing librosa raises
    [ImportError] with the installation hint, and a failing load or
    detection that is not an import error raises [RuntimeError] carrying
    the original message.  No other exception class leaves the
    function. *)
Theorem detect_onsets_errors audio_path hop_length backtrack threshold :
  (os_path_exists audio_path = false ->
   detect_onsets audio_path hop_length backtrack threshold
   = Raise (mk_exn FileNotFoundError
              ("Audio file not found: " ++ audio_path))) /\
  (os_path_exists audio_path = true -> librosa_installed = false ->
   detect_onsets audio_path hop_length backtrack threshold
   = Raise (mk_exn ImportError
              "librosa is not installed. Run: pip install librosa")) /\
  (forall e0,
      os_path_exists audio_path = true -> librosa_installed = true ->
      librosa_load audio_path = Raise e0 ->
      isinstance e0 ImportError = false ->
      detect_onsets audio_path hop_length backtrack threshold
      = Raise (mk_exn RuntimeError
                 ("Failed to detect onsets: " ++ str e0))) /\
  (forall e,
      detect_onsets audio_path hop_length backtrack threshold = Raise e ->
      exn_class e = FileNotFoundError \/ exn_class e = ImportError \/
      exn_class e = RuntimeError).
Proof.
  unfold OnsetDetector.detect_onsets.
  split; [intros ->; reflexivity|].
  split; [intros -> Hlib; cbn [negb];
          rewrite try_except_ImportError_Exception;
          unfold OnsetDetector.import_librosa; rewrite Hlib; reflexivity|].
  split.
  - intros e0 -> Hlib Hload Hcls. cbn [negb].
    rewrite try_except_ImportError_Exception.
    unfold OnsetDetector.import_librosa. rewrite Hlib. cbn [bind].
    rewrite Hload. cbn [bind]. now rewrite Hcls.
  - intro e. destruct (os_path_exists audio_path); cbn [negb].
    + rewrite try_except_ImportError_Exception.
      match goal with
      | |- match ?body with _ => _ end = _ -> _ =>
          destruct body as [a|e0]
      end; [discriminate|].
      destruct (isinstance e0 ImportError); intro H; injection H as <-;
        simpl; auto.
    + intro H. injection H as <-. simpl. auto.
Qed.

(** Errors of [detect_onsets_with_strength].  A missing file raises
    [FileNotFoundError]; every other failure, a missing librosa
    included, is re-raised as [RuntimeError]: unlike [detect_onsets] this
    function has no [except ImportError] clause. *)
Theorem detect_onsets_with_strength_errors audio_path hop_length :
  (os_path_exists audio_path = false ->
   detect_onsets_with_strength audio_path hop_length
   = Raise (mk_exn FileNotFoundError
              ("Audio file not found: " ++ audio_path))) /\
  (os_path_exists audio_path = true -> librosa_installed = false ->
   detect_onsets_with_strength audio_path hop_length
   = Raise (mk_exn RuntimeError
              "Failed to detect onsets: No module named 'librosa'")) /\
  (forall y sr onset_env onset_frames e0,
      os_path_exists audio_path = true -> librosa_installed = true ->
      librosa_load audio_path = Ok (y, sr) ->
      onset_strength y sr hop_length = Ok onset_env ->
      onset_detect_envelope onset_env sr hop_length true = Ok onset_frames ->
      np_take onset_env onset_frames = Raise e0 ->
      detect_onsets_with_strength audio_path hop_length
      = Raise (mk_exn RuntimeError
                 ("Failed to detect onsets: " ++ str e0))) /\
  (forall e,
      detect_onsets_with_strength audio_path hop_length = Raise e ->
      exn_class e = FileNotFoundError \/ exn_class e = RuntimeError).
Proof.
  unfold OnsetDetector.detect_onsets_with_strength.
  split; [intros ->; reflexivity|].
  split; [intros -> Hlib; cbn [negb]; rewrite try_except_Exception;
          unfold OnsetDetector.import_librosa; rewrite Hlib; reflexivity|].
  split.
  - intros y sr onset_env onset_frames e0 -> Hlib Hload Henv Hfr Htake.
    cbn [negb]. rewrite try_except_Exception.
    unfold OnsetDetector.import_librosa. rewrite Hlib. cbn [bind].
    rewrite Hload. cbn [bind]. rewrite Henv. cbn [bind].
    rewrite Hfr. cbn [bind]. rewrite Htake. reflexivity.
  - intro e. destruct (os_path_exists audio_path); cbn [negb].
    + rewrite try_except_Exception.
      match goal with
      | |- match ?body with _ => _ end = _ -> _ =>
          destruct body as [a|e0]
      end; [discriminate|].
      intro H; injection H as <-; simpl; auto.
    + intro H. injection H as <-. simpl. auto.
Qed.

(** ** Facts: onset times *)

Lemma frame_time_monotone (sr hop_length f g : Z) :
  (0 <= hop_length)%Z -> (0 < sr)%Z -> (f <= g)%Z ->
  inject_Z (f * hop_length) / inject_Z sr
  <= inject_Z (g * hop_length) / inject_Z sr.
Proof.
  intros Hhop Hsr Hfg. unfold Qdiv. apply Qmult_le_compat_r.
  - rewrite <- Zle_Qle. nia.
  - apply Qinv_le_0_compat. change 0 with (inject_Z 0).
    rewrite <- Zle_Qle. lia.
Qed.

Lemma frames_to_time_ascending (frames : list Z) (sr hop_length : Z) :
  (0 <= hop_length)%Z -> (0 < sr)%Z ->
  Sorted Z.le frames -> Sorted Qle (frames_to_time frames sr hop_length).
Proof.
  intros Hhop Hsr Hs. unfold frames_to_time.
  induction Hs as [|f frames Hs IH Hhd]; simpl; constructor; [exact IH|].
  destruct Hhd as [|g frames Hfg]; simpl; constructor.
  now apply frame_time_monotone.
Qed.

(** Result of [detect_onsets].  On a loadable file the onset times are
    the frames librosa detects, each converted as
    [frame * hop_length / sr]: one time per frame, ascending when the
    frames are, never negative when the frames are not.  The
    [onset_threshold] argument has no influence on the result. *)
Theorem detect_onsets_times audio_path hop_length backtrack threshold
    y sr frames :
  os_path_exists audio_path = true ->
  librosa_installed = true ->
  librosa_load audio_path = Ok (y, sr) ->
  onset_detect y sr hop_length backtrack = Ok frames ->
  (0 < hop_length)%Z -> (0 < sr)%Z ->
  exists times,
    detect_onsets audio_path hop_length backtrack threshold = Ok times /\
    times = map (fun f => inject_Z (f * hop_length) / inject_Z sr) frames /\
    length times = length frames /\
    (Sorted Z.le frames -> Sorted Qle times) /\
    (Forall (fun f => (0 <= f)%Z) frames -> Forall (fun t => 0 <= t) times)
    /\
    (forall other_threshold,
        detect_onsets audio_path hop_length backtrack other_threshold
        = Ok times).
Proof.
  intros Hex Hlib Hload Hdet Hhop Hsr.
  assert (Hrun : forall th,
             detect_onsets audio_path hop_length backtrack th
             = Ok (frames_to_time frames sr hop_length)).
  { intro th. unfold OnsetDetector.detect_onsets. rewrite Hex. cbn [negb].
    rewrite try_except_ImportError_Exception.
    unfold OnsetDetector.import_librosa. rewrite Hlib. cbn [bind].
    rewrite Hload. cbn [bind]. rewrite Hdet. reflexivity. }
  exists (frames_to_time frames sr hop_length).
  split; [apply Hrun|]. split; [reflexivity|].
  split; [apply length_map|].
  split; [apply frames_to_time_ascending; lia|].
  split; [|exact Hrun].
  intro Hpos. unfold frames_to_time. rewrite Forall_forall in *.
  intros t Ht. apply in_map_iff in Ht. destruct Ht as [f [<- Hf]].
  pose proof (frame_time_monotone sr hop_length 0 f) as Hm.
  rewrite Z.mul_0_l in Hm. unfold Qdiv in Hm at 1. rewrite Qmult_0_l in Hm.
  apply Hm; try lia. now apply Hpos.
Qed.

(** ** Facts: [get_tempo] and [analyze_drum_pattern] *)

(** [get_tempo].  A missing file raises [FileNotFoundError]; with the
    file present the result is the tempo librosa's beat tracker estimates,
    and every failure (librosa missing, load or beat tracking failing) is
    re-raised as [RuntimeError]. *)
Theorem get_tempo_result audio_path :
  (os_path_exists audio_path = false ->
   get_tempo audio_path
   = Raise (mk_exn FileNotFoundError
              ("Audio file not found: " ++ audio_path))) /\
  (forall y sr tempo,
      os_path_exists audio_path = true -> librosa_installed = true ->
      librosa_load audio_path = Ok (y, sr) ->
      beat_track y sr = Ok tempo ->
      get_tempo audio_path = Ok tempo) /\
  (forall e,
      get_tempo audio_path = Raise e ->
      (exn_class e = FileNotFoundError /\ os_path_exists audio_path = false)
      \/ (exn_class e = RuntimeError /\ os_path_exists audio_path = true)).
Proof.
  unfold get_tempo.
  split; [intros ->; reflexivity|]. split.
  - intros y sr tempo -> Hlib Hload Hbeat. cbn [negb].
    rewrite try_except_Exception. unfold OnsetDetector.import_librosa.
    rewrite Hlib. cbn [bind]. rewrite Hload. cbn [bind]. now rewrite Hbeat.
  - intro e. destruct (os_path_exists audio_path); cbn [negb].
    + rewrite try_except_Exception.
      match goal with
      | |- match ?body with _ => _ end = _ -> _ =>
          destruct body as [a|e0]
      end; [discriminate|].
      intro H. injection H as <-. right. split; reflexivity.
    + intro H. injection H as <-. left. split; reflexivity.
Qed.



(** Errors of [analyze_drum_pattern].  Whatever goes wrong, a missing
    file included, the function raises [RuntimeError] and nothing else;
    with a sample rate of 0 it fails on the duration.  The arguments
    [filter_weak] and [min_strength] do not influence the outcome. *)
Theorem analyze_drum_pattern_errors audio_path filter_weak min_strength :
  (forall e,
      analyze_drum_pattern audio_path filter_weak min_strength = Raise e ->
      exn_class e = RuntimeError) /\
  (forall e0,
      librosa_installed = true -> librosa_load audio_path = Raise e0 ->
      analyze_drum_pattern audio_path filter_weak min_strength
      = Raise (mk_exn RuntimeError
                 ("Failed to analyze drum pattern: " ++ str e0))) /\
  (forall y,
      librosa_installed = true -> librosa_load audio_path = Ok (y, 0%Z) ->
      analyze_drum_pattern audio_path filter_weak min_strength
      = Raise (mk_exn RuntimeError
                 "Failed to analyze drum pattern: division by zero")) /\
  (forall other_flag other_strength,
      analyze_drum_pattern audio_path other_flag other_strength
      = analyze_drum_pattern audio_path filter_weak min_strength).
Proof.
  unfold analyze_drum_pattern. rewrite try_except_Exception.
  split; [|split; [|split]].
  - intro e.
    match goal with
    | |- match ?body with _ => _ end = _ -> _ => destruct body as [a|e0]
    end; [discriminate|].
    intro H. injection H as <-. reflexivity.
  - intros e0 Hlib Hload. unfold OnsetDetector.import_librosa.
    rewrite Hlib. cbn [bind]. rewrite Hload. reflexivity.
  - intros y Hlib Hload. unfold OnsetDetector.import_librosa.
    rewrite Hlib. cbn [bind]. rewrite Hload. reflexivity.
  - intros. reflexivity.
Qed.

End Analysis.

(** ** Facts: [filter_weak_onsets] *)

Lemma filter_weak_onsets_cons time strength rest min_strength :
  filter_weak_onsets ((time, strength) :: rest) min_strength
  = if Qle_bool min_strength strength
    then time :: filter_weak_onsets rest min_strength
    else filter_weak_onsets rest min_strength.
Proof.
  unfold filter_weak_onsets. cbn [filter snd].
  destruct (Qle_bool min_strength strength); reflexivity.
Qed.

Lemma filter_weak_onsets_In events min_strength time :
  In time (filter_weak_onsets events min_strength) <->
  exists strength, In (time, strength) events /\ min_strength <= strength.
Proof.
  unfold filter_weak_onsets. rewrite in_map_iff. split.
  - intros [[t s] [Ht Hin]]. simpl in Ht. subst t.
    apply filter_In in Hin. destruct Hin as [Hin Hle].
    exists s. split; [exact Hin|]. now apply Qle_bool_iff.
  - intros [s [Hin Hle]]. exists (time, s). split; [reflexivity|].
    apply filter_In. split; [exact Hin|]. now apply Qle_bool_iff.
Qed.

Lemma filter_weak_onsets_all events :
  Forall (fun onset => 0 <= snd onset) events ->
  filter_weak_onsets events 0 = map fst events.
Proof.
  induction 1 as [|[time strength] rest Hs _ IH]; [reflexivity|].
  rewrite filter_weak_onsets_cons. simpl in Hs.
  apply Qle_bool_iff in Hs. rewrite Hs. simpl. now rewrite IH.
Qed.

(** Raising the threshold.  The times kept at a threshold are among the
    times kept at any lower threshold, so the output only shrinks as
    [min_strength] grows and is never longer than the input; times that
    were ascending stay ascending; and when every strength is below the
    threshold nothing is kept. *)
Theorem filter_weak_onsets_monotone (events : list (Q * Q))
    (low high : Q) :
  low <= high ->
  (forall time,
      In time (filter_weak_onsets events high) ->
      In time (filter_weak_onsets events low)) /\
  (length (filter_weak_onsets events high)
   <= length (filter_weak_onsets events low) <= length events)%nat /\
  (Sorted Qle (map fst events) ->
   Sorted Qle (filter_weak_onsets events high)) /\
  (Forall (fun onset => snd onset < high) events ->
   filter_weak_onsets events high = []).
Proof.
  intro Hlh. split; [|split; [|split]].
  - intros time Hin. apply filter_weak_onsets_In in Hin.
    destruct Hin as [s [Hin Hle]]. apply filter_weak_onsets_In.
    exists s. split; [exact Hin|]. now apply Qle_trans with high.
  - induction events as [|[t s] rest IH]; [simpl; lia|].
    rewrite !filter_weak_onsets_cons.
    destruct (Qle_bool high s) eqn:Hh.
    + apply Qle_bool_iff in Hh.
      assert (Hl : Qle_bool low s = true)
        by (apply Qle_bool_iff; now apply Qle_trans with high).
      rewrite Hl. simpl. lia.
    + destruct (Qle_bool low s); simpl; lia.
  - intro Hs. apply StronglySorted_Sorted.
    apply Sorted_StronglySorted in Hs; [|exact Qle_trans].
    induction events as [|[t s] rest IH]; [constructor|].
    simpl in Hs. inversion Hs as [|? ? Hrest Hall]; subst.
    rewrite filter_weak_onsets_cons.
    destruct (Qle_bool high s); [|now apply IH].
    constructor; [now apply IH|].
    rewrite Forall_forall in *. intros z Hz.
    apply filter_weak_onsets_In in Hz. destruct Hz as [sz [Hz _]].
    apply Hall. apply in_map_iff. now exists (z, sz).
  - induction 1 as [|[t s] rest Hs _ IH]; [reflexivity|].
    rewrite filter_weak_onsets_cons. simpl in Hs.
    apply Qle_bool_false_iff in Hs. now rewrite Hs.
Qed.

Lemma filter_weak_onsets_monotone_witness :
  let events := [(0, 1); (1 # 2, 1 # 10); (1, 3 # 10)] in
  1 # 10 <= 3 # 10 /\
  filter_weak_onsets events (3 # 10) = [0; 1] /\
  filter_weak_onsets events (1 # 10) = [0; 1 # 2; 1] /\
  (length (filter_weak_onsets events (3 # 10))
   <= length (filter_weak_onsets events (1 # 10)) <= length events)%nat.
Proof.
  intro events.
  assert (H : 1 # 10 <= 3 # 10) by discriminate.
  split; [exact H|]. split; [reflexivity|]. split; [reflexivity|].
  exact (proj1 (proj2 (filter_weak_onsets_monotone events _ _ H))).
Defined.

(** ** Facts: detection followed by filtering *)

Section DetectThenFilter.

Variable librosa_installed : bool.
Variable os_path_exists : string -> bool.
Variable librosa_load : string -> result (list Q * Z).
Variable onset_strength : list Q -> Z -> Z -> result (list Q).
Variable onset_detect_envelope :
  list Q -> Z -> Z -> bool -> result (list Z).

Local Abbreviation detect_onsets_with_strength :=
  (detect_onsets_with_strength librosa_installed os_path_exists
     librosa_load onset_strength onset_detect_envelope).

Lemma detect_onsets_with_strength_run
    audio_path hop_length y sr onset_env onset_frames raw strengths :
  os_path_exists audio_path = true ->
  librosa_installed = true ->
  librosa_load audio_path = Ok (y, sr) ->
  onset_strength y sr hop_length = Ok onset_env ->
  onset_detect_envelope onset_env sr hop_length true = Ok onset_frames ->
  np_take onset_env onset_frames = Ok raw ->
  normalize_strengths raw = Ok strengths ->
  detect_onsets_with_strength audio_path hop_length
  = Ok (combine (frames_to_time onset_frames sr hop_length) strengths).
Proof.
  intros Hex Hlib Hload Henv Hframes Hraw Hnorm.
  unfold OnsetDetector.detect_onsets_with_strength. rewrite Hex.
  cbn [negb]. rewrite try_except_Exception.
  unfold OnsetDetector.import_librosa. rewrite Hlib.
  cbn [bind]. rewrite Hload. cbn [bind]. rewrite Henv. cbn [bind].
  rewrite Hframes. cbn [bind]. rewrite Hraw. cbn [bind].
  rewrite Hnorm. reflexivity.
Qed.

(** Detection followed by filtering.  On the output of
    [detect_onsets_with_strength] (librosa's envelope being
    non-negative), [filter_weak_onsets] with threshold 0 returns every
    detected time, and with any threshold up to 1 it returns at least
    one time as soon as some onset has a positive raw strength: the
    loudest onset always survives. *)
Theorem detect_then_filter
    audio_path hop_length y sr onset_env onset_frames raw :
  os_path_exists audio_path = true ->
  librosa_installed = true ->
  librosa_load audio_path = Ok (y, sr) ->
  onset_strength y sr hop_length = Ok onset_env ->
  Forall (fun v => 0 <= v) onset_env ->
  onset_detect_envelope onset_env sr hop_length true = Ok onset_frames ->
  np_take onset_env onset_frames = Ok raw ->
  exists onsets,
    detect_onsets_with_strength audio_path hop_length = Ok onsets /\
    filter_weak_onsets onsets 0
    = frames_to_time onset_frames sr hop_length /\
    (Exists (fun r => 0 < r) raw ->
     forall min_strength,
       min_strength <= 1 -> filter_weak_onsets onsets min_strength <> []).
Proof.
  intros Hex Hlib Hload Henv Hpos Hframes Hraw.
  destruct (np_take_spec _ _ _ Hraw) as [Hlen Hin].
  assert (Hrawpos : Forall (fun v => 0 <= v) raw).
  { rewrite Forall_forall in *. intros v Hv. apply Hpos. now apply Hin. }
  destruct (normalize_strengths_spec raw Hrawpos)
    as [strengths [Hnorm [Hlen' Hspec]]].
  set (times := frames_to_time onset_frames sr hop_length).
  assert (Htimes : length times = length strengths).
  { unfold times, frames_to_time. rewrite length_map. congruence. }
  exists (combine times strengths).
  split; [now apply (detect_onsets_with_strength_run _ _ y sr onset_env
                       onset_frames raw)|].
  (* the largest raw strength, when there is an onset *)
  assert (Hmax : raw = [] \/
                 exists m, In m raw /\ Forall (fun r => r <= m) raw).
  { destruct raw as [|r0 raw'] eqn:E; [now left|right].
    destruct (np_max_spec (r0 :: raw')) as [m [_ [H1 H2]]];
      [discriminate|]. now exists m. }
  split.
  - rewrite filter_weak_onsets_all; [now apply map_fst_combine|].
    assert (Hs : Forall (fun s => 0 <= s) strengths).
    { destruct Hmax as [->|[m [Hm Hall]]].
      - destruct strengths; [constructor|discriminate].
      - destruct (Hspec m Hm Hall) as [Hp Hz].
        assert (H0m : 0 <= m)
          by (rewrite Forall_forall in Hrawpos; now apply Hrawpos).
        destruct (Qlt_le_dec 0 m) as [Hlt|Hle].
        + destruct (Hp Hlt) as [_ [Hb _]].
          eapply Forall_impl; [|exact Hb]. now intros s [H _].
        + destruct (Hz (Qle_antisym _ _ Hle H0m)) as [_ Hzero].
          eapply Forall_impl; [|exact Hzero].
          intros s ->. apply Qle_refl. }
    rewrite Forall_forall in *. intros [t s] Hts.
    apply Hs. simpl. eapply in_combine_r; eassumption.
  - intros Hsome min_strength Hle.
    destruct Hmax as [->|[m [Hm Hall]]]; [inversion Hsome|].
    assert (Hmpos : 0 < m).
    { apply Exists_exists in Hsome. destruct Hsome as [r [Hr Hrpos]].
      rewrite Forall_forall in Hall.
      exact (Qlt_le_trans _ _ _ Hrpos (Hall r Hr)). }
    destruct (Hspec m Hm Hall) as [Hp _].
    destruct (Hp Hmpos) as [_ [_ Hone]].
    apply Exists_exists in Hone. destruct Hone as [s [Hs Hs1]].
    assert (Hpair : exists t, In (t, s) (combine times strengths)).
    { clear -Hs Htimes. revert strengths Hs Htimes.
      induction times as [|t ts IH]; intros [|s0 ss] Hs Hlen;
        simpl in *; try contradiction; try discriminate.
      destruct Hs as [->|Hs].
      - exists t. now left.
      - destruct (IH ss Hs) as [t' Ht']; [congruence|].
        exists t'. now right. }
    destruct Hpair as [t Ht].
    assert (Hkept : In t (filter_weak_onsets (combine times strengths)
                            min_strength)).
    { apply filter_weak_onsets_In. exists s. split; [exact Ht|].
      rewrite Hs1. exact Hle. }
    intro Hnil. rewrite Hnil in Hkept. exact Hkept.
Qed.

End DetectThenFilter.

(** ** A concrete run

    Two seconds of audio at 1024 Hz with onsets detected at frames 1, 3
    and 5 and a tempo estimate of 120 BPM. *)

Definition sample_exists (path : string) : bool := String.eqb path "drums.wav".

Definition sample_load (path : string) : result (list Q * Z) :=
  Ok (repeat 0 2048, 1024%Z).

Definition sample_envelope : list Q := [0; 1 # 2; 0; 2; 0; 1].

Definition sample_frames : list Z := [1; 3; 5]%Z.

Definition sample_analysis (path : string) : result drum_analysis :=
  analyze_drum_pattern true sample_exists sample_load
    (fun _ _ _ _ => Ok sample_frames) (fun _ _ => Ok 120) path false (1 # 10).

Example analyze_drum_pattern_sample :
  sample_analysis "drums.wav"
  = Ok {| onset_times := [512 # 1024; 1536 # 1024; 2560 # 1024];
          num_hits := 3;
          tempo_bpm := 120;
          duration_seconds := 2048 / 1024;
          hit_density := 3 / (2048 / 1024) |}.
Proof. vm_compute. reflexivity. Qed.

Lemma detect_onsets_errors_witness :
  detect_onsets false sample_exists sample_load
    (fun _ _ _ _ => Ok sample_frames) "drums.wav" 512 false (3 # 10)
  = Raise (mk_exn ImportError
             "librosa is not installed. Run: pip install librosa").
Proof.
  exact (proj1 (proj2 (detect_onsets_errors false sample_exists sample_load
                         (fun _ _ _ _ => Ok sample_frames)
                         "drums.wav" 512 false (3 # 10)))
           eq_refl eq_refl).
Defined.

Lemma detect_onsets_with_strength_errors_witness :
  detect_onsets_with_strength false sample_exists sample_load
    (fun _ _ _ => Ok sample_envelope) (fun _ _ _ _ => Ok sample_frames)
    "drums.wav" 512
  = Raise (mk_exn RuntimeError
             "Failed to detect onsets: No module named 'librosa'").
Proof.
  exact (proj1 (proj2 (detect_onsets_with_strength_errors false
                         sample_exists sample_load
                         (fun _ _ _ => Ok sample_envelope)
                         (fun _ _ _ _ => Ok sample_frames)
                         "drums.wav" 512))
           eq_refl eq_refl).
Defined.

Lemma detect_onsets_times_witness :
  Sorted Z.le sample_frames /\
  exists times,
    detect_onsets true sample_exists sample_load
      (fun _ _ _ _ => Ok sample_frames) "drums.wav" 512 false (3 # 10)
    = Ok times /\
    Sorted Qle times.
Proof.
  assert (Hs : Sorted Z.le sample_frames)
    by (repeat constructor; discriminate).
  split; [exact Hs|].
  destruct (detect_onsets_times true sample_exists sample_load
              (fun _ _ _ _ => Ok sample_frames) "drums.wav" 512 false
              (3 # 10) (repeat 0 2048) 1024 sample_frames
              eq_refl eq_refl eq_refl eq_refl eq_refl eq_refl)
    as [times [Hrun [_ [_ [Hsorted _]]]]].
  exists times. split; [exact Hrun|]. exact (Hsorted Hs).
Defined.

Lemma get_tempo_result_witness :
  get_tempo true sample_exists sample_load (fun _ _ => Ok 120) "drums.wav"
  = Ok 120.
Proof.
  exact (proj1 (proj2 (get_tempo_result true sample_exists sample_load
                         (fun _ _ => Ok 120) "drums.wav"))
           (repeat 0 2048) 1024%Z 120 eq_refl eq_refl eq_refl eq_refl).
Defined.


Lemma analyze_drum_pattern_errors_witness :
  analyze_drum_pattern true sample_exists
    (fun _ => Ok (repeat 0 2048, 0%Z))
    (fun _ _ _ _ => Ok sample_frames) (fun _ _ => Ok 120)
    "drums.wav" false (1 # 10)
  = Raise (mk_exn RuntimeError
             "Failed to analyze drum pattern: division by zero").
Proof.
  exact (proj1 (proj2 (proj2
           (analyze_drum_pattern_errors true sample_exists
              (fun _ => Ok (repeat 0 2048, 0%Z))
              (fun _ _ _ _ => Ok sample_frames) (fun _ _ => Ok 120)
              "drums.wav" false (1 # 10))))
           (repeat 0 2048) eq_refl eq_refl).
Defined.

Lemma detect_then_filter_witness :
  Forall (fun v => 0 <= v) sample_envelope /\
  np_take sample_envelope sample_frames = Ok [1 # 2; 2; 1] /\
  exists onsets,
    detect_onsets_with_strength true sample_exists sample_load
      (fun _ _ _ => Ok sample_envelope) (fun _ _ _ _ => Ok sample_frames)
      "drums.wav" 512 = Ok onsets /\
    filter_weak_onsets onsets 0 = frames_to_time sample_frames 1024 512 /\
    filter_weak_onsets onsets default_min_strength <> [].
Proof.
  assert (Hpos : Forall (fun v => 0 <= v) sample_envelope)
    by (repeat constructor; discriminate).
  split; [exact Hpos|]. split; [reflexivity|].
  destruct (detect_then_filter true sample_exists sample_load
              (fun _ _ _ => Ok sample_envelope)
              (fun _ _ _ _ => Ok sample_frames)
              "drums.wav" 512 (repeat 0 2048) 1024%Z sample_envelope
              sample_frames [1 # 2; 2; 1]
              eq_refl eq_refl eq_refl eq_refl Hpos eq_refl eq_refl)
    as [onsets [Hrun [Hall Hloud]]].
  exists onsets. split; [exact Hrun|]. split; [exact Hall|].
  apply Hloud; [left; reflexivity|discriminate].
Defined.

End OnsetDetectorFacts.

(* ===================================================================== *)
(** * Further facts: utils.py, stem_separator.py, audio_service.py *)
(* ===================================================================== *)

Module AudioServiceFacts.
Import Py AudioService.
Local Open Scope string_scope.
Local Open Scope io_scope.

Section UtilsFacts.

Context {World Audio Separator : Type}.
Context {platform : Platform World Audio Separator}.

(** ** [validate_audio_file] *)

Lemma size_within_limit (file_size_bytes max_size_mb : Z) :
  Qlt_bool (inject_Z max_size_mb)
    (inject_Z file_size_bytes / inject_Z (1024 * 1024)) = false <->
  (file_size_bytes <= max_size_mb * 1048576)%Z.
Proof.
  rewrite Qlt_bool_false_iff.
  unfold Qle, Qdiv, Qmult, Qinv, inject_Z. simpl. lia.
Qed.

(** An accepted file.  When [validate_audio_file] answers [(True, msg)]
    the message is empty, the file exists, its lower-cased extension is
    one of the allowed formats, its size is at most [max_size_mb]
    mebibytes, and pydub decodes it to audio of non-zero length; the
    check leaves the world as it found it. *)
Theorem validate_audio_file_accepts audio_path max_size_mb allowed_formats
    w msg w' :
  validate_audio_file audio_path max_size_mb allowed_formats w
  = (Ok (true, msg), w') ->
  msg = EmptyString /\ w' = w /\
  os_path_exists audio_path w = true /\
  str_in (lower (lstrip_dot (path_suffix audio_path)))
    (match allowed_formats with
     | None => default_allowed_formats
     | Some formats => formats
     end) = true /\
  (exists file_size_bytes,
      os_path_getsize audio_path w = Ok file_size_bytes /\
      (file_size_bytes <= max_size_mb * 1048576)%Z) /\
  import_pydub w = Ok tt /\
  (exists audio,
      AudioSegment_from_file audio_path w = Ok audio /\
      audio_len audio <> 0%Z).
Proof.
  unfold validate_audio_file, io_bind, path_exists, inspect, ret.
  destruct (os_path_exists audio_path w); cbn [negb]; [|discriminate].
  destruct (str_in _ _); cbn [negb]; [|discriminate].
  destruct (os_path_getsize audio_path w) as [size|e] eqn:Hsize;
    [|discriminate].
  destruct (Qlt_bool _ _) eqn:Hlimit; [discriminate|].
  apply size_within_limit in Hlimit.
  unfold io_try.
  destruct (import_pydub w) as [[]|e] eqn:Himp.
  2:{ cbn [io_dispatch]. rewrite isinstance_Exception. discriminate. }
  destruct (AudioSegment_from_file audio_path w) as [audio|e] eqn:Hfile.
  2:{ cbn [io_dispatch]. rewrite isinstance_Exception. discriminate. }
  destruct (Z.eqb_spec (audio_len audio) 0) as [Hz|Hnz]; [discriminate|].
  intro H. injection H as <- <-.
  repeat split; eauto.
Qed.

Lemma validate_audio_file_cases audio_path max_size_mb allowed_formats w :
  exists r,
    validate_audio_file audio_path max_size_mb allowed_formats w = (r, w) /\
    (r = Ok (true, EmptyString)
     \/ (exists msg, r = Ok (false, msg) /\ msg <> EmptyString)
     \/ (exists e, r = Raise e /\ os_path_exists audio_path w = true /\
                   os_path_getsize audio_path w = Raise e)).
Proof.
  unfold validate_audio_file, io_bind, path_exists, inspect, ret, io_try.
  destruct (os_path_exists audio_path w); cbn [negb];
    [|eexists; split; [reflexivity|right; left; eexists;
                       split; [reflexivity|discriminate]]].
  destruct (str_in _ _); cbn [negb];
    [|eexists; split; [reflexivity|right; left; eexists;
                       split; [reflexivity|discriminate]]].
  destruct (os_path_getsize audio_path w) as [size|e];
    [|eexists; split; [reflexivity|right; right; eexists;
                       repeat split; reflexivity]].
  destruct (Qlt_bool _ _);
    [eexists; split; [reflexivity|right; left; eexists;
                      split; [reflexivity|discriminate]]|].
  destruct (import_pydub w) as [[]|e];
    [|cbn [io_dispatch]; rewrite isinstance_Exception;
      eexists; split; [reflexivity|right; left; eexists;
                       split; [reflexivity|discriminate]]].
  destruct (AudioSegment_from_file audio_path w) as [audio|e];
    [|cbn [io_dispatch]; rewrite isinstance_Exception;
      eexists; split; [reflexivity|right; left; eexists;
                       split; [reflexivity|discriminate]]].
  destruct (audio_len audio =? 0)%Z.
  - eexists; split; [reflexivity|right; left; eexists;
                     split; [reflexivity|discriminate]].
  - eexists; split; [reflexivity|now left].
Qed.

(** A rejected file and the one way to raise.  [validate_audio_file]
    never changes the world.  When it answers [(False, msg)] the message
    is not empty; a missing file is answered "File not found: ..."
    without raising; and the only exception that can leave the function
    is one raised by [os.path.getsize] on an existing file of an allowed
    format (decoding errors are turned into a rejection). *)
Theorem validate_audio_file_rejects audio_path max_size_mb allowed_formats
    w :
  (forall r w',
      validate_audio_file audio_path max_size_mb allowed_formats w = (r, w')
      -> w' = w) /\
  (forall msg w',
      validate_audio_file audio_path max_size_mb allowed_formats w
      = (Ok (false, msg), w') -> msg <> EmptyString) /\
  (os_path_exists audio_path w = false ->
   validate_audio_file audio_path max_size_mb allowed_formats w
   = (Ok (false, "File not found: " ++ audio_path), w)) /\
  (forall e w',
      validate_audio_file audio_path max_size_mb allowed_formats w
      = (Raise e, w') ->
      os_path_exists audio_path w = true /\
      os_path_getsize audio_path w = Raise e).
Proof.
  destruct (validate_audio_file_cases audio_path max_size_mb
              allowed_formats w) as [r0 [Hrun Hcases]].
  split; [intros r w' H; rewrite Hrun in H; now injection H|].
  split.
  { intros msg w' H. rewrite Hrun in H. injection H as -> _.
    destruct Hcases as [H|[[m [H Hm]]|[e [H _]]]];
      [discriminate | now injection H as <- | discriminate]. }
  split.
  { intro Hmissing. unfold validate_audio_file, io_bind, path_exists.
    now rewrite Hmissing. }
  intros e w' H. rewrite Hrun in H. injection H as -> _.
  destruct Hcases as [H|[[m [H _]]|[e0 [H [Hex Hsize]]]]];
    [discriminate | discriminate | ].
  injection H as <-. now split.
Qed.

(** ** [get_audio_info] *)

Lemma get_audio_info_cases audio_path w :
  exists r,
    get_audio_info audio_path w = (r, w) /\
    ((os_path_exists audio_path w = false /\
      r = Raise (mk_exn FileNotFoundError
                   ("Audio file not found: " ++ audio_path)))
     \/ (os_path_exists audio_path w = true /\
         exists e0, r = Raise (mk_exn RuntimeError
                                 ("Failed to get audio info: " ++ str e0)))
     \/ (exists audio file_size_bytes,
            AudioSegment_from_file audio_path w = Ok audio /\
            os_path_getsize audio_path w = Ok file_size_bytes /\
            r = Ok {| duration_seconds :=
                        (inject_Z (audio_len audio) / 1000)%Q;
                      sample_rate := audio_frame_rate audio;
                      channels := audio_channels audio;
                      format := lstrip_dot (path_suffix audio_path);
                      file_size_mb :=
                        round2 (inject_Z file_size_bytes
                                / inject_Z (1024 * 1024)) |})).
Proof.
  unfold get_audio_info, io_bind, path_exists, inspect, ret, raise, io_try.
  destruct (os_path_exists audio_path w); cbn [negb];
    [|eexists; split; [reflexivity|left; now split]].
  destruct (import_pydub w) as [[]|e0];
    [|cbn [io_dispatch]; rewrite isinstance_Exception;
      eexists; split; [reflexivity|right; left; split;
                       [reflexivity|now exists e0]]].
  destruct (AudioSegment_from_file audio_path w) as [audio|e0];
    [|cbn [io_dispatch]; rewrite isinstance_Exception;
      eexists; split; [reflexivity|right; left; split;
                       [reflexivity|now exists e0]]].
  destruct (os_path_getsize audio_path w) as [size|e0];
    [|cbn [io_dispatch]; rewrite isinstance_Exception;
      eexists; split; [reflexivity|right; left; split;
                       [reflexivity|now exists e0]]].
  eexists. split; [reflexivity|]. right; right.
  exists audio, size. repeat split.
Qed.

(** [get_audio_info].  A missing file raises [FileNotFoundError]; any
    failure while reading an existing file is re-raised as
    [RuntimeError]; on success the duration is [len(audio) / 1000], the
    sample rate and channel count are those of the decoded audio, the
    format is the extension without its dot and the size is rounded to
    two decimals.  The world is left unchanged. *)
Theorem get_audio_info_result audio_path w :
  (forall r w', get_audio_info audio_path w = (r, w') -> w' = w) /\
  (os_path_exists audio_path w = false ->
   get_audio_info audio_path w
   = (Raise (mk_exn FileNotFoundError
               ("Audio file not found: " ++ audio_path)), w)) /\
  (forall e w',
      get_audio_info audio_path w = (Raise e, w') ->
      (exn_class e = FileNotFoundError /\ os_path_exists audio_path w = false)
      \/ (exn_class e = RuntimeError /\ os_path_exists audio_path w = true))
  /\
  (forall info w',
      get_audio_info audio_path w = (Ok info, w') ->
      exists audio file_size_bytes,
        AudioSegment_from_file audio_path w = Ok audio /\
        os_path_getsize audio_path w = Ok file_size_bytes /\
        duration_seconds info = (inject_Z (audio_len audio) / 1000)%Q /\
        sample_rate info = audio_frame_rate audio /\
        channels info = audio_channels audio /\
        format info = lstrip_dot (path_suffix audio_path) /\
        file_size_mb info
        = round2 (inject_Z file_size_bytes / inject_Z (1024 * 1024))).
Proof.
  destruct (get_audio_info_cases audio_path w) as [r0 [Hrun Hcases]].
  split; [intros r w' H; rewrite Hrun in H; now injection H|].
  split.
  { intro Hmissing. unfold get_audio_info, io_bind, path_exists.
    now rewrite Hmissing. }
  split.
  - intros e w' H. rewrite Hrun in H. injection H as -> _.
    destruct Hcases as [[Hex H]|[[Hex [e0 H]]|[audio [size [_ [_ H]]]]]];
      [left | right | discriminate]; injection H as ->; now split.
  - intros info w' H. rewrite Hrun in H. injection H as -> _.
    destruct Hcases as [[_ H]|[[_ [e0 H]]|[audio [size [Ha [Hs H]]]]]];
      [discriminate | discriminate | ].
    injection H as ->. exists audio, size. repeat split; assumption.
Qed.

(** ** [trim_audio] *)






(** Exceptions of [trim_audio].  A missing file raises
    [FileNotFoundError]; with a valid range, a missing pydub raises
    [ImportError] with the installation hint and every other failure of
    decoding, directory creation or export raises [RuntimeError]; no
    exception class other than [FileNotFoundError], [ValueError],
    [ImportError] and [RuntimeError] leaves the function. *)
Theorem trim_audio_errors audio_path output_path
    start_time_seconds end_time_seconds format w :
  (os_path_exists audio_path w = false ->
   trim_audio audio_path output_path start_time_seconds end_time_seconds
     format w
   = (Raise (mk_exn FileNotFoundError
               ("Audio file not found: " ++ audio_path)), w)) /\
  (forall e w',
      trim_audio audio_path output_path start_time_seconds
        end_time_seconds format w = (Raise e, w') ->
      In (exn_class e)
        [FileNotFoundError; ValueError; ImportError; RuntimeError]).
Proof.
  split.
  - intro Hmissing. unfold trim_audio, io_bind, path_exists.
    now rewrite Hmissing.
  - intros e w'.
    unfold trim_audio, io_bind at 1, path_exists, raise.
    destruct (os_path_exists audio_path w); cbn [negb];
      [|intro H; injection H as <- _; simpl; auto].
    destruct (Qlt_bool start_time_seconds 0);
      [intro H; injection H as <- _; simpl; auto|].
    destruct (Qle_bool end_time_seconds start_time_seconds);
      [intro H; injection H as <- _; simpl; auto|].
    destruct (Qlt_bool _ 15); [intro H; injection H as <- _; simpl; auto|].
    destruct (Qlt_bool 90 _); [intro H; injection H as <- _; simpl; auto|].
    unfold io_try.
    match goal with
    | |- match ?body w with _ => _ end = _ -> _ =>
        destruct (body w) as [[a|e0] w0]
    end; [discriminate|].
    cbn [io_dispatch].
    destruct (isinstance e0 ImportError);
      [|rewrite isinstance_Exception];
      intro H; injection H as <- _; simpl; auto.
Qed.

(** ** [separate_stems] and [get_drum_stem] *)

(** The four stem paths [separate_stems] reports. *)
Definition expected_stems (audio_path output_dir codec : string)
  : dict string string :=
  let stem_dir := os_path_join output_dir (path_stem audio_path) in
  [("drums", os_path_join stem_dir ("drums." ++ codec));
   ("bass", os_path_join stem_dir ("bass." ++ codec));
   ("vocals", os_path_join stem_dir ("vocals." ++ codec));
   ("other", os_path_join stem_dir ("other." ++ codec))].

(** [stem_paths['drums']] *)
Definition get_drum_stem (audio_path output_dir : string)
  : IO World string :=
  stem_paths <- separate_stems audio_path output_dir "spleeter:4stems"
                  "wav" "128k" ;;
  match get String.eqb stem_paths "drums" with
  | Some path => ret path
  | None => raise (mk_exn KeyError "'drums'")
  end.

Lemma verify_stems_cases items w :
  (verify_stems items w = (Ok tt, w) /\
   Forall (fun item => os_path_exists (snd item) w = true) items)
  \/ (exists stem_name stem_path,
        In (stem_name, stem_path) items /\
        os_path_exists stem_path w = false /\
        verify_stems items w
        = (Raise (mk_exn RuntimeError
                    ("Failed to generate " ++ stem_name ++ " stem")), w)).
Proof.
  induction items as [|[stem_name stem_path] rest IH].
  - left. split; [reflexivity|constructor].
  - cbn [verify_stems]. unfold io_bind, path_exists.
    destruct (os_path_exists stem_path w) eqn:Hex; cbn [negb].
    + destruct IH as [[Hrun Hall]|[n [p [Hin [Hmiss Hrun]]]]].
      * left. split; [exact Hrun|]. now constructor.
      * right. exists n, p. split; [now right|]. now split.
    + right. exists stem_name, stem_path.
      split; [now left|]. now split.
Qed.

Lemma separate_stems_run audio_path output_dir model codec bitrate
    w stem_paths w' :
  separate_stems audio_path output_dir model codec bitrate w
  = (Ok stem_paths, w') ->
  os_path_exists audio_path w = true /\
  stem_paths = expected_stems audio_path output_dir codec /\
  Forall (fun item => os_path_exists (snd item) w' = true) stem_paths.
Proof.
  unfold separate_stems, io_bind at 1, path_exists.
  destruct (os_path_exists audio_path w); cbn [negb]; [|discriminate].
  unfold io_bind at 1.
  destruct (os_makedirs output_dir w) as [[[]|e0] w1]; [|discriminate].
  unfold io_try, io_bind, inspect, ret.
  destruct (import_spleeter w1) as [[]|e0].
  2:{ cbn [io_dispatch]. destruct (isinstance e0 ImportError);
        [discriminate|]. rewrite isinstance_Exception. discriminate. }
  destruct (Separator_new model w1) as [[separator|e0] w2].
  2:{ cbn [io_dispatch]. destruct (isinstance e0 ImportError);
        [discriminate|]. rewrite isinstance_Exception. discriminate. }
  destruct (separate_to_file separator audio_path output_dir codec bitrate
              w2) as [[[]|e0] w3].
  2:{ cbn [io_dispatch]. destruct (isinstance e0 ImportError);
        [discriminate|]. rewrite isinstance_Exception. discriminate. }
  fold (expected_stems audio_path output_dir codec).
  destruct (verify_stems_cases (expected_stems audio_path output_dir codec)
              w3) as [[Hrun Hall]|[n [p [_ [_ Hrun]]]]]; rewrite Hrun.
  - intro H. injection H as <- <-. repeat split. exact Hall.
  - cbn [io_dispatch]. cbn. discriminate.
Qed.

(** Successful separation.  When [separate_stems] returns, the input
    file existed and the result maps 'drums', 'bass', 'vocals', 'other',
    in this order, to [<output_dir>/<input stem>/<name>.<codec>]; each of
    the four files exists in the world the call leaves behind. *)
Theorem separate_stems_success audio_path output_dir model codec bitrate
    w stem_paths w' :
  separate_stems audio_path output_dir model codec bitrate w
  = (Ok stem_paths, w') ->
  os_path_exists audio_path w = true /\
  stem_paths
  = [("drums", os_path_join (os_path_join output_dir (path_stem audio_path))
                 ("drums." ++ codec));
     ("bass", os_path_join (os_path_join output_dir (path_stem audio_path))
                ("bass." ++ codec));
     ("vocals", os_path_join (os_path_join output_dir (path_stem audio_path))
                  ("vocals." ++ codec));
     ("other", os_path_join (os_path_join output_dir (path_stem audio_path))
                 ("other." ++ codec))] /\
  len stem_paths = 4%Z /\
  (forall name path,
      get String.eqb stem_paths name = Some path ->
      os_path_exists path w' = true).
Proof.
  intro Hrun.
  destruct (separate_stems_run _ _ _ _ _ _ _ _ Hrun) as [Hex [-> Hall]].
  split; [exact Hex|]. split; [reflexivity|]. split; [reflexivity|].
  intros name path Hget. rewrite Forall_forall in Hall.
  apply (Hall (name, path)).
  unfold expected_stems in *. cbn [get] in Hget. cbn [In].
  repeat match type of Hget with
         | (if String.eqb name ?k then _ else _) = _ =>
             destruct (String.eqb_spec name k) as [->|_];
             [injection Hget as <-; auto 6|]
         end.
  discriminate.
Qed.

(** Failing separation.  A missing input raises [FileNotFoundError].
    Apart from that and from a failure to create the output directory,
    every exception is [ImportError] or [RuntimeError]; in particular a
    stem file that Spleeter did not produce is reported as
    "Failed to separate stems: Failed to generate <name> stem". *)
Theorem separate_stems_errors audio_path output_dir model codec bitrate w :
  (os_path_exists audio_path w = false ->
   separate_stems audio_path output_dir model codec bitrate w
   = (Raise (mk_exn FileNotFoundError
               ("Audio file not found: " ++ audio_path)), w)) /\
  (forall e w',
      separate_stems audio_path output_dir model codec bitrate w
      = (Raise e, w') ->
      (exn_class e = FileNotFoundError /\ os_path_exists audio_path w = false)
      \/ os_makedirs output_dir w = (Raise e, w')
      \/ exn_class e = ImportError \/ exn_class e = RuntimeError) /\
  (forall w1 separator w2 w3,
      os_path_exists audio_path w = true ->
      os_makedirs output_dir w = (Ok tt, w1) ->
      import_spleeter w1 = Ok tt ->
      Separator_new model w1 = (Ok separator, w2) ->
      separate_to_file separator audio_path output_dir codec bitrate w2
      = (Ok tt, w3) ->
      ~ Forall (fun item => os_path_exists (snd item) w3 = true)
          (expected_stems audio_path output_dir codec) ->
      exists stem_name,
        In stem_name ["drums"; "bass"; "vocals"; "other"] /\
        separate_stems audio_path output_dir model codec bitrate w
        = (Raise (mk_exn RuntimeError
                    ("Failed to separate stems: Failed to generate "
                     ++ stem_name ++ " stem")), w3)).
Proof.
  split; [|split].
  - intro Hmissing. unfold separate_stems, io_bind, path_exists.
    now rewrite Hmissing.
  - intros e w'. unfold separate_stems, io_bind at 1, path_exists, raise.
    destruct (os_path_exists audio_path w); cbn [negb];
      [|intro H; injection H as <- _; left; now split].
    unfold io_bind at 1.
    destruct (os_makedirs output_dir w) as [[[]|e0] w1];
      [|intro H; right; left; injection H as <- <-; reflexivity].
    unfold io_try.
    match goal with
    | |- match ?body w1 with _ => _ end = _ -> _ =>
        destruct (body w1) as [[a|e0] w0]
    end; [discriminate|].
    cbn [io_dispatch].
    destruct (isinstance e0 ImportError);
      [|rewrite isinstance_Exception];
      intro H; injection H as <- _; simpl; auto.
  - intros w1 separator w2 w3 Hex Hmk Himp Hsep Hrun Hmissing.
    unfold separate_stems, io_bind at 1, path_exists.
    rewrite Hex. cbn [negb]. unfold io_bind at 1. rewrite Hmk.
    unfold io_try, io_bind, inspect, ret. rewrite Himp, Hsep, Hrun.
    fold (expected_stems audio_path output_dir codec).
    destruct (verify_stems_cases (expected_stems audio_path output_dir codec)
                w3) as [[_ Hall]|[n [p [Hin [_ Hv]]]]]; [contradiction|].
    rewrite Hv. exists n. split.
    + apply (in_map fst) in Hin. exact Hin.
    + reflexivity.
Qed.

(** [get_drum_stem].  When it returns, the path is
    [<output_dir>/<input stem>/drums.wav] and that file exists; it raises
    exactly when [separate_stems] does, with the same exception: the
    lookup of 'drums' cannot fail. *)
Theorem get_drum_stem_result audio_path output_dir w :
  (forall path w',
      get_drum_stem audio_path output_dir w = (Ok path, w') ->
      path = os_path_join (os_path_join output_dir (path_stem audio_path))
               "drums.wav" /\
      os_path_exists path w' = true) /\
  (forall e w',
      get_drum_stem audio_path output_dir w = (Raise e, w') <->
      separate_stems audio_path output_dir "spleeter:4stems" "wav" "128k" w
      = (Raise e, w')).
Proof.
  unfold get_drum_stem, io_bind.
  destruct (separate_stems audio_path output_dir "spleeter:4stems" "wav"
              "128k" w) as [[stems|e0] w1] eqn:Hrun.
  - destruct (separate_stems_run _ _ _ _ _ _ _ _ Hrun)
      as [_ [-> Hall]].
    cbn. split.
    + intros path w' H. injection H as <- <-. split; [reflexivity|].
      inversion Hall; subst. assumption.
    + intros e w'. split; discriminate.
  - split; [discriminate|]. intros e w'.
    split; intro H; injection H as <- <-; reflexivity.
Qed.

(** ** Cleanup: [cleanup_stems] and [cleanup_processing_artifacts] *)

(** [shutil.rmtree]. *)
Variable shutil_rmtree : string -> IO World unit.

Definition cleanup_stems (stem_dir : string) : IO World unit :=
  dir_exists <- path_exists stem_dir ;;
  if dir_exists then
    io_try (shutil_rmtree stem_dir) [(OSError, fun e => raise e)]
  else ret tt.

(** The loop [for directory in directories_to_clean]. *)
Fixpoint clean_directories (directories : list string) : IO World unit :=
  match directories with
  | [] => ret tt
  | directory :: rest =>
      dir_exists <- path_exists directory ;;
      _ <- (if dir_exists then
              io_try (shutil_rmtree directory) [(OSError, fun _ => ret tt)]
            else ret tt) ;;
      clean_directories rest
  end.

Definition cleanup_processing_artifacts (output_base_dir : string)
  : IO World unit :=
  let directories_to_clean :=
    [os_path_join output_base_dir "trimmed";
     os_path_join output_base_dir "stems"] in
  clean_directories directories_to_clean.

(** The two cleanups differ on failure.  [cleanup_stems] does nothing
    when the directory is absent and otherwise behaves exactly like
    [shutil.rmtree], failures included (the [OSError] is re-raised).
    [cleanup_processing_artifacts], given that [shutil.rmtree] fails
    with [OSError] only, never raises, and when neither of
    [<base>/trimmed] and [<base>/stems] exists it leaves the world
    untouched. *)
Theorem cleanup_behaviour (base stem_dir : string) (w : World) :
  (forall path w0 e w1,
      shutil_rmtree path w0 = (Raise e, w1) -> isinstance e OSError = true)
  ->
  cleanup_stems stem_dir w
  = (if os_path_exists stem_dir w then shutil_rmtree stem_dir w
     else (Ok tt, w)) /\
  (exists w', cleanup_processing_artifacts base w = (Ok tt, w')) /\
  (os_path_exists (os_path_join base "trimmed") w = false ->
   os_path_exists (os_path_join base "stems") w = false ->
   cleanup_processing_artifacts base w = (Ok tt, w)).
Proof.
  intro Hlaw. split; [|split].
  - unfold cleanup_stems, io_bind, path_exists.
    destruct (os_path_exists stem_dir w); [|reflexivity].
    unfold io_try.
    destruct (shutil_rmtree stem_dir w) as [[[]|e] w1] eqn:Hrm;
      [reflexivity|].
    cbn [io_dispatch]. now rewrite (Hlaw _ _ _ _ Hrm).
  - unfold cleanup_processing_artifacts.
    generalize [os_path_join base "trimmed"; os_path_join base "stems"].
    intro dirs. revert w.
    induction dirs as [|d rest IH]; intro w; [now exists w|].
    cbn [clean_directories]. unfold io_bind, path_exists.
    destruct (os_path_exists d w); [|apply IH].
    unfold io_try.
    destruct (shutil_rmtree d w) as [[[]|e] w1] eqn:Hrm; [apply IH|].
    cbn [io_dispatch]. rewrite (Hlaw _ _ _ _ Hrm). apply IH.
  - intros H1 H2. unfold cleanup_processing_artifacts.
    cbn [clean_directories]. unfold io_bind, path_exists, ret.
    now rewrite H1, H2.
Qed.

(** ** [convert_to_wav] *)

(** [audio.set_frame_rate], [audio.set_channels],
    [str(Path(p).with_suffix(s))]. *)
Variable audio_set_frame_rate : Audio -> Z -> Audio.
Variable audio_set_channels : Audio -> Z -> Audio.
Variable path_with_suffix : string -> string -> string.

Definition convert_to_wav (audio_path : string)
    (output_path : option string) (sample_rate channels : Z)
  : IO World string :=
  file_exists <- path_exists audio_path ;;
  if negb file_exists then
    raise (mk_exn FileNotFoundError
             ("Audio file not found: " ++ audio_path))
  else
    let output_path :=
      match output_path with
      | None => path_with_suffix audio_path ".wav"
      | Some path => path
      end in
    io_try
      (_ <- inspect import_pydub ;;
       audio <- inspect (AudioSegment_from_file audio_path) ;;
       let audio := audio_set_frame_rate audio sample_rate in
       let audio := audio_set_channels audio channels in
       _ <- audio_export audio output_path "wav" ;;
       ret output_path)
      [(Exception, fun e =>
          raise (mk_exn RuntimeError
                   ("Failed to convert to WAV: " ++ str e)))].

(** [convert_to_wav].  A missing input raises [FileNotFoundError]; every
    other failure, a missing pydub included, is re-raised as
    [RuntimeError].  On success the function returns the output path it
    was given, or the input path with its suffix replaced by [.wav], after
    exporting to it the decoded input resampled to [sample_rate] and then
    remixed to [channels]. *)
Theorem convert_to_wav_result audio_path output_path sample_rate channels w :
  let target :=
    match output_path with
    | None => path_with_suffix audio_path ".wav"
    | Some path => path
    end in
  (os_path_exists audio_path w = false ->
   convert_to_wav audio_path output_path sample_rate channels w
   = (Raise (mk_exn FileNotFoundError
               ("Audio file not found: " ++ audio_path)), w)) /\
  (forall e0,
      os_path_exists audio_path w = true -> import_pydub w = Raise e0 ->
      convert_to_wav audio_path output_path sample_rate channels w
      = (Raise (mk_exn RuntimeError
                  ("Failed to convert to WAV: " ++ str e0)), w)) /\
  (forall e w',
      convert_to_wav audio_path output_path sample_rate channels w
      = (Raise e, w') ->
      exn_class e = FileNotFoundError \/ exn_class e = RuntimeError) /\
  (forall path w',
      convert_to_wav audio_path output_path sample_rate channels w
      = (Ok path, w') ->
      path = target /\
      exists audio,
        AudioSegment_from_file audio_path w = Ok audio /\
        audio_export
          (audio_set_channels (audio_set_frame_rate audio sample_rate)
             channels) target "wav" w = (Ok tt, w')).
Proof.
  intro target.
  assert (Hrun :
    convert_to_wav audio_path output_path sample_rate channels w
    = if os_path_exists audio_path w then
        match import_pydub w with
        | Raise e0 =>
            (Raise (mk_exn RuntimeError
                      ("Failed to convert to WAV: " ++ str e0)), w)
        | Ok _ =>
            match AudioSegment_from_file audio_path w with
            | Raise e0 =>
                (Raise (mk_exn RuntimeError
                          ("Failed to convert to WAV: " ++ str e0)), w)
            | Ok audio =>
                match
                  audio_export
                    (audio_set_channels
                       (audio_set_frame_rate audio sample_rate) channels)
                    target "wav" w
                with
                | (Raise e0, w1) =>
                    (Raise (mk_exn RuntimeError
                              ("Failed to convert to WAV: " ++ str e0)), w1)
                | (Ok _, w1) => (Ok target, w1)
                end
            end
        end
      else (Raise (mk_exn FileNotFoundError
                     ("Audio file not found: " ++ audio_path)), w)).
  { unfold convert_to_wav. fold target.
    unfold io_bind at 1. unfold path_exists.
    destruct (os_path_exists audio_path w); [|reflexivity].
    cbn [negb]. rewrite io_try_Exception.
    unfold io_bind, inspect, ret, raise.
    destruct (import_pydub w) as [[]|e1]; [|reflexivity].
    destruct (AudioSegment_from_file audio_path w) as [audio|e1];
      [|reflexivity].
    now destruct (audio_export _ target "wav" w) as [[[]|e1] w1]. }
  rewrite Hrun. clear Hrun.
  destruct (os_path_exists audio_path w).
  2:{ split; [reflexivity|]. split; [intros; discriminate|].
      split; [|intros; discriminate].
      intros e w' H. injection H as <- _. now left. }
  split; [intros; discriminate|].
  destruct (import_pydub w) as [[]|e1]; cbv beta iota.
  2:{ split; [intros e0 _ H; now injection H as <-|].
      split; [|intros; discriminate].
      intros e w' H. injection H as <- _. now right. }
  split; [intros; discriminate|].
  destruct (AudioSegment_from_file audio_path w) as [audio|e1];
    cbv beta iota.
  2:{ split; [|intros; discriminate].
      intros e w' H. injection H as <- _. now right. }
  destruct (audio_export _ target "wav" w) as [[[]|e1] w1] eqn:Hexp;
    cbv beta iota.
  2:{ split; [|intros; discriminate].
      intros e w' H. injection H as <- _. now right. }
  split; [intros; discriminate|].
  intros path w' H. injection H as <- <-.
  split; [reflexivity|]. exists audio. now split.
Qed.

(** ** [process_audio_snippet] and [get_drum_pattern] *)

Definition get_drum_pattern (audio_path : string)
    (start_time_seconds end_time_seconds : Q) (output_base_dir : string)
  : IO World AudioProcessingResult :=
  process_audio_snippet audio_path start_time_seconds end_time_seconds
    output_base_dir true true.

(** [trimmed_path] as [process_audio_snippet] builds it from the base
    directory and the identifier drawn. *)
Definition snippet_path (output_base_dir uuid : string) : string :=
  os_path_join (os_path_join output_base_dir "trimmed")
    ("snippet_" ++ prefix_of 8 uuid ++ ".wav").

Lemma lift_run {A} (c : IO World A) st r st' :
  lift c st = (r, st') ->
  c (world st) = (r, world st') /\ temp_files st' = temp_files st.
Proof.
  unfold lift. destruct (c (world st)) as [r0 w0].
  intro H. injection H as <- <-. now split.
Qed.

Lemma trim_audio_returns audio_path output_path start_time_seconds
    end_time_seconds format w path w' :
  trim_audio audio_path output_path start_time_seconds end_time_seconds
    format w = (Ok path, w') ->
  path = output_path /\
  (0 <= start_time_seconds /\ start_time_seconds < end_time_seconds /\
   15 <= end_time_seconds - start_time_seconds /\
   end_time_seconds - start_time_seconds <= 90).
Proof.
  unfold trim_audio, io_bind, path_exists, inspect, ret, raise, io_try.
  destruct (os_path_exists audio_path w); cbn [negb]; [|discriminate].
  destruct (Qlt_bool start_time_seconds 0) eqn:E1; [discriminate|].
  destruct (Qle_bool end_time_seconds start_time_seconds) eqn:E2;
    [discriminate|].
  destruct (Qlt_bool _ 15) eqn:E3; [discriminate|].
  destruct (Qlt_bool 90 _) eqn:E4; [discriminate|].
  apply Qlt_bool_false_iff in E1, E3, E4. apply Qle_bool_false_iff in E2.
  destruct (import_pydub w) as [[]|e0].
  2:{ cbn [io_dispatch]. destruct (isinstance e0 ImportError);
        [discriminate|]. rewrite isinstance_Exception. discriminate. }
  destruct (AudioSegment_from_file audio_path w) as [audio|e0].
  2:{ cbn [io_dispatch]. destruct (isinstance e0 ImportError);
        [discriminate|]. rewrite isinstance_Exception. discriminate. }
  destruct (Qlt_bool _ end_time_seconds).
  { cbn [io_dispatch]. cbn. discriminate. }
  destruct (os_makedirs (os_path_dirname output_path) w)
    as [[[]|e0] w1].
  2:{ cbn [io_dispatch]. destruct (isinstance e0 ImportError);
        [discriminate|]. rewrite isinstance_Exception. discriminate. }
  destruct (audio_export _ output_path format w1) as [[[]|e0] w2].
  2:{ cbn [io_dispatch]. destruct (isinstance e0 ImportError);
        [discriminate|]. rewrite isinstance_Exception. discriminate. }
  intro H. injection H as <- <-. repeat split; assumption.
Qed.

(** The stages a successful call went through. *)
Lemma process_audio_snippet_stages audio_path start_time_seconds
    end_time_seconds output_base_dir extract_stems cleanup_after w res w' :
  process_audio_snippet audio_path start_time_seconds end_time_seconds
    output_base_dir extract_stems cleanup_after w = (Ok res, w') ->
  success res = true ->
  exists original_info uuid w1 w2 w3 trimmed_info stems w4,
    let trimmed_path := snippet_path output_base_dir uuid in
    validate_audio_file audio_path 50 None w = (Ok (true, EmptyString), w) /\
    get_audio_info audio_path w = (Ok original_info, w) /\
    uuid4 w = (Ok uuid, w1) /\
    os_makedirs (os_path_join output_base_dir "trimmed") w1 = (Ok tt, w2) /\
    trim_audio audio_path trimmed_path start_time_seconds end_time_seconds
      "wav" w2 = (Ok trimmed_path, w3) /\
    get_audio_info trimmed_path w3 = (Ok trimmed_info, w3) /\
    (if extract_stems then
       exists w3',
         os_makedirs (os_path_join output_base_dir "stems") w3
         = (Ok tt, w3') /\
         separate_stems trimmed_path (os_path_join output_base_dir "stems")
           "spleeter:4stems" "wav" "128k" w3' = (Ok stems, w4)
     else stems = [] /\ w4 = w3) /\
    (if cleanup_after then remove_if_exists trimmed_path w4 = (Ok tt, w')
     else w' = w4) /\
    res = AudioProcessingResult_init true (Some stems)
            (Some [("snippet_id", VStr (prefix_of 8 uuid));
                   ("original_file", VStr (path_name audio_path));
                   ("original_duration_seconds",
                    VFloat (duration_seconds original_info));
                   ("snippet_duration_seconds",
                    VFloat (duration_seconds trimmed_info));
                   ("start_time", VFloat start_time_seconds);
                   ("end_time", VFloat end_time_seconds);
                   ("sample_rate", VInt (sample_rate trimmed_info));
                   ("channels", VInt (channels trimmed_info));
                   ("stems_extracted", VBool extract_stems);
                   ("num_stems", VInt (len stems))]) None.
Proof.
  unfold process_audio_snippet. rewrite io_try_Exception.
  destruct (process_audio_snippet_body audio_path start_time_seconds
              end_time_seconds output_base_dir extract_stems cleanup_after
              {| world := w; temp_files := [] |}) as [[res0|e] st] eqn:Hbody.
  2:{ destruct (process_audio_snippet_handler_total cleanup_after e st)
        as [st' ->].
      intro H. injection H as <- _. discriminate. }
  intro H. injection H as <- <-. intro Hsuccess.
  revert Hbody.
  unfold process_audio_snippet_body, io_bind, io_try, ret, raise.
  intro H.
  destruct (lift (validate_audio_file audio_path 50 None) _)
    as [[[is_valid error_msg]|e] st1] eqn:Hvalid; [|discriminate].
  destruct is_valid; cbn [negb] in H.
  2:{ injection H as <- _. discriminate. }
  apply lift_run in Hvalid. destruct Hvalid as [Hvalid _].
  cbn [world] in Hvalid.
  destruct (validate_audio_file_cases audio_path 50 None w)
    as [r0 [Hv0 Hcases]].
  assert (Hw1 : world st1 = w) by congruence.
  assert (Hmsg : error_msg = EmptyString).
  { rewrite Hv0 in Hvalid. injection Hvalid as -> _.
    destruct Hcases as [Hc|[[m [Hc _]]|[e [Hc _]]]];
      [now injection Hc | discriminate | discriminate]. }
  subst error_msg. rewrite Hw1 in Hvalid.
  destruct (lift (get_audio_info audio_path) st1)
    as [[original_info|e] st2] eqn:Hinfo; [|discriminate].
  apply lift_run in Hinfo. destruct Hinfo as [Hinfo _].
  rewrite Hw1 in Hinfo.
  destruct (get_audio_info_cases audio_path w) as [r1 [Hi0 _]].
  assert (Hw2 : world st2 = w) by congruence.
  rewrite Hw2 in Hinfo.
  destruct (lift uuid4 st2) as [[uuid|e] st3] eqn:Huuid; [|discriminate].
  apply lift_run in Huuid. destruct Huuid as [Huuid _].
  rewrite Hw2 in Huuid.
  destruct (lift (os_makedirs _) st3) as [[[]|e] st4] eqn:Hmk;
    [|discriminate].
  apply lift_run in Hmk. destruct Hmk as [Hmk _].
  destruct (lift (trim_audio _ _ _ _ _) st4)
    as [[trimmed_path|e] st5] eqn:Htrim.
  2:{ cbn [io_dispatch] in H.
      destruct (isinstance e ValueError); [|discriminate].
      injection H as <- _. discriminate. }
  apply lift_run in Htrim. destruct Htrim as [Htrim _].
  fold (snippet_path output_base_dir uuid) in Htrim.
  destruct (trim_audio_returns _ _ _ _ _ _ _ _ Htrim) as [Hpath _].
  subst trimmed_path.
  unfold temp_files_append in H. cbv beta iota in H. cbn [world] in H.
  destruct (lift (get_audio_info _) _)
    as [[trimmed_info|e] st7] eqn:Hinfo2; [|discriminate].
  apply lift_run in Hinfo2. destruct Hinfo2 as [Hinfo2 _].
  cbn [world] in Hinfo2.
  destruct (get_audio_info_cases (snippet_path output_base_dir uuid)
              (world st5)) as [r2 [Hi2 _]].
  assert (Hw7 : world st7 = world st5) by congruence.
  rewrite Hw7 in Hinfo2.
  exists original_info, uuid, (world st3), (world st4), (world st5),
    trimmed_info.
  destruct extract_stems.
  - destruct (lift (os_makedirs _) st7) as [[[]|e] st8] eqn:Hmk2;
      [|discriminate].
    apply lift_run in Hmk2. destruct Hmk2 as [Hmk2 _].
    rewrite Hw7 in Hmk2.
    destruct (lift (separate_stems _ _ _ _ _) st8)
      as [[stems|e] st9] eqn:Hsep.
    2:{ cbn [io_dispatch] in H. rewrite isinstance_Exception in H.
        injection H as <- _. discriminate. }
    apply lift_run in Hsep. destruct Hsep as [Hsep _].
    exists stems, (world st9). cbv zeta.
    assert (Hstems : exists w3',
               os_makedirs (os_path_join output_base_dir "stems")
                 (world st5) = (Ok tt, w3') /\
               separate_stems (snippet_path output_base_dir uuid)
                 (os_path_join output_base_dir "stems")
                 "spleeter:4stems" "wav" "128k" w3'
               = (Ok stems, world st9))
      by (exists (world st8); now split).
    destruct cleanup_after.
    + destruct (lift (remove_if_exists _) st9)
        as [[[]|e] st10] eqn:Hrm; [|discriminate].
      apply lift_run in Hrm. destruct Hrm as [Hrm _].
      injection H as <- <-.
      repeat (split; [assumption|]). reflexivity.
    + injection H as <- <-.
      repeat (split; [assumption || reflexivity|]). reflexivity.
  - exists [], (world st5). cbv zeta.
    destruct cleanup_after.
    + destruct (lift (remove_if_exists _) st7)
        as [[[]|e] st10] eqn:Hrm; [|discriminate].
      apply lift_run in Hrm. destruct Hrm as [Hrm _].
      rewrite Hw7 in Hrm.
      injection H as <- <-.
      repeat (split; [assumption || (split; reflexivity)|]). reflexivity.
    + injection H as <- <-.
      repeat (split; [assumption || (split; reflexivity)|]).
      reflexivity.
Qed.


(** [get_drum_pattern] on success.  The result holds the drum stem under
    the key 'drums', at
    [<base>/stems/<stem of the trimmed snippet>/drums.wav], where the
    snippet is [<base>/trimmed/snippet_<first 8 characters of the
    uuid>.wav]; four stems are reported; and the drum file existed when
    the trimmed snippet was cleaned up, which is the last thing the call
    does. *)
Theorem get_drum_pattern_success audio_path start_time_seconds
    end_time_seconds output_base_dir w res w' :
  get_drum_pattern audio_path start_time_seconds end_time_seconds
    output_base_dir w = (Ok res, w') ->
  success res = true ->
  exists uuid drums w4,
    drums
    = os_path_join
        (os_path_join (os_path_join output_base_dir "stems")
           (path_stem (snippet_path output_base_dir uuid)))
        "drums.wav" /\
    get String.eqb (stem_paths res) "drums" = Some drums /\
    get String.eqb (metadata res) "snippet_id"
    = Some (VStr (prefix_of 8 uuid)) /\
    get String.eqb (metadata res) "num_stems" = Some (VInt 4) /\
    os_path_exists drums w4 = true /\
    remove_if_exists (snippet_path output_base_dir uuid) w4 = (Ok tt, w').
Proof.
  unfold get_drum_pattern. intros Hrun Hsuccess.
  destruct (process_audio_snippet_stages _ _ _ _ _ _ _ _ _ Hrun Hsuccess)
    as (original_info & uuid & w1 & w2 & w3 & trimmed_info & stems & w4
        & _ & _ & _ & _ & _ & _ & [w3' [_ Hsep]] & Hrm & ->).
  destruct (separate_stems_run _ _ _ _ _ _ _ _ Hsep) as [_ [-> Hall]].
  exists uuid,
    (os_path_join
       (os_path_join (os_path_join output_base_dir "stems")
          (path_stem (snippet_path output_base_dir uuid)))
       "drums.wav"), w4.
  split; [reflexivity|]. split; [reflexivity|].
  split; [reflexivity|]. split; [reflexivity|].
  split; [|exact Hrm].
  inversion Hall; subst. assumption.
Qed.


(** A rejected file.  When [validate_audio_file] rejects the upload,
    [process_audio_snippet] answers "Validation failed: <message>" and
    leaves the world exactly as it was: no identifier is drawn and no
    directory is created.  A missing file in particular is answered
    "Validation failed: File not found: <path>". *)
Theorem process_audio_snippet_rejected_file audio_path start_time_seconds
    end_time_seconds output_base_dir extract_stems cleanup_after w :
  (forall msg w0,
      validate_audio_file audio_path 50 None w = (Ok (false, msg), w0) ->
      process_audio_snippet audio_path start_time_seconds end_time_seconds
        output_base_dir extract_stems cleanup_after w
      = (Ok (AudioProcessingResult_init false None None
               (Some ("Validation failed: " ++ msg))), w)) /\
  (os_path_exists audio_path w = false ->
   process_audio_snippet audio_path start_time_seconds end_time_seconds
     output_base_dir extract_stems cleanup_after w
   = (Ok (AudioProcessingResult_init false None None
            (Some ("Validation failed: File not found: " ++ audio_path))),
      w)).
Proof.
  assert (Hgen : forall msg w0,
      validate_audio_file audio_path 50 None w = (Ok (false, msg), w0) ->
      process_audio_snippet audio_path start_time_seconds end_time_seconds
        output_base_dir extract_stems cleanup_after w
      = (Ok (AudioProcessingResult_init false None None
               (Some ("Validation failed: " ++ msg))), w)).
  { intros msg w0 Hvalid.
    destruct (validate_audio_file_cases audio_path 50 None w)
      as [r0 [Hv0 _]].
    assert (w0 = w) by congruence. subst w0.
    unfold process_audio_snippet. rewrite io_try_Exception.
    unfold process_audio_snippet_body, io_bind at 1, lift at 1.
    cbn [world temp_files]. rewrite Hvalid. reflexivity. }
  split; [exact Hgen|].
  intro Hmissing. apply (Hgen _ w).
  unfold validate_audio_file, io_bind, path_exists.
  now rewrite Hmissing.
Qed.



(** A failed stem separation.  When [process_audio_snippet] answers
    "Stem separation failed: <detail>", stems were requested, trimming
    had succeeded, and [detail] is the message of the exception that
    [separate_stems] raised on the trimmed snippet.  The world returned
    is the one [separate_stems] left: the call stops there, so the
    trimmed snippet is not removed, whatever [cleanup_after] says. *)
Theorem process_audio_snippet_stem_failure audio_path start_time_seconds
    end_time_seconds output_base_dir extract_stems cleanup_after
    w res w' detail :
  process_audio_snippet audio_path start_time_seconds end_time_seconds
    output_base_dir extract_stems cleanup_after w = (Ok res, w') ->
  error res = Some ("Stem separation failed: " ++ detail) ->
  extract_stems = true /\
  exists uuid w2 w3 w3' e,
    trim_audio audio_path (snippet_path output_base_dir uuid)
      start_time_seconds end_time_seconds "wav" w2
    = (Ok (snippet_path output_base_dir uuid), w3) /\
    os_makedirs (os_path_join output_base_dir "stems") w3 = (Ok tt, w3') /\
    separate_stems (snippet_path output_base_dir uuid)
      (os_path_join output_base_dir "stems") "spleeter:4stems" "wav" "128k"
      w3' = (Raise e, w') /\
    detail = str e.
Proof.
  unfold process_audio_snippet. rewrite io_try_Exception.
  destruct (process_audio_snippet_body audio_path start_time_seconds
              end_time_seconds output_base_dir extract_stems cleanup_after
              {| world := w; temp_files := [] |}) as [[res0|e] st] eqn:Hbody.
  2:{ destruct (process_audio_snippet_handler_total cleanup_after e st)
        as [st' ->].
      intro H. injection H as <- _. discriminate. }
  intro H. injection H as <- <-. intro Herror.
  revert Hbody.
  unfold process_audio_snippet_body, io_bind, io_try, ret, raise.
  intro H.
  destruct (lift (validate_audio_file audio_path 50 None) _)
    as [[[is_valid error_msg]|e] st1]; [|discriminate].
  destruct is_valid; cbn [negb] in H.
  2:{ injection H as <- _. discriminate. }
  destruct (lift (get_audio_info audio_path) st1)
    as [[original_info|e] st2]; [|discriminate].
  destruct (lift uuid4 st2) as [[uuid|e] st3]; [|discriminate].
  destruct (lift (os_makedirs _) st3) as [[[]|e] st4]; [|discriminate].
  destruct (lift (trim_audio _ _ _ _ _) st4)
    as [[trimmed_path|e] st5] eqn:Htrim.
  2:{ cbn [io_dispatch] in H.
      destruct (isinstance e ValueError); [|discriminate].
      injection H as <- _. discriminate. }
  apply lift_run in Htrim. destruct Htrim as [Htrim _].
  fold (snippet_path output_base_dir uuid) in Htrim.
  destruct (trim_audio_returns _ _ _ _ _ _ _ _ Htrim) as [Hpath _].
  subst trimmed_path.
  unfold temp_files_append in H. cbv beta iota in H. cbn [world] in H.
  destruct (lift (get_audio_info _) _)
    as [[trimmed_info|e] st7] eqn:Hinfo2; [|discriminate].
  apply lift_run in Hinfo2. destruct Hinfo2 as [Hinfo2 _].
  cbn [world] in Hinfo2.
  destruct (get_audio_info_cases (snippet_path output_base_dir uuid)
              (world st5)) as [r2 [Hi2 _]].
  assert (Hw7 : world st7 = world st5) by congruence.
  destruct extract_stems.
  - split; [reflexivity|].
    destruct (lift (os_makedirs _) st7) as [[[]|e] st8] eqn:Hmk2;
      [|discriminate].
    apply lift_run in Hmk2. destruct Hmk2 as [Hmk2 _].
    rewrite Hw7 in Hmk2.
    destruct (lift (separate_stems _ _ _ _ _) st8)
      as [[stems|e] st9] eqn:Hsep.
    + exfalso. destruct cleanup_after.
      * destruct (lift (remove_if_exists _) st9) as [[[]|e] st10];
          [|discriminate].
        injection H as <- _. discriminate.
      * injection H as <- _. discriminate.
    + apply lift_run in Hsep. destruct Hsep as [Hsep _].
      cbn [io_dispatch] in H. rewrite isinstance_Exception in H.
      injection H as <- <-.
      exists uuid, (world st4), (world st5), (world st8), e.
      split; [exact Htrim|]. split; [exact Hmk2|]. split; [exact Hsep|].
      cbn [error AudioProcessingResult_init] in Herror.
      injection Herror as Herror.
      symmetry. exact Herror.
  - exfalso. destruct cleanup_after.
    + destruct (lift (remove_if_exists _) st7) as [[[]|e] st10];
        [|discriminate].
      injection H as <- _. discriminate.
    + injection H as <- _. discriminate.
Qed.

End UtilsFacts.

(** ** The properties at concrete inputs *)

(** A platform on which Spleeter is not installed. *)
Definition no_spleeter_platform
  : Platform sample_world sample_audio string :=
  {| os_path_exists := sample_exists;
     os_path_getsize := sample_getsize;
     os_makedirs := fun _ => ret tt;
     os_remove := sample_remove;
     os_path_join := sample_join;
     os_path_dirname := sample_dirname;
     path_name := sample_name;
     path_stem := sample_stem;
     path_suffix := sample_suffix;
     uuid4 := ret "3f2b8c1e-0d4a-4b6f-9c2e-7a1d5e8f0b3c";
     import_pydub := fun _ => Ok tt;
     AudioSegment_from_file := sample_from_file;
     audio_len := ms;
     audio_frame_rate := rate;
     audio_channels := chans;
     audio_slice := sample_slice;
     audio_export := sample_export;
     import_spleeter :=
       fun _ => Raise (mk_exn ImportError "No module named 'spleeter'");
     Separator_new := fun model => ret model;
     separate_to_file := sample_separate;
     os_remove_raises_OSError := sample_remove_raises_OSError |}.

(** A directory exists when a file lies at or below it. *)
Definition at_or_below (directory : string) (file : string * sample_audio)
  : bool :=
  String.eqb directory (fst file)
  || String.prefix (directory ++ "/") (fst file).

Definition tree_exists (path : string) (w : sample_world) : bool :=
  existsb (at_or_below path) w.

Definition tree_rmtree (path : string) : IO sample_world unit :=
  fun w =>
    if tree_exists path w then
      (Ok tt, filter (fun file => negb (at_or_below path file)) w)
    else (Raise (no_such_file path), w).

Definition tree_platform : Platform sample_world sample_audio string :=
  {| os_path_exists := tree_exists;
     os_path_getsize := sample_getsize;
     os_makedirs := fun _ => ret tt;
     os_remove := sample_remove;
     os_path_join := sample_join;
     os_path_dirname := sample_dirname;
     path_name := sample_name;
     path_stem := sample_stem;
     path_suffix := sample_suffix;
     uuid4 := ret "3f2b8c1e-0d4a-4b6f-9c2e-7a1d5e8f0b3c";
     import_pydub := fun _ => Ok tt;
     AudioSegment_from_file := sample_from_file;
     audio_len := ms;
     audio_frame_rate := rate;
     audio_channels := chans;
     audio_slice := sample_slice;
     audio_export := sample_export;
     import_spleeter := fun _ => Ok tt;
     Separator_new := fun model => ret model;
     separate_to_file := sample_separate;
     os_remove_raises_OSError := sample_remove_raises_OSError |}.

Lemma tree_rmtree_raises_OSError path w e w' :
  tree_rmtree path w = (Raise e, w') -> isinstance e OSError = true.
Proof.
  unfold tree_rmtree. destruct (tree_exists path w); [discriminate|].
  intro H. injection H as <- _. reflexivity.
Qed.

(** What a run leaves under the base directory. *)
Definition artifacts : sample_world :=
  [("storage/trimmed/snippet_3f2b8c1e.wav", song);
   ("storage/stems/snippet_3f2b8c1e/drums.wav", song);
   ("uploads/song.wav", song)].

Example cleanup_processing_artifacts_sample :
  cleanup_processing_artifacts (platform := tree_platform) tree_rmtree
    "storage" artifacts
  = (Ok tt, uploads).
Proof. reflexivity. Qed.

Definition sample_set_frame_rate (audio : sample_audio) (frame_rate : Z)
  : sample_audio :=
  {| ms := ms audio; rate := frame_rate; chans := chans audio |}.

Definition sample_set_channels (audio : sample_audio) (channels : Z)
  : sample_audio :=
  {| ms := ms audio; rate := rate audio; chans := channels |}.

Definition sample_with_suffix (path suffix : string) : string :=
  match rsplit "." path with
  | Some (stem, _) => stem ++ suffix
  | None => path ++ suffix
  end.

Example convert_to_wav_sample :
  convert_to_wav (platform := sample_platform) sample_set_frame_rate
    sample_set_channels sample_with_suffix "uploads/song.mp3" None 22050 1
    [("uploads/song.mp3", song)]
  = (Ok "uploads/song.wav",
     [("uploads/song.wav", {| ms := 20000; rate := 22050; chans := 1 |});
      ("uploads/song.mp3", song)]).
Proof. reflexivity. Qed.

Lemma validate_audio_file_accepts_witness :
  validate_audio_file (platform := sample_platform) "uploads/song.wav" 50
    None uploads = (Ok (true, EmptyString), uploads) /\
  exists file_size_bytes,
    sample_getsize "uploads/song.wav" uploads = Ok file_size_bytes /\
    (file_size_bytes <= 50 * 1048576)%Z.
Proof.
  assert (Hrun : validate_audio_file (platform := sample_platform)
                   "uploads/song.wav" 50 None uploads
                 = (Ok (true, EmptyString), uploads)) by reflexivity.
  split; [exact Hrun|].
  exact (proj1 (proj2 (proj2 (proj2 (proj2
           (validate_audio_file_accepts (platform := sample_platform)
              _ _ _ _ _ _ Hrun)))))).
Defined.

Lemma validate_audio_file_rejects_witness :
  validate_audio_file (platform := sample_platform) "uploads/notes.txt" 50
    None uploads
  = (Ok (false, "File not found: uploads/notes.txt"), uploads).
Proof.
  exact (proj1 (proj2 (proj2
           (validate_audio_file_rejects (platform := sample_platform)
              "uploads/notes.txt" 50 None uploads))) eq_refl).
Defined.

Lemma get_audio_info_result_witness :
  exists audio file_size_bytes,
    sample_from_file "uploads/song.wav" uploads = Ok audio /\
    sample_getsize "uploads/song.wav" uploads = Ok file_size_bytes /\
    (20000 / 1000)%Q = (inject_Z (ms audio) / 1000)%Q.
Proof.
  destruct (proj2 (proj2 (proj2
              (get_audio_info_result (platform := sample_platform)
                 "uploads/song.wav" uploads)))
              {| duration_seconds := 20000 / 1000;
                 sample_rate := 44100;
                 channels := 2;
                 format := "wav";
                 file_size_mb := round2 (3520044 / 1048576) |}
              uploads eq_refl)
    as [audio [size [Ha [Hs [Hd _]]]]].
  exists audio, size. split; [exact Ha|]. split; [exact Hs|].
  exact Hd.
Defined.



Lemma trim_audio_errors_witness :
  trim_audio (platform := sample_platform) "uploads/missing.wav"
    "storage/trimmed/snippet.wav" 2 18 "wav" uploads
  = (Raise (mk_exn FileNotFoundError
              "Audio file not found: uploads/missing.wav"), uploads).
Proof.
  exact (proj1 (trim_audio_errors (platform := sample_platform)
                  "uploads/missing.wav" "storage/trimmed/snippet.wav" 2 18
                  "wav" uploads) eq_refl).
Defined.

Lemma separate_stems_success_witness :
  sample_exists "storage/stems/song/vocals.wav"
    (snd (separate_stems (platform := sample_platform) "uploads/song.wav"
            "storage/stems" "spleeter:4stems" "wav" "128k" uploads))
  = true.
Proof.
  exact (proj2 (proj2 (proj2
           (separate_stems_success (platform := sample_platform)
              "uploads/song.wav" "storage/stems" "spleeter:4stems" "wav"
              "128k" uploads _ _ eq_refl)))
           "vocals" "storage/stems/song/vocals.wav" eq_refl).
Defined.

Lemma separate_stems_errors_witness :
  separate_stems (platform := sample_platform) "uploads/missing.wav"
    "storage/stems" "spleeter:4stems" "wav" "128k" uploads
  = (Raise (mk_exn FileNotFoundError
              "Audio file not found: uploads/missing.wav"), uploads).
Proof.
  exact (proj1 (separate_stems_errors (platform := sample_platform)
                  "uploads/missing.wav" "storage/stems" "spleeter:4stems"
                  "wav" "128k" uploads) eq_refl).
Defined.

Lemma get_drum_stem_result_witness :
  sample_exists "storage/stems/song/drums.wav"
    (snd (get_drum_stem (platform := sample_platform) "uploads/song.wav"
            "storage/stems" uploads))
  = true.
Proof.
  exact (proj2 (proj1 (get_drum_stem_result (platform := sample_platform)
                         "uploads/song.wav" "storage/stems" uploads)
                  _ _ eq_refl)).
Defined.

Lemma cleanup_behaviour_witness :
  cleanup_stems (platform := tree_platform) tree_rmtree "storage/stems"
    artifacts
  = tree_rmtree "storage/stems" artifacts /\
  exists w',
    cleanup_processing_artifacts (platform := tree_platform) tree_rmtree
      "storage" artifacts = (Ok tt, w').
Proof.
  destruct (cleanup_behaviour (platform := tree_platform) tree_rmtree
              "storage" "storage/stems" artifacts
              tree_rmtree_raises_OSError) as [Hstems [Hall _]].
  split; [exact Hstems|exact Hall].
Defined.

Lemma convert_to_wav_result_witness :
  convert_to_wav (platform := sample_platform) sample_set_frame_rate
    sample_set_channels sample_with_suffix "uploads/missing.mp3" None
    44100 2 uploads
  = (Raise (mk_exn FileNotFoundError
              "Audio file not found: uploads/missing.mp3"), uploads).
Proof.
  exact (proj1 (convert_to_wav_result (platform := sample_platform)
                  sample_set_frame_rate sample_set_channels
                  sample_with_suffix "uploads/missing.mp3" None 44100 2
                  uploads) eq_refl).
Defined.


Lemma get_drum_pattern_success_witness :
  exists uuid drums,
    drums
    = sample_join
        (sample_join (sample_join "storage" "stems")
           (sample_stem (snippet_path (platform := sample_platform)
                           "storage" uuid)))
        "drums.wav" /\
    get String.eqb
      (stem_paths
         match fst (get_drum_pattern (platform := sample_platform)
                      "uploads/song.wav" 2 18 "storage" uploads) with
         | Ok res => res
         | Raise _ => AudioProcessingResult_init false None None None
         end) "drums" = Some drums.
Proof.
  destruct (get_drum_pattern (platform := sample_platform)
              "uploads/song.wav" 2 18 "storage" uploads)
    as [r w'] eqn:Hrun.
  pose proof Hrun as Hval. vm_compute in Hval.
  destruct r as [res|e]; [|discriminate].
  assert (Hs : success res = true) by (now injection Hval as <- _).
  destruct (get_drum_pattern_success (platform := sample_platform)
              _ _ _ _ _ _ _ Hrun Hs)
    as (uuid & drums & w4 & Hd & Hget & _).
  exists uuid, drums. split; [exact Hd|exact Hget].
Defined.

Lemma process_audio_snippet_rejected_file_witness :
  process_audio_snippet (platform := sample_platform) "nonexistent.wav"
    0 15 "storage" true true uploads
  = (Ok (AudioProcessingResult_init false None None
           (Some "Validation failed: File not found: nonexistent.wav")),
     uploads).
Proof.
  exact (proj2 (process_audio_snippet_rejected_file
                  (platform := sample_platform) "nonexistent.wav" 0 15
                  "storage" true true uploads) eq_refl).
Defined.


Lemma process_audio_snippet_stem_failure_witness :
  exists uuid w3' e,
    separate_stems (platform := no_spleeter_platform)
      (snippet_path (platform := no_spleeter_platform) "storage" uuid)
      "storage/stems" "spleeter:4stems" "wav" "128k" w3'
    = (Raise e,
       [("storage/trimmed/snippet_3f2b8c1e.wav",
         {| ms := 16000; rate := 44100; chans := 2 |});
        ("uploads/song.wav", song)]) /\
    "Spleeter is not installed. Run: pip install spleeter" = str e.
Proof.
  destruct (process_audio_snippet_stem_failure
              (platform := no_spleeter_platform) "uploads/song.wav" 2 18
              "storage" true true uploads
              (AudioProcessingResult_init false None None
                 (Some "Stem separation failed: Spleeter is not installed. Run: pip install spleeter"))
              [("storage/trimmed/snippet_3f2b8c1e.wav",
                {| ms := 16000; rate := 44100; chans := 2 |});
               ("uploads/song.wav", song)]
              "Spleeter is not installed. Run: pip install spleeter"
              eq_refl eq_refl)
    as (_ & uuid & w2 & w3 & w3' & e & _ & _ & Hsep & Hd).
  exists uuid, w3', e. split; [exact Hsep|exact Hd].
Defined.

End AudioServiceFacts.
